(** * Google Cloud Dataproc operators

    A shallow embedding of [airflow/providers/google/cloud/operators/dataproc.py]:
    the cluster config generator, the duration parsers, the cluster
    create-or-adopt operator with its constructor and its two polling
    loops, the base job operator, and the runs of the scale, batch and
    job submission operators.  Python objects are records, exceptions are
    values of [exn], and calls to the Dataproc hook are answered by an
    oracle that sees the whole history of the run. *)

From Stdlib Require Import ZArith List String Ascii Bool Lia DecimalString.
Import ListNotations.
Local Open Scope string_scope.
Local Open Scope Z_scope.

(** ** Python runtime: exceptions, values, dictionaries *)

(** The exception classes that occur in the module.  [ApiError] stands for
    any other error of [google.api_core.exceptions]. *)
Inductive exn : Type :=
| AirflowException (msg : string)
| ValueError (msg : string)
| KeyError (key : string)
| TypeError (msg : string)
| OverflowError
| AlreadyExists
| NotFound
| ApiError (msg : string).

(** A call either raises ([inl]) or returns ([inr]). *)
Definition result (A : Type) : Type := (exn + A)%type.

Definition bind_result {A B : Type} (r : result A) (k : A -> result B) : result B :=
  match r with
  | inl e => inl e
  | inr x => k x
  end.

Declare Scope result_scope.
Delimit Scope result_scope with result.
Notation "x <- e ;; k" := (bind_result e (fun x => k))
  (at level 61, e at next level, right associativity) : result_scope.

Fixpoint map_result {A B : Type} (f : A -> result B) (xs : list A) : result (list B) :=
  match xs with
  | [] => inr []
  | x :: xs' =>
      (y <- f x ;; ys <- map_result f xs' ;; inr (y :: ys))%result
  end.

(** JSON-like Python values; a [dict] keeps its keys in insertion order. *)
#[local] Set Warnings "-register-all".
Inductive pyval : Type :=
| PyNone
| PyBool (b : bool)
| PyInt (n : Z)
| PyStr (s : string)
| PyList (xs : list pyval)
| PyDict (items : list (string * pyval)).

#[local] Set Warnings "+register-all".

Definition dict : Type := list (string * pyval).

(** [d.get(k)] *)
Fixpoint getitem (k : string) (d : dict) : option pyval :=
  match d with
  | [] => None
  | (k', v) :: d' => if (k' =? k)%string then Some v else getitem k d'
  end.

(** [d[k] = v] *)
Fixpoint setitem (k : string) (v : pyval) (d : dict) : dict :=
  match d with
  | [] => [(k, v)]
  | (k', v') :: d' =>
      if (k' =? k)%string then (k, v) :: d' else (k', v') :: setitem k v d'
  end.

(** [d[k1][k2] = v]: the outer subscript raises when [k1] is missing, the
    inner assignment when [d[k1]] is not a dictionary. *)
Definition setitem2 (k1 k2 : string) (v : pyval) (d : dict) : result dict :=
  match getitem k1 d with
  | Some (PyDict inner) => inr (setitem k1 (PyDict (setitem k2 v inner)) d)
  | Some _ => inl (TypeError "object does not support item assignment")
  | None => inl (KeyError k1)
  end.

(** [d.get(k1, {}).get(k2)], used to read a built config. *)
Definition getitem2 (k1 k2 : string) (d : dict) : option pyval :=
  match getitem k1 d with
  | Some (PyDict inner) => getitem k2 inner
  | _ => None
  end.

(** Truthiness of optional arguments: [if x:] binds the value when it is
    neither [None] nor empty (zero, [False]). *)
Definition if_str (o : option string) : option string :=
  match o with
  | Some (String c s) => Some (String c s)
  | _ => None
  end.

Definition if_int (o : option Z) : option Z :=
  match o with
  | Some n => if n =? 0 then None else Some n
  | None => None
  end.

Definition if_list {A : Type} (o : option (list A)) : option (list A) :=
  match o with
  | Some (x :: xs) => Some (x :: xs)
  | _ => None
  end.

Definition if_bool (o : option bool) : bool :=
  match o with
  | Some true => true
  | _ => false
  end.

Definition is_some {A : Type} (o : option A) : bool :=
  match o with
  | Some _ => true
  | None => false
  end.

(** ** Python runtime: [re.match], [int], [float], [timedelta] *)

(** A Python string is held by its UTF-8 bytes. *)
Definition byte (c : ascii) : Z := Z.of_N (N_of_ascii c).

(** The six low bits of a continuation byte. *)
Definition continuation (c : ascii) : option Z :=
  if (128 <=? byte c) && (byte c <? 192) then Some (byte c - 128) else None.

(** The character at the head of a string: its code point, its bytes, and
    the rest of the string.  A code point has one encoding, the shortest. *)
Definition next_char (s : string) : option (Z * string * string) :=
  match s with
  | EmptyString => None
  | String b0 s1 =>
      if byte b0 <? 128 then Some (byte b0, String b0 EmptyString, s1)
      else if byte b0 <? 194 then None
      else if byte b0 <? 224 then
        match s1 with
        | String b1 s2 =>
            match continuation b1 with
            | Some c1 =>
                Some ((byte b0 - 192) * 64 + c1, String b0 (String b1 EmptyString), s2)
            | None => None
            end
        | EmptyString => None
        end
      else if byte b0 <? 240 then
        match s1 with
        | String b1 (String b2 s3) =>
            match continuation b1, continuation b2 with
            | Some c1, Some c2 =>
                let code_point := ((byte b0 - 224) * 64 + c1) * 64 + c2 in
                if 2048 <=? code_point
                then Some (code_point, String b0 (String b1 (String b2 EmptyString)), s3)
                else None
            | _, _ => None
            end
        | _ => None
        end
      else
        match s1 with
        | String b1 (String b2 (String b3 s4)) =>
            match continuation b1, continuation b2, continuation b3 with
            | Some c1, Some c2, Some c3 =>
                let code_point := (((byte b0 - 240) * 64 + c1) * 64 + c2) * 64 + c3 in
                if (65536 <=? code_point) && (code_point <=? 1114111)
                then Some (code_point,
                           String b0 (String b1 (String b2 (String b3 EmptyString))), s4)
                else None
            | _, _, _ => None
            end
        | _ => None
        end
  end.

(** The decimal digits of Unicode 14.0, which Python 3.11 follows: the
    characters of the category Nd.  The ten digits of a script follow each
    other; these are the code points of the zeros. *)
Definition decimal_zeros : list Z :=
  [ 48; 1632; 1776; 1984; 2406; 2534; 2662; 2790; 2918; 3046; 3174; 3302; 3430; 3558;
    3664; 3792; 3872; 4160; 4240; 6112; 6160; 6470; 6608; 6784; 6800; 6992; 7088; 7232;
    7248; 42528; 43216; 43264; 43472; 43504; 43600; 44016; 65296; 66720; 68912; 69734;
    69872; 69942; 70096; 70384; 70736; 70864; 71248; 71360; 71472; 71904; 72016; 72784;
    73040; 73120; 92768; 92864; 93008; 120782; 120792; 120802; 120812; 120822; 123200;
    123632; 125264; 130032 ].

(** A decimal digit at the head of a string, as [\d], [int] and [float]
    take it: its value, its bytes, and the rest of the string. *)
Definition decimal_digit (s : string) : option (Z * string * string) :=
  match next_char s with
  | Some (code_point, bytes, rest) =>
      match find (fun zero => (zero <=? code_point) && (code_point <? zero + 10))
              decimal_zeros with
      | Some zero => Some (code_point - zero, bytes, rest)
      | None => None
      end
  | None => None
  end.

(** An ASCII digit. *)
Definition is_digit (c : ascii) : bool :=
  ((48 <=? N_of_ascii c) && (N_of_ascii c <=? 57))%N.

(** The longest prefix of decimal digits and what follows it; a digit
    takes one byte at least, so that [fuel] bytes allow [fuel] digits. *)
Fixpoint span (fuel : nat) (s : string) : string * string :=
  match fuel with
  | O => (EmptyString, s)
  | S fuel' =>
      match decimal_digit s with
      | Some (_, bytes, rest) =>
          let (ds, tl) := span fuel' rest in (bytes ++ ds, tl)
      | None => (EmptyString, s)
      end
  end.

Definition span_digits (s : string) : string * string := span (String.length s) s.

Fixpoint mem_ascii (c : ascii) (cs : string) : bool :=
  match cs with
  | EmptyString => false
  | String c' cs' => (c' =? c)%char || mem_ascii c cs'
  end.

Definition newline : ascii := "010"%char.

(** [re.match(r"^(\d+)([units])$", s)]: the groups [(digits, unit)] or
    [None].  As in Python, [$] also matches just before a newline that ends
    the string. *)
Definition re_match (units : string) (s : string) : option (string * ascii) :=
  match span_digits s with
  | (String d ds, String u tl) =>
      if mem_ascii u units
         && ((tl =? EmptyString)%string || (tl =? String newline EmptyString)%string)
      then Some (String d ds, u)
      else None
  | _ => None
  end.

Fixpoint int_of_digits (fuel : nat) (acc : Z) (s : string) : Z :=
  match fuel with
  | O => acc
  | S fuel' =>
      match decimal_digit s with
      | Some (value, _, rest) => int_of_digits fuel' (10 * acc + value) rest
      | None => acc
      end
  end.

(** The number that a string of decimal digits denotes: the value that
    [int] and [float] start from, not yet the conversion itself, which
    follows as [python_int] and [float_of_str]. *)
Definition int_of_str (s : string) : Z := int_of_digits (String.length s) 0 s.

Fixpoint count_digits (fuel : nat) (s : string) : nat :=
  match fuel with
  | O => O
  | S fuel' =>
      match decimal_digit s with
      | Some (_, _, rest) => S (count_digits fuel' rest)
      | None => O
      end
  end.

(** The number of digits of a string of decimal digits. *)
Definition digits_in (s : string) : nat := count_digits (String.length s) s.

(** [sys.get_int_max_str_digits()], by default *)
Definition int_max_str_digits : nat := 4300.

(** [int(s)] for a string of decimal digits: since Python 3.11, and the
    security releases of the versions before it, a string of more digits
    than the limit is refused. *)
Definition python_int (s : string) : result Z :=
  if (int_max_str_digits <? digits_in s)%nat then
    inl (ValueError
           ("Exceeds the limit (4300 digits) for integer string conversion: value has "
            ++ NilEmpty.string_of_uint (Nat.to_uint (digits_in s))
            ++ " digits; use sys.set_int_max_str_digits() to increase the limit"))
  else inr (int_of_str s).

(** The floats that occur here are non-negative and integral, or infinite. *)
Inductive pyfloat : Type :=
| Finite (v : Z)
| Inf.

(** Rounding of a non-negative integer to 53 significant bits, ties to
    even (IEEE 754 binary64). *)
Definition float_round (n : Z) : Z :=
  let e := Z.log2 n + 1 - 53 in
  if e <=? 0 then n
  else
    let q := Z.shiftr n e in
    let r := Z.land n (Z.ones e) in
    let half := Z.shiftl 1 (e - 1) in
    let q' := if (half <? r) || ((r =? half) && Z.odd q) then q + 1 else q in
    Z.shiftl q' e.

(** [float(s)] for a string of decimal digits, of any length: correctly
    rounded, and infinite from [2^1024] on. *)
Definition float_of_str (s : string) : pyfloat :=
  let r := float_round (int_of_str s) in
  if r <? 2 ^ 1024 then Finite r else Inf.

(** [int(x)] for a float *)
Definition int_of_float (x : pyfloat) : result Z :=
  match x with
  | Finite v => inr v
  | Inf => inl OverflowError
  end.

(** [datetime.timedelta], held as its number of microseconds. *)
Record timedelta : Type := { microseconds : Z }.

Definition timedelta_max_days : Z := 999999999.

(** [timedelta(<unit>=val)] for a float [val], [us_per_unit] microseconds
    in the unit: the integral part is converted exactly, and a result of
    more than 999999999 days overflows. *)
Definition timedelta_of (us_per_unit : Z) (val : pyfloat) : result timedelta :=
  match val with
  | Inf => inl OverflowError
  | Finite v =>
      let us := v * us_per_unit in
      if timedelta_max_days <? us / 86400000000 then inl OverflowError
      else inr {| microseconds := us |}
  end.

Definition timedelta_minutes : pyfloat -> result timedelta := timedelta_of 60000000.
Definition timedelta_hours : pyfloat -> result timedelta := timedelta_of 3600000000.
Definition timedelta_days : pyfloat -> result timedelta := timedelta_of 86400000000.

(** [td.total_seconds()]: the quotient is exact for the whole numbers of
    seconds built above, all of them below [2^53]. *)
Definition total_seconds (td : timedelta) : pyfloat :=
  Finite (microseconds td / 1000000).

(** ** ClusterGenerator *)

Module ClusterGenerator.
Section Generator.

(** [datetime] objects are only converted to UTC and formatted with
    ['%Y-%m-%dT%H:%M:%S.%fZ']; both steps belong to [airflow.utils.timezone]
    and [datetime], and are taken together as [utc_strftime]. *)
Context {datetime : Type}.
Variable utc_strftime : datetime -> string.

(** The keyword arguments of [ClusterGenerator.__init__]. *)
Record kwargs : Type := {
  project_id : string;
  num_workers : option Z;
  zone : option string;
  network_uri : option string;
  subnetwork_uri : option string;
  internal_ip_only : option bool;
  tags : option (list string);
  storage_bucket : option string;
  init_actions_uris : option (list string);
  init_action_timeout : string;
  metadata : option dict;
  custom_image : option string;
  custom_image_project_id : option string;
  custom_image_family : option string;
  image_version : option string;
  autoscaling_policy : option string;
  properties : option dict;
  optional_components : option (list string);
  num_masters : Z;
  master_machine_type : string;
  master_disk_type : string;
  master_disk_size : Z;
  worker_machine_type : string;
  worker_disk_type : string;
  worker_disk_size : Z;
  num_preemptible_workers : Z;
  service_account : option string;
  service_account_scopes : option (list string);
  idle_delete_ttl : option Z;
  auto_delete_time : option datetime;
  auto_delete_ttl : option Z;
  customer_managed_key : option string;
  enable_component_gateway : option bool
}.

(** The defaults of the signature. *)
Definition defaults (project : string) : kwargs := {|
  project_id := project;
  num_workers := None;
  zone := None;
  network_uri := None;
  subnetwork_uri := None;
  internal_ip_only := None;
  tags := None;
  storage_bucket := None;
  init_actions_uris := None;
  init_action_timeout := "10m";
  metadata := None;
  custom_image := None;
  custom_image_project_id := None;
  custom_image_family := None;
  image_version := None;
  autoscaling_policy := None;
  properties := None;
  optional_components := None;
  num_masters := 1;
  master_machine_type := "n1-standard-4";
  master_disk_type := "pd-standard";
  master_disk_size := 1024;
  worker_machine_type := "n1-standard-4";
  worker_disk_type := "pd-standard";
  worker_disk_size := 1024;
  num_preemptible_workers := 0;
  service_account := None;
  service_account_scopes := None;
  idle_delete_ttl := None;
  auto_delete_time := None;
  auto_delete_ttl := None;
  customer_managed_key := None;
  enable_component_gateway := Some false
|}.

(** The generator object: every argument is stored as it is, except
    [self.properties = properties or {}] and
    [self.single_node = num_workers == 0]. *)
Record t : Type := {
  args :> kwargs;
  self_properties : dict;
  single_node : bool
}.

(** The assignments of [__init__]. *)
Definition attributes (kw : kwargs) : t := {|
  args := kw;
  self_properties := match properties kw with
                     | Some (p :: ps) => p :: ps
                     | _ => []
                     end;
  single_node := match num_workers kw with
                 | Some n => n =? 0
                 | None => false
                 end
|}.

Definition __init__ (kw : kwargs) : result t :=
  let self := attributes kw in
  if is_some (if_str (custom_image self)) && is_some (if_str (image_version self)) then
    inl (ValueError "The custom_image and image_version can't be both set")
  else if is_some (if_str (custom_image_family self)) && is_some (if_str (image_version self)) then
    inl (ValueError "The image_version and custom_image_family can't be both set")
  else if is_some (if_str (custom_image_family self)) && is_some (if_str (custom_image self)) then
    inl (ValueError "The custom_image and custom_image_family can't be both set")
  else if single_node self && (0 <? num_preemptible_workers self) then
    inl (ValueError "Single node cannot have preemptible workers.")
  else inr self.

Definition init_action_timeout_error : exn :=
  AirflowException
    ("DataprocClusterCreateOperator init_action_timeout"
     ++ " should be expressed in minutes or seconds. i.e. 10m, 30s").

Definition _get_init_action_timeout (self : t) : result dict :=
  match re_match "sm" (init_action_timeout self) with
  | Some (group1, group2) =>
      let val := float_of_str group1 in
      if (group2 =? "s")%char then
        (seconds <- int_of_float val ;;
         inr [("seconds", PyInt seconds)])%result
      else if (group2 =? "m")%char then
        (td <- timedelta_minutes val ;;
         seconds <- int_of_float (total_seconds td) ;;
         inr [("seconds", PyInt seconds)])%result
      else inl init_action_timeout_error
  | None => inl init_action_timeout_error
  end.

(** [if x: cluster_data[k1][k2] = v] *)
Definition set_if {A : Type} (o : option A) (k1 k2 : string) (v : A -> pyval)
    (cluster_data : dict) : result dict :=
  match o with
  | Some x => setitem2 k1 k2 (v x) cluster_data
  | None => inr cluster_data
  end.

Definition str_list (xs : list string) : pyval := PyList (map PyStr xs).

Definition _build_gce_cluster_config (self : t) (cluster_data : dict) : result dict :=
  (cluster_data <-
     set_if (if_str (zone self)) "gce_cluster_config" "zone_uri"
       (fun z => PyStr ("https://www.googleapis.com/compute/v1/projects/"
                        ++ project_id self ++ "/zones/" ++ z))
       cluster_data ;;
   cluster_data <-
     set_if (if_list (metadata self)) "gce_cluster_config" "metadata" PyDict cluster_data ;;
   cluster_data <-
     set_if (if_str (network_uri self)) "gce_cluster_config" "network_uri" PyStr cluster_data ;;
   cluster_data <-
     set_if (if_str (subnetwork_uri self)) "gce_cluster_config" "subnetwork_uri" PyStr
       cluster_data ;;
   cluster_data <-
     (if if_bool (internal_ip_only self) then
        if negb (is_some (if_str (subnetwork_uri self))) then
          inl (AirflowException
                 "Set internal_ip_only to true only when you pass a subnetwork_uri.")
        else setitem2 "gce_cluster_config" "internal_ip_only" (PyBool true) cluster_data
      else inr cluster_data) ;;
   cluster_data <-
     set_if (if_list (tags self)) "gce_cluster_config" "tags" str_list cluster_data ;;
   cluster_data <-
     set_if (if_str (service_account self)) "gce_cluster_config" "service_account" PyStr
       cluster_data ;;
   cluster_data <-
     set_if (if_list (service_account_scopes self)) "gce_cluster_config"
       "service_account_scopes" str_list cluster_data ;;
   inr cluster_data)%result.

Definition seconds_dict (n : Z) : pyval := PyDict [("seconds", PyInt n)].

(** A [datetime] is always true, so [if self.auto_delete_time:] tests for
    [None] only. *)
Definition _build_lifecycle_config (self : t) (cluster_data : dict) : result dict :=
  (cluster_data <-
     set_if (if_int (idle_delete_ttl self)) "lifecycle_config" "idle_delete_ttl"
       seconds_dict cluster_data ;;
   cluster_data <-
     match auto_delete_time self with
     | Some time =>
         setitem2 "lifecycle_config" "auto_delete_time" (PyStr (utc_strftime time))
           cluster_data
     | None =>
         set_if (if_int (auto_delete_ttl self)) "lifecycle_config" "auto_delete_ttl"
           seconds_dict cluster_data
     end ;;
   inr cluster_data)%result.

Definition opt_int (o : option Z) : pyval :=
  match o with
  | Some n => PyInt n
  | None => PyNone
  end.

Definition disk_config (disk_type : string) (disk_size : Z) : pyval :=
  PyDict [("boot_disk_type", PyStr disk_type); ("boot_disk_size_gb", PyInt disk_size)].

Definition custom_image_uris (self : t) (custom_image_url : string)
    (cluster_data : dict) : result dict :=
  (cluster_data <- setitem2 "master_config" "image_uri" (PyStr custom_image_url) cluster_data ;;
   if negb (single_node self) then
     setitem2 "worker_config" "image_uri" (PyStr custom_image_url) cluster_data
   else inr cluster_data)%result.

(** [_build_cluster_data] also stores the zero-worker property into
    [self.properties]; the stored value is [build_properties]. *)
Definition build_properties (self : t) : dict :=
  if single_node self
  then setitem "dataproc:dataproc.allow.zero.workers" (PyStr "true") (self_properties self)
  else self_properties self.

(** [_build_cluster_data] is one long body; it is cut here into its
    blocks, in the order of the source. *)

(** The machine type URIs, qualified by the zone when there is one. *)
Definition machine_type_uris (self : t) : string * string :=
  match if_str (zone self) with
  | Some z =>
      ("projects/" ++ project_id self ++ "/zones/" ++ z ++ "/machineTypes/"
         ++ master_machine_type self,
       "projects/" ++ project_id self ++ "/zones/" ++ z ++ "/machineTypes/"
         ++ worker_machine_type self)
  | None => (master_machine_type self, worker_machine_type self)
  end.

(** The [cluster_data] literal, the secondary workers and the bucket. *)
Definition initial_cluster_data (self : t) : dict :=
  let (master_type_uri, worker_type_uri) := machine_type_uris self in
  let cluster_data : dict :=
    [ ("gce_cluster_config", PyDict []);
      ("master_config",
         PyDict [ ("num_instances", PyInt (num_masters self));
                  ("machine_type_uri", PyStr master_type_uri);
                  ("disk_config",
                     disk_config (master_disk_type self) (master_disk_size self)) ]);
      ("worker_config",
         PyDict [ ("num_instances", opt_int (num_workers self));
                  ("machine_type_uri", PyStr worker_type_uri);
                  ("disk_config",
                     disk_config (worker_disk_type self) (worker_disk_size self)) ]);
      ("secondary_worker_config", PyDict []);
      ("software_config", PyDict []);
      ("lifecycle_config", PyDict []);
      ("encryption_config", PyDict []);
      ("autoscaling_config", PyDict []);
      ("endpoint_config", PyDict []) ] in
  let cluster_data :=
    if 0 <? num_preemptible_workers self then
      setitem "secondary_worker_config"
        (PyDict [ ("num_instances", PyInt (num_preemptible_workers self));
                  ("machine_type_uri", PyStr worker_type_uri);
                  ("disk_config",
                     disk_config (worker_disk_type self) (worker_disk_size self));
                  ("is_preemptible", PyBool true) ])
        cluster_data
    else cluster_data in
  match if_str (storage_bucket self) with
  | Some bucket => setitem "config_bucket" (PyStr bucket) cluster_data
  | None => cluster_data
  end.

(** [if self.image_version: ... elif self.custom_image: ...
    elif self.custom_image_family: ...] *)
Definition image_config (self : t) (cluster_data : dict) : result dict :=
  let image_project :=
    match if_str (custom_image_project_id self) with
    | Some p => p
    | None => project_id self
    end in
  match if_str (image_version self), if_str (custom_image self),
        if_str (custom_image_family self) with
  | Some version, _, _ =>
      setitem2 "software_config" "image_version" (PyStr version) cluster_data
  | None, Some image, _ =>
      custom_image_uris self
        ("https://www.googleapis.com/compute/beta/projects/" ++ image_project
           ++ "/global/images/" ++ image)
        cluster_data
  | None, None, Some family =>
      custom_image_uris self
        ("https://www.googleapis.com/compute/beta/projects/" ++ image_project
           ++ "/global/images/family/" ++ family)
        cluster_data
  | None, None, None => inr cluster_data
  end.

(** The properties and the optional components. *)
Definition software_config (self : t) (cluster_data : dict) : result dict :=
  (cluster_data <-
     set_if (if_list (Some (build_properties self))) "software_config" "properties" PyDict
       cluster_data ;;
   set_if (if_list (optional_components self)) "software_config" "optional_components"
     str_list cluster_data)%result.

(** [if self.init_actions_uris: ...]: the timeout is parsed once for each
    URI. *)
Definition initialization_actions (self : t) (cluster_data : dict) : result dict :=
  match if_list (init_actions_uris self) with
  | Some uris =>
      (init_actions_dict <-
         map_result
           (fun uri =>
              execution_timeout <- _get_init_action_timeout self ;;
              inr (PyDict [ ("executable_file", PyStr uri);
                            ("execution_timeout", PyDict execution_timeout) ]))
           uris ;;
       inr (setitem "initialization_actions" (PyList init_actions_dict) cluster_data))%result
  | None => inr cluster_data
  end.

(** The encryption key, the autoscaling policy and the component gateway. *)
Definition remaining_config (self : t) (cluster_data : dict) : dict :=
  let cluster_data :=
    match if_str (customer_managed_key self) with
    | Some key =>
        setitem "encryption_config" (PyDict [("gce_pd_kms_key_name", PyStr key)]) cluster_data
    | None => cluster_data
    end in
  let cluster_data :=
    match if_str (autoscaling_policy self) with
    | Some policy =>
        setitem "autoscaling_config" (PyDict [("policy_uri", PyStr policy)]) cluster_data
    | None => cluster_data
    end in
  if if_bool (enable_component_gateway self) then
    setitem "endpoint_config" (PyDict [("enable_http_port_access", PyBool true)])
      cluster_data
  else cluster_data.

Definition _build_cluster_data (self : t) : result dict :=
  (cluster_data <- image_config self (initial_cluster_data self) ;;
   cluster_data <- _build_gce_cluster_config self cluster_data ;;
   cluster_data <- software_config self cluster_data ;;
   cluster_data <- _build_lifecycle_config self cluster_data ;;
   cluster_data <- initialization_actions self cluster_data ;;
   inr (remaining_config self cluster_data))%result.

Definition make (self : t) : result dict := _build_cluster_data self.

End Generator.
End ClusterGenerator.

(** ** DataprocScaleClusterOperator: the decommission timeout *)

Module DataprocScaleClusterOperator.

Record t : Type := {
  cluster_name : string;
  project_id : option string;
  region : string;
  num_workers : Z;
  num_preemptible_workers : Z;
  graceful_decommission_timeout : option string
}.

Definition decommission_timeout_error : exn :=
  AirflowException
    ("DataprocClusterScaleOperator "
     ++ " should be expressed in day, hours, minutes or seconds. "
     ++ " i.e. 1d, 4h, 10m, 30s").

(** The value of the local [timeout] after the [if match:] block. *)
Definition parse_timeout (s : string) : result (option Z) :=
  match re_match "smdh" s with
  | Some (group1, group2) =>
      if (group2 =? "s")%char then
        (timeout <- python_int group1 ;; inr (Some timeout))%result
      else if (group2 =? "m")%char then
        (td <- timedelta_minutes (float_of_str group1) ;;
         seconds <- int_of_float (total_seconds td) ;;
         inr (Some seconds))%result
      else if (group2 =? "h")%char then
        (td <- timedelta_hours (float_of_str group1) ;;
         seconds <- int_of_float (total_seconds td) ;;
         inr (Some seconds))%result
      else if (group2 =? "d")%char then
        (td <- timedelta_days (float_of_str group1) ;;
         seconds <- int_of_float (total_seconds td) ;;
         inr (Some seconds))%result
      else inr None
  | None => inr None
  end.

Definition _graceful_decommission_timeout_object (self : t) : result (option dict) :=
  match if_str (graceful_decommission_timeout self) with
  | None => inr None
  | Some s =>
      (timeout <- parse_timeout s ;;
       match if_int timeout with
       | None => inl decommission_timeout_error
       | Some seconds => inr (Some [("seconds", PyInt seconds)])
       end)%result
  end.

End DataprocScaleClusterOperator.

(** ** The Dataproc hook and the effects of an operator run *)

Module ClusterStatus.
(** Modelled from the spec: the cluster states that the remote service
    reports; the enumeration itself belongs to [google.cloud.dataproc_v1]. *)
Inductive State : Type :=
| UNKNOWN | CREATING | RUNNING | ERROR | UPDATING | DELETING | STOPPING | STOPPED.

Definition eqb (a b : State) : bool :=
  match a, b with
  | UNKNOWN, UNKNOWN | CREATING, CREATING | RUNNING, RUNNING | ERROR, ERROR
  | UPDATING, UPDATING | DELETING, DELETING | STOPPING, STOPPING
  | STOPPED, STOPPED => true
  | _, _ => false
  end.
End ClusterStatus.

Module JobStatus.
(** Modelled from the spec: the job states that the remote service reports;
    the enumeration itself belongs to [google.cloud.dataproc_v1]. *)
Inductive State : Type :=
| PENDING | RUNNING | CANCEL_PENDING | CANCELLED | DONE | ERROR | ATTEMPT_FAILURE.

Definition eqb (a b : State) : bool :=
  match a, b with
  | PENDING, PENDING | RUNNING, RUNNING | CANCEL_PENDING, CANCEL_PENDING
  | CANCELLED, CANCELLED | DONE, DONE | ERROR, ERROR
  | ATTEMPT_FAILURE, ATTEMPT_FAILURE => true
  | _, _ => false
  end.
End JobStatus.

(** [google.cloud.dataproc_v1.Cluster], as far as the operators read it:
    the state of its status; the name and the uuid tell clusters apart. *)
Record Cluster : Type := {
  cluster_name : string;
  cluster_uuid : string;
  state : ClusterStatus.State
}.

(** What a run does to the outside world, in the order it happens. *)
Inductive event : Type :=
| XcomPush (key : string) (value : dict)
| CreateCluster
| GetCluster
| DiagnoseCluster
| DeleteCluster
| SubmitJob
| WaitForJob
| Sleep (seconds : Z).

Definition trace : Type := list event.

(** The hook answers each call from the history of the run so far; the
    arguments of a call are fixed by the operator and left out.
    [create_cluster] stands for the call together with
    [operation.result()]. *)
Record DataprocHook : Type := {
  create_cluster : trace -> result Cluster;
  get_cluster : trace -> result Cluster;
  diagnose_cluster : trace -> result string;
  delete_cluster : trace -> result unit;
  submit_job : trace -> result string;
  job_terminal_state : trace -> option JobStatus.State
}.

(** An operator run threads the trace, raises or returns, and yields [None]
    when a loop is cut off by its fuel. *)
Definition M (A : Type) : Type := trace -> option (trace * result A).

Definition ret {A : Type} (x : A) : M A := fun tr => Some (tr, inr x).

Definition raise {A : Type} (e : exn) : M A := fun tr => Some (tr, inl e).

Definition bind {A B : Type} (m : M A) (k : A -> M B) : M B :=
  fun tr =>
    match m tr with
    | None => None
    | Some (tr', inl e) => Some (tr', inl e)
    | Some (tr', inr x) => k x tr'
    end.

(** [try: m  except <e>: handler e] *)
Definition catch {A : Type} (m : M A) (handler : exn -> M A) : M A :=
  fun tr =>
    match m tr with
    | None => None
    | Some (tr', inl e) => handler e tr'
    | Some (tr', inr x) => Some (tr', inr x)
    end.

Definition call {A : Type} (ev : event) (answer : trace -> result A) : M A :=
  fun tr => Some ((tr ++ [ev])%list, answer tr).

Definition emit (ev : event) : M unit := fun tr => Some ((tr ++ [ev])%list, inr tt).

Definition out_of_fuel {A : Type} : M A := fun _ => None.

Declare Scope run_scope.
Delimit Scope run_scope with run.
Notation "x <- m ;; k" := (bind m (fun x => k))
  (at level 61, m at next level, right associativity) : run_scope.
Notation "m ;; k" := (bind m (fun _ => k))
  (at level 61, right associativity) : run_scope.

(** Modelled from the spec: [google.api_core.retry.exponential_sleep_generator],
    which is not part of the module: the exponential backoff of the polling
    reconciler, without jitter, from [initial] up to the cap [maximum],
    doubling each time.  [k] counts the values already taken. *)
Definition exponential_sleep_generator (initial maximum : Z) (k : nat) : Z :=
  Z.min (initial * 2 ^ Z.of_nat k) maximum.

Definition opt_str (o : option string) : pyval :=
  match o with
  | Some s => PyStr s
  | None => PyNone
  end.

(** ** DataprocCreateClusterOperator *)

Module DataprocCreateClusterOperator.

(** The attributes set by [__init__].  [timeout] is a number of seconds,
    taken here as an integer. *)
Record t : Type := {
  cluster_name : string;
  region : string;
  project_id : option string;
  cluster_config : dict;
  labels : option dict;
  request_id : option string;
  delete_on_error : bool;
  use_if_exists : bool;
  timeout : Z
}.

Section Run.

Variable self : t.
Variable hook : DataprocHook.

Local Open Scope run_scope.

Definition _create_cluster : M Cluster := call CreateCluster (create_cluster hook).

Definition _delete_cluster : M unit := call DeleteCluster (delete_cluster hook).

Definition _get_cluster : M Cluster := call GetCluster (get_cluster hook).

Definition error_state_deleted : exn :=
  AirflowException "Cluster was created but was in ERROR state.".

Definition error_state_kept : exn :=
  AirflowException "Cluster was created but is in ERROR state".

Definition _handle_error_state (cluster : Cluster) : M unit :=
  if negb (ClusterStatus.eqb (state cluster) ClusterStatus.ERROR) then ret tt
  else
    gcs_uri <- call DiagnoseCluster (diagnose_cluster hook) ;;
    if delete_on_error self then
      _delete_cluster ;;
      raise error_state_deleted
    else raise error_state_kept.

Definition still_deleting : exn :=
  AirflowException ("Cluster " ++ cluster_name self ++ " is still DELETING state, aborting").

Definition still_creating : exn :=
  AirflowException ("Cluster " ++ cluster_name self ++ " is still CREATING state, aborting").

(** The body of the [for] loop of [_wait_for_cluster_in_deleting_state];
    [k] is the number of values already taken from the generator. *)
Fixpoint deleting_loop (fuel : nat) (k : nat) (time_left : Z) : M unit :=
  match fuel with
  | O => out_of_fuel
  | S fuel' =>
      let time_to_sleep := exponential_sleep_generator 10 120 k in
      if time_left <? 0 then raise still_deleting
      else
        emit (Sleep time_to_sleep) ;;
        let time_left := time_left - time_to_sleep in
        found <- catch (_get_cluster ;; ret true)
                   (fun e => match e with
                             | NotFound => ret false
                             | _ => raise e
                             end) ;;
        if found then deleting_loop fuel' (S k) time_left else ret tt
  end.

Definition _wait_for_cluster_in_deleting_state (fuel : nat) : M unit :=
  let time_left := timeout self in
  deleting_loop fuel 0%nat time_left.

(** The body of the [for] loop of [_wait_for_cluster_in_creating_state]. *)
Fixpoint creating_loop (fuel : nat) (k : nat) (time_left : Z) (cluster : Cluster)
    : M Cluster :=
  match fuel with
  | O => out_of_fuel
  | S fuel' =>
      let time_to_sleep := exponential_sleep_generator 10 120 k in
      if negb (ClusterStatus.eqb (state cluster) ClusterStatus.CREATING) then ret cluster
      else if time_left <? 0 then raise still_creating
      else
        emit (Sleep time_to_sleep) ;;
        let time_left := time_left - time_to_sleep in
        cluster <- _get_cluster ;;
        creating_loop fuel' (S k) time_left cluster
  end.

Definition _wait_for_cluster_in_creating_state (fuel : nat) : M Cluster :=
  let time_left := timeout self in
  cluster <- _get_cluster ;;
  creating_loop fuel 0%nat time_left cluster.

Definition cluster_conf : dict :=
  [ ("cluster_name", PyStr (cluster_name self));
    ("region", PyStr (region self));
    ("project_id", opt_str (project_id self)) ].

(** The first step of [execute]: create, or adopt on [AlreadyExists]. *)
Definition create_or_adopt : M Cluster :=
  catch _create_cluster
    (fun e => match e with
              | AlreadyExists =>
                  if negb (use_if_exists self) then raise e
                  else _get_cluster
              | _ => raise e
              end).

(** The rest of [execute], from the check for the ERROR state on.
    [Cluster.to_dict] is left out: the cluster itself is returned. *)
Definition inspect (fuel : nat) (cluster : Cluster) : M Cluster :=
  _handle_error_state cluster ;;
  if ClusterStatus.eqb (state cluster) ClusterStatus.CREATING then
    cluster <- _wait_for_cluster_in_creating_state fuel ;;
    _handle_error_state cluster ;;
    ret cluster
  else if ClusterStatus.eqb (state cluster) ClusterStatus.DELETING then
    _wait_for_cluster_in_deleting_state fuel ;;
    cluster <- _create_cluster ;;
    _handle_error_state cluster ;;
    ret cluster
  else ret cluster.

Definition execute (fuel : nat) : M Cluster :=
  emit (XcomPush "cluster_conf" cluster_conf) ;;
  cluster <- create_or_adopt ;;
  inspect fuel cluster.

End Run.

(** Loop iterations that a timeout of [seconds] allows: every interval
    lasts ten seconds at least. *)
Definition poll_fuel (seconds : Z) : nat := Z.to_nat (seconds / 10) + 2.

End DataprocCreateClusterOperator.

(** ** DataprocJobBaseOperator *)

Module DataprocJobBaseOperator.

(** Modelled from the spec: [DataProcJobBuilder] of the hooks module, which
    is not part of this module: it assembles the job submission payload;
    [job] is the payload that [build()] returns. *)
Record DataProcJobBuilder : Type := { job : dict }.

Record kwargs : Type := {
  kw_project_id : option string;
  kw_region : option string;
  kw_job_error_states : option (list string);
  kw_asynchronous : bool
}.

Record t : Type := {
  project_id : option string;
  region : string;
  job_error_states : list string;
  asynchronous : bool;
  job_template : option DataProcJobBuilder
}.

(** [hook_project_id] is the project of the connection. *)
Definition __init__ (hook_project_id : option string) (kw : kwargs) : t := {|
  project_id := match kw_project_id kw with
                | None => hook_project_id
                | Some p => Some p
                end;
  region := match kw_region kw with
            | None => "global"
            | Some r => r
            end;
  job_error_states := match kw_job_error_states kw with
                      | Some states => states
                      | None => ["ERROR"]
                      end;
  asynchronous := kw_asynchronous kw;
  job_template := None
|}.

Definition state_name (s : JobStatus.State) : string :=
  match s with
  | JobStatus.PENDING => "PENDING"
  | JobStatus.RUNNING => "RUNNING"
  | JobStatus.CANCEL_PENDING => "CANCEL_PENDING"
  | JobStatus.CANCELLED => "CANCELLED"
  | JobStatus.DONE => "DONE"
  | JobStatus.ERROR => "ERROR"
  | JobStatus.ATTEMPT_FAILURE => "ATTEMPT_FAILURE"
  end.

Fixpoint mem_str (s : string) (l : list string) : bool :=
  match l with
  | [] => false
  | x :: l' => (x =? s)%string || mem_str s l'
  end.

(** Modelled from the spec: the error of a job that ended in one of the
    error states; the module has no error class besides
    [AirflowException]. *)
Definition JobExecutionError (job_id : string) : exn :=
  AirflowException ("Job failed: " ++ job_id).

(** Modelled from the spec: [DataprocHook.wait_for_job] of the hooks module,
    which is not part of this module: it polls the job until a terminal
    state and raises when that state is one of the error states, [{ERROR}]
    unless the caller passes others.  [job_terminal_state] is the state the
    polling ends on; a job that never ends gives no result. *)
Definition wait_for_job (hook : DataprocHook) (job_id : string)
    (error_states : option (list string)) : M unit :=
  fun tr =>
    match job_terminal_state hook tr with
    | None => None
    | Some final =>
        let states := match error_states with
                      | Some states => states
                      | None => ["ERROR"]
                      end in
        Some ((tr ++ [WaitForJob])%list,
              if mem_str (state_name final) states
              then inl (JobExecutionError job_id)
              else inr tt)
    end.

Definition job_conf (self : t) (job_id : string) : dict :=
  [ ("job_id", PyStr job_id);
    ("region", PyStr (region self));
    ("project_id", opt_str (project_id self)) ].

(** [create_job_template], as far as [execute] depends on it. *)
Definition create_job_template (self : t) (template : DataProcJobBuilder) : result t :=
  match project_id self with
  | None =>
      inl (AirflowException
             ("project id should either be set via project_id "
              ++ "parameter or retrieved from the connection,"))
  | Some _ =>
      inr {| project_id := project_id self;
             region := region self;
             job_error_states := job_error_states self;
             asynchronous := asynchronous self;
             job_template := Some template |}
  end.

(** The payload built from the template only sets [self.job] and
    [self.dataproc_job_id], which [execute] does not read again; the id
    that is returned is the one of the submitted job.  The call of
    [wait_for_job] passes the job, the region and the project, and no error
    states. *)
Definition execute (self : t) (hook : DataprocHook) : M string :=
  match job_template self with
  | Some template =>
      (job_id <- call SubmitJob (submit_job hook) ;;
       emit (XcomPush "job_conf" (job_conf self job_id)) ;;
       (if negb (asynchronous self) then wait_for_job hook job_id None else ret tt) ;;
       ret job_id)%run
  | None => raise (AirflowException "Create a job template before")
  end.

End DataprocJobBaseOperator.

(** ** Vocabulary of the statements *)

(** Seconds in one unit of a duration string. *)
Definition unit_seconds (u : ascii) : Z :=
  if (u =? "s")%char then 1
  else if (u =? "m")%char then 60
  else if (u =? "h")%char then 3600
  else if (u =? "d")%char then 86400
  else 0.

(** The first duration that a [timedelta] cannot hold: [10^9] days. *)
Definition timedelta_limit_seconds : Z := 86400000000000.

Definition seconds (n : Z) : dict := [("seconds", PyInt n)].

(** A scale operator with the given decommission timeout. *)
Definition scale_operator (timeout : option string) : DataprocScaleClusterOperator.t := {|
  DataprocScaleClusterOperator.cluster_name := "cluster-1";
  DataprocScaleClusterOperator.project_id := None;
  DataprocScaleClusterOperator.region := "global";
  DataprocScaleClusterOperator.num_workers := 2;
  DataprocScaleClusterOperator.num_preemptible_workers := 0;
  DataprocScaleClusterOperator.graceful_decommission_timeout := timeout
|}.

(** A string of [n] zeros. *)
Fixpoint zeros (n : nat) : string :=
  match n with
  | O => EmptyString
  | S n' => String "0" (zeros n')
  end.

(** [d[k]] is a dictionary. *)
Definition is_dictb (k : string) (d : dict) : bool :=
  match getitem k d with
  | Some (PyDict _) => true
  | _ => false
  end.

(** The sections of the cluster data that [_build_cluster_data] fills
    through nested subscripts. *)
Definition sections : list string :=
  [ "gce_cluster_config"; "master_config"; "worker_config";
    "software_config"; "lifecycle_config" ].

Definition sections_ok (d : dict) : Prop :=
  forall k, In k sections -> is_dictb k d = true.

(** [d'] has the entries of [d], except perhaps at the key [k1]. *)
Definition agree_off (k1 : string) (d d' : dict) : Prop :=
  forall k, (k1 =? k)%string = false -> getitem k d' = getitem k d.

(** An optional string argument is set when it is neither [None] nor
    empty, which is what the generator tests. *)
Definition is_set (o : option string) : bool := is_some (if_str o).

(** The number of image sources that are set. *)
Definition image_sources {datetime : Type}
    (kw : ClusterGenerator.kwargs (datetime := datetime)) : nat :=
  (Nat.b2n (is_set (ClusterGenerator.custom_image kw))
   + Nat.b2n (is_set (ClusterGenerator.custom_image_family kw))
   + Nat.b2n (is_set (ClusterGenerator.image_version kw)))%nat.

Definition single_node_with_preemptible {datetime : Type}
    (kw : ClusterGenerator.kwargs (datetime := datetime)) : bool :=
  match ClusterGenerator.num_workers kw with
  | Some n => (n =? 0) && (0 <? ClusterGenerator.num_preemptible_workers kw)
  | None => false
  end.

Definition internal_ip_without_subnetwork {datetime : Type}
    (kw : ClusterGenerator.kwargs (datetime := datetime)) : bool :=
  if_bool (ClusterGenerator.internal_ip_only kw)
  && negb (is_set (ClusterGenerator.subnetwork_uri kw)).

Definition internal_ip_error : exn :=
  AirflowException "Set internal_ip_only to true only when you pass a subnetwork_uri.".

(** The keyword arguments with another init-action timeout. *)
Definition with_init_action_timeout {datetime : Type} (timeout : string)
    (kw : ClusterGenerator.kwargs (datetime := datetime))
    : ClusterGenerator.kwargs (datetime := datetime) := {|
  ClusterGenerator.project_id := ClusterGenerator.project_id kw;
  ClusterGenerator.num_workers := ClusterGenerator.num_workers kw;
  ClusterGenerator.zone := ClusterGenerator.zone kw;
  ClusterGenerator.network_uri := ClusterGenerator.network_uri kw;
  ClusterGenerator.subnetwork_uri := ClusterGenerator.subnetwork_uri kw;
  ClusterGenerator.internal_ip_only := ClusterGenerator.internal_ip_only kw;
  ClusterGenerator.tags := ClusterGenerator.tags kw;
  ClusterGenerator.storage_bucket := ClusterGenerator.storage_bucket kw;
  ClusterGenerator.init_actions_uris := ClusterGenerator.init_actions_uris kw;
  ClusterGenerator.init_action_timeout := timeout;
  ClusterGenerator.metadata := ClusterGenerator.metadata kw;
  ClusterGenerator.custom_image := ClusterGenerator.custom_image kw;
  ClusterGenerator.custom_image_project_id := ClusterGenerator.custom_image_project_id kw;
  ClusterGenerator.custom_image_family := ClusterGenerator.custom_image_family kw;
  ClusterGenerator.image_version := ClusterGenerator.image_version kw;
  ClusterGenerator.autoscaling_policy := ClusterGenerator.autoscaling_policy kw;
  ClusterGenerator.properties := ClusterGenerator.properties kw;
  ClusterGenerator.optional_components := ClusterGenerator.optional_components kw;
  ClusterGenerator.num_masters := ClusterGenerator.num_masters kw;
  ClusterGenerator.master_machine_type := ClusterGenerator.master_machine_type kw;
  ClusterGenerator.master_disk_type := ClusterGenerator.master_disk_type kw;
  ClusterGenerator.master_disk_size := ClusterGenerator.master_disk_size kw;
  ClusterGenerator.worker_machine_type := ClusterGenerator.worker_machine_type kw;
  ClusterGenerator.worker_disk_type := ClusterGenerator.worker_disk_type kw;
  ClusterGenerator.worker_disk_size := ClusterGenerator.worker_disk_size kw;
  ClusterGenerator.num_preemptible_workers := ClusterGenerator.num_preemptible_workers kw;
  ClusterGenerator.service_account := ClusterGenerator.service_account kw;
  ClusterGenerator.service_account_scopes := ClusterGenerator.service_account_scopes kw;
  ClusterGenerator.idle_delete_ttl := ClusterGenerator.idle_delete_ttl kw;
  ClusterGenerator.auto_delete_time := ClusterGenerator.auto_delete_time kw;
  ClusterGenerator.auto_delete_ttl := ClusterGenerator.auto_delete_ttl kw;
  ClusterGenerator.customer_managed_key := ClusterGenerator.customer_managed_key kw;
  ClusterGenerator.enable_component_gateway := ClusterGenerator.enable_component_gateway kw
|}.

(** A generator with the given init-action timeout and no init actions. *)
Definition generator_with_timeout (timeout : string) : ClusterGenerator.t (datetime := string) :=
  ClusterGenerator.attributes
    (with_init_action_timeout timeout (ClusterGenerator.defaults "project")).

(** Keyword arguments with image version 2.0, and the given custom image
    and family, lifecycle, init actions with their timeout, and workers. *)
Definition example_kwargs (image family : option string) (time : option string)
    (ttl : option Z) (uris : option (list string)) (timeout : string)
    (workers : option Z) (preemptible : Z)
    : ClusterGenerator.kwargs (datetime := string) := {|
  ClusterGenerator.project_id := "project";
  ClusterGenerator.num_workers := workers;
  ClusterGenerator.zone := None;
  ClusterGenerator.network_uri := None;
  ClusterGenerator.subnetwork_uri := None;
  ClusterGenerator.internal_ip_only := None;
  ClusterGenerator.tags := None;
  ClusterGenerator.storage_bucket := None;
  ClusterGenerator.init_actions_uris := uris;
  ClusterGenerator.init_action_timeout := timeout;
  ClusterGenerator.metadata := None;
  ClusterGenerator.custom_image := image;
  ClusterGenerator.custom_image_project_id := None;
  ClusterGenerator.custom_image_family := family;
  ClusterGenerator.image_version := Some "2.0";
  ClusterGenerator.autoscaling_policy := None;
  ClusterGenerator.properties := None;
  ClusterGenerator.optional_components := None;
  ClusterGenerator.num_masters := 1;
  ClusterGenerator.master_machine_type := "n1-standard-4";
  ClusterGenerator.master_disk_type := "pd-standard";
  ClusterGenerator.master_disk_size := 1024;
  ClusterGenerator.worker_machine_type := "n1-standard-4";
  ClusterGenerator.worker_disk_type := "pd-standard";
  ClusterGenerator.worker_disk_size := 1024;
  ClusterGenerator.num_preemptible_workers := preemptible;
  ClusterGenerator.service_account := None;
  ClusterGenerator.service_account_scopes := None;
  ClusterGenerator.idle_delete_ttl := None;
  ClusterGenerator.auto_delete_time := time;
  ClusterGenerator.auto_delete_ttl := ttl;
  ClusterGenerator.customer_managed_key := None;
  ClusterGenerator.enable_component_gateway := Some false
|}.

(** Formatting of the example times, which are held as text already. *)
Definition as_text (time : string) : string := time.

Definition two_workers : ClusterGenerator.kwargs (datetime := string) :=
  example_kwargs None None None None None "10m" (Some 2) 0.

Definition image_and_version : ClusterGenerator.kwargs (datetime := string) :=
  example_kwargs (Some "custom-image") None None None None "10m" (Some 2) 0.

Definition family_and_version : ClusterGenerator.kwargs (datetime := string) :=
  example_kwargs None (Some "custom-family") None None None "10m" (Some 2) 0.

Definition image_and_family : ClusterGenerator.kwargs (datetime := string) :=
  example_kwargs (Some "custom-image") (Some "custom-family") None None None "10m"
    (Some 2) 0.

Definition single_node_preemptible : ClusterGenerator.kwargs (datetime := string) :=
  example_kwargs None None None None None "10m" (Some 0) 1.

Definition time_and_ttl : ClusterGenerator.kwargs (datetime := string) :=
  example_kwargs None None (Some "2030-01-01T00:00:00.000000Z") (Some 3600) None "10m"
    (Some 2) 0.

Definition ttl_only : ClusterGenerator.kwargs (datetime := string) :=
  example_kwargs None None None (Some 3600) None "10m" (Some 2) 0.

Definition with_init_action : ClusterGenerator.kwargs (datetime := string) :=
  example_kwargs None None None None (Some ["gs://bucket/init.sh"]) "10m" (Some 2) 0.

(** *** Traces of the create operator *)

Definition is_xcom (ev : event) : bool :=
  match ev with
  | XcomPush _ _ => true
  | _ => false
  end.

Definition is_delete (ev : event) : bool :=
  match ev with
  | DeleteCluster => true
  | _ => false
  end.

(** The number of delete calls in a trace. *)
Definition delete_calls (tr : trace) : nat := List.length (filter is_delete tr).

(** The number of correlation records in a trace. *)
Definition xcom_pushes (tr : trace) : nat := List.length (filter is_xcom tr).

(** The intervals of the two polling loops. *)
Definition backoff (k : nat) : Z := exponential_sleep_generator 10 120 k.

(** The time accounted to the first [m] sleeps of a loop. *)
Fixpoint slept (m : nat) : Z :=
  match m with
  | O => 0
  | S m' => slept m' + backoff m'
  end.

(** The trace [tr] followed by [m] rounds of a polling loop: sleep for the
    next interval, then fetch the cluster. *)
Fixpoint polls (tr : trace) (m : nat) : trace :=
  match m with
  | O => tr
  | S m' => (polls tr m' ++ [Sleep (backoff m'); GetCluster])%list
  end.

(** The history at which the fetch of round [i] is answered. *)
Definition fetch_point (tr : trace) (i : nat) : trace :=
  (polls tr i ++ [Sleep (backoff i)])%list.

(** The trace after the correlation record is pushed. *)
Definition pushed (self : DataprocCreateClusterOperator.t) : trace :=
  [XcomPush "cluster_conf" (DataprocCreateClusterOperator.cluster_conf self)].

(** [execute] calls [_handle_error_state] at three places; [checked ... c tr]
    says that one of them is reached with the cluster [c] at the trace [tr]:
    after the create or the adoption, after the wait while the cluster is
    CREATING, and after the new create that follows the wait while it is
    DELETING. *)
Inductive checked (self : DataprocCreateClusterOperator.t) (hook : DataprocHook)
    (fuel : nat) : Cluster -> trace -> Prop :=
| checked_first (c : Cluster) (tr : trace) :
    DataprocCreateClusterOperator.create_or_adopt self hook (pushed self)
    = Some (tr, inr c) ->
    checked self hook fuel c tr
| checked_created (c0 c : Cluster) (tr0 tr : trace) :
    DataprocCreateClusterOperator.create_or_adopt self hook (pushed self)
    = Some (tr0, inr c0) ->
    state c0 = ClusterStatus.CREATING ->
    DataprocCreateClusterOperator._wait_for_cluster_in_creating_state self hook fuel tr0
    = Some (tr, inr c) ->
    checked self hook fuel c tr
| checked_recreated (c0 c : Cluster) (tr0 tr1 tr : trace) :
    DataprocCreateClusterOperator.create_or_adopt self hook (pushed self)
    = Some (tr0, inr c0) ->
    state c0 = ClusterStatus.DELETING ->
    DataprocCreateClusterOperator._wait_for_cluster_in_deleting_state self hook fuel tr0
    = Some (tr1, inr tt) ->
    DataprocCreateClusterOperator._create_cluster hook tr1 = Some (tr, inr c) ->
    checked self hook fuel c tr.

(** A cluster state on which [execute] returns the cluster as it is. *)
Definition settled (s : ClusterStatus.State) : bool :=
  match s with
  | ClusterStatus.ERROR | ClusterStatus.CREATING | ClusterStatus.DELETING => false
  | _ => true
  end.

(** The fetches of the rounds before [m] all returned a cluster. *)
Definition fetched_until (hook : DataprocHook) (tr : trace) (m : nat) : Prop :=
  forall i, (i < m)%nat -> exists c, get_cluster hook (fetch_point tr i) = inr c.

(** How [_wait_for_cluster_in_deleting_state] ends after [m] rounds: the
    cluster is gone, or the fetch fails otherwise, or the time is up. *)
Definition deleting_outcome (self : DataprocCreateClusterOperator.t)
    (hook : DataprocHook) (tr : trace) (m : nat) (r : result unit) : Prop :=
  (exists m', m = S m'
              /\ fetched_until hook tr m'
              /\ get_cluster hook (fetch_point tr m') = inl NotFound
              /\ r = inr tt)
  \/ (exists m' e, m = S m'
                   /\ fetched_until hook tr m'
                   /\ get_cluster hook (fetch_point tr m') = inl e
                   /\ e <> NotFound
                   /\ r = inl e)
  \/ (fetched_until hook tr m
      /\ DataprocCreateClusterOperator.timeout self < slept m
      /\ r = inl (DataprocCreateClusterOperator.still_deleting self)).

(** How the loop of [_wait_for_cluster_in_creating_state] ends after [m]
    rounds that follow the first fetch of [c0]: with a cluster that is no
    longer CREATING, or with a failed fetch, or when the time is up. *)
Definition creating_outcome (self : DataprocCreateClusterOperator.t)
    (hook : DataprocHook) (tr : trace) (c0 : Cluster) (m : nat)
    (r : result Cluster) : Prop :=
  (exists c, r = inr c
             /\ state c <> ClusterStatus.CREATING
             /\ match m with
                | O => c = c0
                | S m' => get_cluster hook (fetch_point tr m') = inr c
                end)
  \/ (exists m' e, m = S m'
                   /\ get_cluster hook (fetch_point tr m') = inl e
                   /\ r = inl e)
  \/ (DataprocCreateClusterOperator.timeout self < slept m
      /\ r = inl (DataprocCreateClusterOperator.still_creating self)).

(** The time slept in a trace. *)
Fixpoint sleep_total (tr : trace) : Z :=
  match tr with
  | [] => 0
  | Sleep seconds :: tr' => seconds + sleep_total tr'
  | _ :: tr' => sleep_total tr'
  end.

(** Creates, fetches and sleeps. *)
Definition is_poll (ev : event) : bool :=
  match ev with
  | CreateCluster | GetCluster | Sleep _ => true
  | _ => false
  end.

(** Everything but a correlation record. *)
Definition is_remote (ev : event) : bool := negb (is_xcom ev).

(** A run that always ends, and extends the trace by events of the kind
    [p] only. *)
Definition emits_only (p : event -> bool) {A : Type} (m : M A) : Prop :=
  forall tr, exists ext r,
    m tr = Some ((tr ++ ext)%list, r) /\ forallb p ext = true.

(** *** Example operators and hooks *)

Definition example_operator (delete use : bool) (seconds : Z)
    : DataprocCreateClusterOperator.t := {|
  DataprocCreateClusterOperator.cluster_name := "cluster-1";
  DataprocCreateClusterOperator.region := "europe-west1";
  DataprocCreateClusterOperator.project_id := Some "project";
  DataprocCreateClusterOperator.cluster_config := [];
  DataprocCreateClusterOperator.labels := None;
  DataprocCreateClusterOperator.request_id := None;
  DataprocCreateClusterOperator.delete_on_error := delete;
  DataprocCreateClusterOperator.use_if_exists := use;
  DataprocCreateClusterOperator.timeout := seconds
|}.

Definition example_cluster (uuid : string) (s : ClusterStatus.State) : Cluster := {|
  cluster_name := "cluster-1";
  cluster_uuid := uuid;
  state := s
|}.

Definition is_fetch (ev : event) : bool :=
  match ev with
  | GetCluster => true
  | _ => false
  end.

Definition is_create (ev : event) : bool :=
  match ev with
  | CreateCluster => true
  | _ => false
  end.

(** A remote side on which the cluster exists already in state [s] and
    stays so for [fetches] fetches, after which it is gone; a create then
    gives a new cluster in state [s']. *)
Definition existing_cluster_hook (s : ClusterStatus.State) (fetches : nat)
    (s' : ClusterStatus.State) : DataprocHook := {|
  create_cluster := fun tr =>
    if existsb is_create tr then inr (example_cluster "new" s')
    else inl AlreadyExists;
  get_cluster := fun tr =>
    if (List.length (filter is_fetch tr) <? fetches)%nat
    then inr (example_cluster "old" s)
    else inl NotFound;
  diagnose_cluster := fun _ => inr "gs://bucket/diagnostic.tar";
  delete_cluster := fun _ => inr tt;
  submit_job := fun _ => inl (ApiError "no job");
  job_terminal_state := fun _ => None
|}.

(** A remote side that accepts a job and reports it in the state [final]
    at the end. *)
Definition job_hook (final : JobStatus.State) : DataprocHook := {|
  create_cluster := fun _ => inl (ApiError "no cluster");
  get_cluster := fun _ => inl NotFound;
  diagnose_cluster := fun _ => inl (ApiError "no cluster");
  delete_cluster := fun _ => inl (ApiError "no cluster");
  submit_job := fun _ => inr "job_0a1b2c3d";
  job_terminal_state := fun _ => Some final
|}.

Definition job_kwargs : DataprocJobBaseOperator.kwargs := {|
  DataprocJobBaseOperator.kw_project_id := Some "project";
  DataprocJobBaseOperator.kw_region := Some "europe-west1";
  DataprocJobBaseOperator.kw_job_error_states := None;
  DataprocJobBaseOperator.kw_asynchronous := false
|}.

Definition job_operator : DataprocJobBaseOperator.t := {|
  DataprocJobBaseOperator.project_id := Some "project";
  DataprocJobBaseOperator.region := "europe-west1";
  DataprocJobBaseOperator.job_error_states := ["ERROR"];
  DataprocJobBaseOperator.asynchronous := false;
  DataprocJobBaseOperator.job_template := Some {| DataprocJobBaseOperator.job := [] |}
|}.

(** *** How a run of the create operator ends *)

(** The end of a run after its creates, fetches and sleeps: either no call
    follows, and a cluster that is returned is not in the ERROR state; or
    the run raises after the diagnosis of a cluster in the ERROR state,
    which a delete follows only when the operator deletes on error. *)
Definition run_end (self : DataprocCreateClusterOperator.t) (tail : trace)
    (r : result Cluster) : Prop :=
  (tail = [] /\ forall c, r = inr c -> state c <> ClusterStatus.ERROR)
  \/ (exists e, r = inl e
                /\ (tail = [DiagnoseCluster]
                    \/ (tail = [DiagnoseCluster; DeleteCluster]
                        /\ DataprocCreateClusterOperator.delete_on_error self = true))).

(** A remote side on which the cluster is being deleted for [fetches]
    fetches and then gone, while every create finds the name taken. *)
Definition contended_hook (fetches : nat) : DataprocHook := {|
  create_cluster := fun _ => inl AlreadyExists;
  get_cluster := fun tr =>
    if (List.length (filter is_fetch tr) <? fetches)%nat
    then inr (example_cluster "old" ClusterStatus.DELETING)
    else inl NotFound;
  diagnose_cluster := fun _ => inr "gs://bucket/diagnostic.tar";
  delete_cluster := fun _ => inr tt;
  submit_job := fun _ => inl (ApiError "no job");
  job_terminal_state := fun _ => None
|}.

(** A remote side on which a new cluster is CREATING at the first fetch and
    in the state [s] from the second fetch on. *)
Definition starting_cluster_hook (s : ClusterStatus.State) : DataprocHook := {|
  create_cluster := fun _ => inr (example_cluster "new" ClusterStatus.CREATING);
  get_cluster := fun tr =>
    if (List.length (filter is_fetch tr) <? 1)%nat
    then inr (example_cluster "new" ClusterStatus.CREATING)
    else inr (example_cluster "new" s);
  diagnose_cluster := fun _ => inr "gs://bucket/diagnostic.tar";
  delete_cluster := fun _ => inr tt;
  submit_job := fun _ => inl (ApiError "no job");
  job_terminal_state := fun _ => None
|}.

(** A remote side on which the cluster exists already in the ERROR state;
    the diagnose call answers [diagnosis] and the delete call [deletion]. *)
Definition broken_cluster_hook (diagnosis : result string) (deletion : result unit)
    : DataprocHook := {|
  create_cluster := fun _ => inl AlreadyExists;
  get_cluster := fun _ => inr (example_cluster "old" ClusterStatus.ERROR);
  diagnose_cluster := fun _ => diagnosis;
  delete_cluster := fun _ => deletion;
  submit_job := fun _ => inl (ApiError "no job");
  job_terminal_state := fun _ => None
|}.

(** A remote side on which a new cluster is CREATING for [fetches] fetches,
    after which the fetch fails with [e]. *)
Definition vanishing_cluster_hook (fetches : nat) (e : exn) : DataprocHook := {|
  create_cluster := fun _ => inr (example_cluster "new" ClusterStatus.CREATING);
  get_cluster := fun tr =>
    if (List.length (filter is_fetch tr) <? fetches)%nat
    then inr (example_cluster "new" ClusterStatus.CREATING)
    else inl e;
  diagnose_cluster := fun _ => inr "gs://bucket/diagnostic.tar";
  delete_cluster := fun _ => inr tt;
  submit_job := fun _ => inl (ApiError "no job");
  job_terminal_state := fun _ => None
|}.

(** *** The built cluster config *)

(** [if x: inner[k] = v x], on the dictionary of one section. *)
Definition put {A : Type} (o : option A) (k : string) (v : A -> pyval) (inner : dict)
    : dict :=
  match o with
  | Some x => setitem k (v x) inner
  | None => inner
  end.

(** The keys of a dictionary, in their order. *)
Definition keys (d : dict) : list string := map fst d.

(** The URL of the custom image that [_build_cluster_data] writes, if it
    writes one: none with an image version, the image before the image
    family, in the project of the image when there is one and in the
    project of the cluster otherwise. *)
Definition custom_image_url {datetime : Type}
    (self : ClusterGenerator.t (datetime := datetime)) : option string :=
  let image_project :=
    match if_str (ClusterGenerator.custom_image_project_id (ClusterGenerator.args self)) with
    | Some p => p
    | None => ClusterGenerator.project_id (ClusterGenerator.args self)
    end in
  match if_str (ClusterGenerator.image_version (ClusterGenerator.args self)),
        if_str (ClusterGenerator.custom_image (ClusterGenerator.args self)),
        if_str (ClusterGenerator.custom_image_family (ClusterGenerator.args self)) with
  | Some _, _, _ => None
  | None, Some image, _ =>
      Some ("https://www.googleapis.com/compute/beta/projects/" ++ image_project
            ++ "/global/images/" ++ image)
  | None, None, Some family =>
      Some ("https://www.googleapis.com/compute/beta/projects/" ++ image_project
            ++ "/global/images/family/" ++ family)
  | None, None, None => None
  end.

(** The generator once [_build_cluster_data] has stored the zero-worker
    property into [self.properties], which it does on a single-node
    cluster after the network section is built. *)
Definition after_make {datetime : Type}
    (self : ClusterGenerator.t (datetime := datetime))
    : ClusterGenerator.t (datetime := datetime) := {|
  ClusterGenerator.args := ClusterGenerator.args self;
  ClusterGenerator.self_properties := ClusterGenerator.build_properties self;
  ClusterGenerator.single_node := ClusterGenerator.single_node self
|}.

(** The sections that every built config has, in their order. *)
Definition config_sections : list string :=
  [ "gce_cluster_config"; "master_config"; "worker_config"; "secondary_worker_config";
    "software_config"; "lifecycle_config"; "encryption_config"; "autoscaling_config";
    "endpoint_config" ].

(** The settings of the network section. *)
Definition gce_settings : list string :=
  [ "zone_uri"; "metadata"; "network_uri"; "subnetwork_uri"; "internal_ip_only"; "tags";
    "service_account"; "service_account_scopes" ].

(** Keyword arguments of a cluster in a zone and a subnetwork, with a
    custom image, three preemptible workers, two init actions, a property
    and an idle TTL of zero. *)
Definition zonal_kwargs (workers : option Z) (preemptible : Z)
    : ClusterGenerator.kwargs (datetime := string) := {|
  ClusterGenerator.project_id := "project";
  ClusterGenerator.num_workers := workers;
  ClusterGenerator.zone := Some "europe-west1-b";
  ClusterGenerator.network_uri := Some "";
  ClusterGenerator.subnetwork_uri := Some "subnet-1";
  ClusterGenerator.internal_ip_only := Some true;
  ClusterGenerator.tags := Some ["dataproc"];
  ClusterGenerator.storage_bucket := Some "bucket";
  ClusterGenerator.init_actions_uris := Some ["gs://bucket/a.sh"; "gs://bucket/b.sh"];
  ClusterGenerator.init_action_timeout := "5m";
  ClusterGenerator.metadata := None;
  ClusterGenerator.custom_image := Some "image-1";
  ClusterGenerator.custom_image_project_id := None;
  ClusterGenerator.custom_image_family := None;
  ClusterGenerator.image_version := None;
  ClusterGenerator.autoscaling_policy := None;
  ClusterGenerator.properties := Some [("spark:spark.executor.memory", PyStr "4g")];
  ClusterGenerator.optional_components := Some [];
  ClusterGenerator.num_masters := 1;
  ClusterGenerator.master_machine_type := "n1-standard-4";
  ClusterGenerator.master_disk_type := "pd-standard";
  ClusterGenerator.master_disk_size := 1024;
  ClusterGenerator.worker_machine_type := "n1-standard-8";
  ClusterGenerator.worker_disk_type := "pd-ssd";
  ClusterGenerator.worker_disk_size := 512;
  ClusterGenerator.num_preemptible_workers := preemptible;
  ClusterGenerator.service_account := None;
  ClusterGenerator.service_account_scopes := None;
  ClusterGenerator.idle_delete_ttl := Some 0;
  ClusterGenerator.auto_delete_time := None;
  ClusterGenerator.auto_delete_ttl := Some 3600;
  ClusterGenerator.customer_managed_key := None;
  ClusterGenerator.enable_component_gateway := Some true
|}.

(** The name of the property that allows a cluster without workers. *)
Definition allow_zero_workers : string := "dataproc:dataproc.allow.zero.workers".

(** ** The calls of the other operators *)

(** The operators below call further methods of the hook.  A run is again
    the list of what it does to the outside world; a call of the hook is
    recorded with the Python name of the method and its keyword arguments.
    The retry policy and the request metadata are passed on as they are,
    and left out. *)
Module Calls.

Inductive action : Type :=
| Push (key : string) (value : dict)
| Call (method : string) (arguments : dict).

Definition log : Type := list action.

(** A run threads the log, and raises or returns. *)
Definition Run (A : Type) : Type := log -> log * result A.

Definition ret {A : Type} (x : A) : Run A := fun l => (l, inr x).

Definition raise {A : Type} (e : exn) : Run A := fun l => (l, inl e).

(** The value of an expression that may raise. *)
Definition eval {A : Type} (r : result A) : Run A := fun l => (l, r).

Definition bind {A B : Type} (m : Run A) (k : A -> Run B) : Run B :=
  fun l =>
    match m l with
    | (l', inl e) => (l', inl e)
    | (l', inr x) => k x l'
    end.

(** [try: m  except <e>: handler e] *)
Definition try_except {A : Type} (m : Run A) (handler : exn -> Run A) : Run A :=
  fun l =>
    match m l with
    | (l', inl e) => handler e l'
    | (l', inr x) => (l', inr x)
    end.

(** A call of the hook; the answer may depend on the log so far. *)
Definition call {A : Type} (method : string) (arguments : dict)
    (answer : log -> dict -> result A) : Run A :=
  fun l => ((l ++ [Call method arguments])%list, answer l arguments).

Definition xcom_push (key : string) (value : dict) : Run unit :=
  fun l => ((l ++ [Push key value])%list, inr tt).

(** The methods of the hook that these operators call.  An operation is
    what [update_cluster] and [create_batch] return; [operation_result]
    stands for [operation.result()], and [submit_job] answers with the job
    id in the reference of the job it returns. *)
Record Hook : Type := {
  update_cluster : log -> dict -> result pyval;
  operation_result : log -> dict -> result unit;
  create_batch : log -> dict -> result pyval;
  wait_for_operation : log -> dict -> result dict;
  get_batch : log -> dict -> result dict;
  submit_job : log -> dict -> result string;
  wait_for_job : log -> dict -> result unit;
  cancel_job : log -> dict -> result unit
}.

End Calls.

Declare Scope calls_scope.
Delimit Scope calls_scope with calls.
Notation "x <- m ;; k" := (Calls.bind m (fun x => k))
  (at level 61, m at next level, right associativity) : calls_scope.
Notation "m ;; k" := (Calls.bind m (fun _ => k))
  (at level 61, right associativity) : calls_scope.

(** ** DataprocScaleClusterOperator: the run *)

Module ScaleCluster.

Import DataprocScaleClusterOperator.

Definition _build_scale_cluster_data (self : t) : dict :=
  [ ("config",
       PyDict [ ("worker_config", PyDict [("num_instances", PyInt (num_workers self))]);
                ("secondary_worker_config",
                   PyDict [("num_instances", PyInt (num_preemptible_workers self))]) ]) ].

Definition cluster_conf (self : t) : dict :=
  [ ("cluster_name", PyStr (cluster_name self));
    ("region", PyStr (region self));
    ("project_id", opt_str (project_id self)) ].

(** The keyword arguments of the call of [update_cluster]. *)
Definition update_arguments (self : t) (timeout : option dict) : dict :=
  [ ("project_id", opt_str (project_id self));
    ("region", PyStr (region self));
    ("cluster_name", PyStr (cluster_name self));
    ("cluster", PyDict (_build_scale_cluster_data self));
    ("graceful_decommission_timeout",
       match timeout with
       | Some seconds => PyDict seconds
       | None => PyNone
       end);
    ("update_mask",
       PyDict [ ("paths",
                   PyList [ PyStr "config.worker_config.num_instances";
                            PyStr "config.secondary_worker_config.num_instances" ]) ]) ].

(** The timeout property is read while the arguments of the call are
    evaluated: after the record is pushed, before the call is made. *)
Definition execute (self : t) (hook : Calls.Hook) : Calls.Run unit :=
  (Calls.xcom_push "cluster_conf" (cluster_conf self) ;;
   timeout <- Calls.eval (_graceful_decommission_timeout_object self) ;;
   operation <- Calls.call "update_cluster" (update_arguments self timeout)
                  (Calls.update_cluster hook) ;;
   Calls.call "operation.result" [] (Calls.operation_result hook) ;;
   Calls.ret tt)%calls.

End ScaleCluster.

(** ** DataprocCreateBatchOperator *)

Module DataprocCreateBatchOperator.

(** [timeout] is a number of seconds, taken here as an integer. *)
Record t : Type := {
  region : option string;
  project_id : string;
  batch : dict;
  batch_id : option string;
  request_id : option string;
  timeout : option Z
}.

Definition create_arguments (self : t) (region : string) : dict :=
  [ ("region", PyStr region);
    ("project_id", PyStr (project_id self));
    ("batch", PyDict (batch self));
    ("batch_id", opt_str (batch_id self));
    ("request_id", opt_str (request_id self));
    ("timeout", ClusterGenerator.opt_int (timeout self)) ].

Definition wait_arguments (self : t) (operation : pyval) : dict :=
  [ ("timeout", ClusterGenerator.opt_int (timeout self)); ("operation", operation) ].

Definition get_arguments (self : t) (region batch_id : string) : dict :=
  [ ("batch_id", PyStr batch_id);
    ("region", PyStr region);
    ("project_id", PyStr (project_id self));
    ("timeout", ClusterGenerator.opt_int (timeout self)) ].

(** [Batch.to_dict] is left out: the batch itself is returned. *)
Definition execute (self : t) (hook : Calls.Hook) : Calls.Run dict :=
  match region self with
  | None => Calls.raise (AirflowException "Region should be set here")
  | Some region =>
      (result <-
         Calls.try_except
           (operation <- Calls.call "create_batch" (create_arguments self region)
                           (Calls.create_batch hook) ;;
            Calls.call "wait_for_operation" (wait_arguments self operation)
              (Calls.wait_for_operation hook))
           (fun e =>
              match e with
              | AlreadyExists =>
                  match batch_id self with
                  | None => Calls.raise (AirflowException "Batch Id should be set here")
                  | Some batch_id =>
                      Calls.call "get_batch" (get_arguments self region batch_id)
                        (Calls.get_batch hook)
                  end
              | _ => Calls.raise e
              end) ;;
       Calls.ret result)%calls
  end.

End DataprocCreateBatchOperator.

(** ** DataprocSubmitJobOperator *)

Module DataprocSubmitJobOperator.

Record kwargs : Type := {
  kw_project_id : string;
  kw_job : dict;
  kw_region : option string;
  kw_location : option string;
  kw_request_id : option string;
  kw_timeout : option Z;
  kw_asynchronous : bool;
  kw_cancel_on_kill : bool;
  kw_wait_timeout : option Z
}.

(** The attributes of the operator; [job_id] is [None] until a run sets
    it. *)
Record t : Type := {
  project_id : string;
  region : string;
  job : dict;
  request_id : option string;
  timeout : option Z;
  asynchronous : bool;
  cancel_on_kill : bool;
  wait_timeout : option Z;
  job_id : option string
}.

Definition __init__ (kw : kwargs) : result t :=
  (region <-
     match kw_region kw with
     | Some region => inr region
     | None =>
         match kw_location kw with
         | Some location => inr location
         | None => inl (TypeError "missing 1 required keyword argument: 'region'")
         end
     end ;;
   inr {| project_id := kw_project_id kw;
          region := region;
          job := kw_job kw;
          request_id := kw_request_id kw;
          timeout := kw_timeout kw;
          asynchronous := kw_asynchronous kw;
          cancel_on_kill := kw_cancel_on_kill kw;
          wait_timeout := kw_wait_timeout kw;
          job_id := None |})%result.

Definition submit_arguments (self : t) : dict :=
  [ ("project_id", PyStr (project_id self));
    ("region", PyStr (region self));
    ("job", PyDict (job self));
    ("request_id", opt_str (request_id self));
    ("timeout", ClusterGenerator.opt_int (timeout self)) ].

Definition job_conf (self : t) (job_id : string) : dict :=
  [ ("job_id", PyStr job_id);
    ("region", PyStr (region self));
    ("project_id", PyStr (project_id self)) ].

Definition wait_arguments (self : t) (job_id : string) : dict :=
  [ ("job_id", PyStr job_id);
    ("region", PyStr (region self));
    ("project_id", PyStr (project_id self));
    ("timeout", ClusterGenerator.opt_int (wait_timeout self)) ].

Definition cancel_arguments (self : t) (job_id : string) : dict :=
  [ ("job_id", PyStr job_id);
    ("project_id", PyStr (project_id self));
    ("region", PyStr (region self)) ].

(** The operator after [self.job_id = job_id]. *)
Definition with_job_id (self : t) (job_id : string) : t := {|
  project_id := project_id self;
  region := region self;
  job := job self;
  request_id := request_id self;
  timeout := timeout self;
  asynchronous := asynchronous self;
  cancel_on_kill := cancel_on_kill self;
  wait_timeout := wait_timeout self;
  job_id := Some job_id
|}.

(** A run returns the job id together with the operator as the run leaves
    it; [self.job_id] is assigned by the last statement, so that a run
    that raises leaves the operator as it was. *)
Definition execute (self : t) (hook : Calls.Hook) : Calls.Run (t * string) :=
  (job_id <- Calls.call "submit_job" (submit_arguments self) (Calls.submit_job hook) ;;
   Calls.xcom_push "job_conf" (job_conf self job_id) ;;
   (if negb (asynchronous self)
    then Calls.call "wait_for_job" (wait_arguments self job_id) (Calls.wait_for_job hook)
    else Calls.ret tt) ;;
   Calls.ret (with_job_id self job_id, job_id))%calls.

Definition on_kill (self : t) (hook : Calls.Hook) : Calls.Run unit :=
  match if_str (job_id self) with
  | Some job_id =>
      if cancel_on_kill self
      then Calls.call "cancel_job" (cancel_arguments self job_id) (Calls.cancel_job hook)
      else Calls.ret tt
  | None => Calls.ret tt
  end.

End DataprocSubmitJobOperator.

(** ** DataprocCreateClusterOperator: the constructor *)

Module CreateClusterArguments.
Section Arguments.

Context {datetime : Type}.
Variable utc_strftime : datetime -> string.

(** [super().__init__] is the constructor of [BaseOperator] in
    [airflow.models], which is not part of the module; it is taken as a
    parameter.  [BaseOperator__init__ names] is its outcome on the keyword
    arguments of the call that have the names [names]: it returns, or it
    raises, as it does for a keyword argument that it does not take. *)
Variable BaseOperator__init__ : list string -> result unit.

(** The keyword arguments of [DataprocCreateClusterOperator.__init__].
    [keywords] are the names of the other keyword arguments, the keys of
    the dictionary [kwargs], and [generator_kwargs] are these arguments as
    [ClusterGenerator] reads them, with its defaults for the names that
    are not passed; [project_id] and [metadata] are parameters of this
    constructor, so that neither is among them. *)
Record kwargs : Type := {
  cluster_name : string;
  region : option string;
  project_id : option string;
  cluster_config : option dict;
  labels : option dict;
  request_id : option string;
  delete_on_error : bool;
  use_if_exists : bool;
  timeout : Z;
  keywords : list string;
  generator_kwargs : ClusterGenerator.kwargs (datetime := datetime)
}.

(** [inspect.signature(ClusterGenerator.__init__).parameters] *)
Definition cluster_params : list string :=
  [ "self"; "project_id"; "num_workers"; "zone"; "network_uri"; "subnetwork_uri";
    "internal_ip_only"; "tags"; "storage_bucket"; "init_actions_uris";
    "init_action_timeout"; "metadata"; "custom_image"; "custom_image_project_id";
    "custom_image_family"; "image_version"; "autoscaling_policy"; "properties";
    "optional_components"; "num_masters"; "master_machine_type"; "master_disk_type";
    "master_disk_size"; "worker_machine_type"; "worker_disk_type"; "worker_disk_size";
    "num_preemptible_workers"; "service_account"; "service_account_scopes";
    "idle_delete_ttl"; "auto_delete_time"; "auto_delete_ttl"; "customer_managed_key";
    "enable_component_gateway"; "kwargs" ].

(** [del names[arg]] for the names [arg] that [drop] holds. *)
Definition del (drop : string -> bool) (names : list string) : list string :=
  filter (fun arg => negb (drop arg)) names.

(** What [ClusterGenerator] receives as keyword arguments after
    [kwargs["project_id"] = project_id]: the project of the operator, and
    no [metadata]. *)
Definition generator_arguments (project : string)
    (kw : ClusterGenerator.kwargs (datetime := datetime))
    : ClusterGenerator.kwargs (datetime := datetime) := {|
  ClusterGenerator.project_id := project;
  ClusterGenerator.num_workers := ClusterGenerator.num_workers kw;
  ClusterGenerator.zone := ClusterGenerator.zone kw;
  ClusterGenerator.network_uri := ClusterGenerator.network_uri kw;
  ClusterGenerator.subnetwork_uri := ClusterGenerator.subnetwork_uri kw;
  ClusterGenerator.internal_ip_only := ClusterGenerator.internal_ip_only kw;
  ClusterGenerator.tags := ClusterGenerator.tags kw;
  ClusterGenerator.storage_bucket := ClusterGenerator.storage_bucket kw;
  ClusterGenerator.init_actions_uris := ClusterGenerator.init_actions_uris kw;
  ClusterGenerator.init_action_timeout := ClusterGenerator.init_action_timeout kw;
  ClusterGenerator.metadata := None;
  ClusterGenerator.custom_image := ClusterGenerator.custom_image kw;
  ClusterGenerator.custom_image_project_id := ClusterGenerator.custom_image_project_id kw;
  ClusterGenerator.custom_image_family := ClusterGenerator.custom_image_family kw;
  ClusterGenerator.image_version := ClusterGenerator.image_version kw;
  ClusterGenerator.autoscaling_policy := ClusterGenerator.autoscaling_policy kw;
  ClusterGenerator.properties := ClusterGenerator.properties kw;
  ClusterGenerator.optional_components := ClusterGenerator.optional_components kw;
  ClusterGenerator.num_masters := ClusterGenerator.num_masters kw;
  ClusterGenerator.master_machine_type := ClusterGenerator.master_machine_type kw;
  ClusterGenerator.master_disk_type := ClusterGenerator.master_disk_type kw;
  ClusterGenerator.master_disk_size := ClusterGenerator.master_disk_size kw;
  ClusterGenerator.worker_machine_type := ClusterGenerator.worker_machine_type kw;
  ClusterGenerator.worker_disk_type := ClusterGenerator.worker_disk_type kw;
  ClusterGenerator.worker_disk_size := ClusterGenerator.worker_disk_size kw;
  ClusterGenerator.num_preemptible_workers := ClusterGenerator.num_preemptible_workers kw;
  ClusterGenerator.service_account := ClusterGenerator.service_account kw;
  ClusterGenerator.service_account_scopes := ClusterGenerator.service_account_scopes kw;
  ClusterGenerator.idle_delete_ttl := ClusterGenerator.idle_delete_ttl kw;
  ClusterGenerator.auto_delete_time := ClusterGenerator.auto_delete_time kw;
  ClusterGenerator.auto_delete_ttl := ClusterGenerator.auto_delete_ttl kw;
  ClusterGenerator.customer_managed_key := ClusterGenerator.customer_managed_key kw;
  ClusterGenerator.enable_component_gateway := ClusterGenerator.enable_component_gateway kw
|}.

Definition project_id_required : exn :=
  AirflowException
    "project_id argument is required when building cluster from keywords parameters".

Definition __init__ (kw : kwargs) : result DataprocCreateClusterOperator.t :=
  let region := match region kw with
                | None => "global"
                | Some region => region
                end in
  (built <-
     match cluster_config kw with
     | None =>
         let names := del (String.eqb "params") (keywords kw) in
         match project_id kw with
         | None => inl project_id_required
         | Some project =>
             let names := (names ++ ["project_id"])%list in
             generator <-
               ClusterGenerator.__init__ (generator_arguments project (generator_kwargs kw)) ;;
             cluster_config <- ClusterGenerator.make utc_strftime generator ;;
             inr (cluster_config,
                  del (fun arg => existsb (String.eqb arg) cluster_params) names)
         end
     | Some cluster_config => inr (cluster_config, keywords kw)
     end ;;
   base <- BaseOperator__init__ (snd built) ;;
   inr {| DataprocCreateClusterOperator.cluster_name := cluster_name kw;
          DataprocCreateClusterOperator.region := region;
          DataprocCreateClusterOperator.project_id := project_id kw;
          DataprocCreateClusterOperator.cluster_config := fst built;
          DataprocCreateClusterOperator.labels := labels kw;
          DataprocCreateClusterOperator.request_id := request_id kw;
          DataprocCreateClusterOperator.delete_on_error := delete_on_error kw;
          DataprocCreateClusterOperator.use_if_exists := use_if_exists kw;
          DataprocCreateClusterOperator.timeout := timeout kw |})%result.

End Arguments.
End CreateClusterArguments.

(** *** Example hooks and operators of the other runs *)

(** A remote side on which every call returns: batches are created and
    fetched as [batch], and the submitted job has the id [job_id]. *)
Definition obliging_hook (batch : dict) (job_id : string) : Calls.Hook := {|
  Calls.update_cluster := fun _ _ => inr (PyStr "operation");
  Calls.operation_result := fun _ _ => inr tt;
  Calls.create_batch := fun _ _ => inr (PyStr "operation");
  Calls.wait_for_operation := fun _ _ => inr batch;
  Calls.get_batch := fun _ _ => inr batch;
  Calls.submit_job := fun _ _ => inr job_id;
  Calls.wait_for_job := fun _ _ => inr tt;
  Calls.cancel_job := fun _ _ => inr tt
|}.

(** A remote side on which the batch exists already, and the job that is
    submitted fails. *)
Definition occupied_hook (batch : dict) (job_id : string) : Calls.Hook := {|
  Calls.update_cluster := fun _ _ => inl (ApiError "no cluster");
  Calls.operation_result := fun _ _ => inl (ApiError "no operation");
  Calls.create_batch := fun _ _ => inl AlreadyExists;
  Calls.wait_for_operation := fun _ _ => inl (ApiError "no operation");
  Calls.get_batch := fun _ _ => inr batch;
  Calls.submit_job := fun _ _ => inr job_id;
  Calls.wait_for_job := fun _ _ => inl (AirflowException "Job failed");
  Calls.cancel_job := fun _ _ => inr tt
|}.

Definition example_batch : dict := [("name", PyStr "batch-1"); ("state", PyStr "SUCCEEDED")].

Definition batch_operator (region batch_id : option string)
    : DataprocCreateBatchOperator.t := {|
  DataprocCreateBatchOperator.region := region;
  DataprocCreateBatchOperator.project_id := "project";
  DataprocCreateBatchOperator.batch := [("spark_batch", PyDict [])];
  DataprocCreateBatchOperator.batch_id := batch_id;
  DataprocCreateBatchOperator.request_id := None;
  DataprocCreateBatchOperator.timeout := Some 600
|}.

Definition submit_kwargs (region location : option string) (asynchronous cancel : bool)
    : DataprocSubmitJobOperator.kwargs := {|
  DataprocSubmitJobOperator.kw_project_id := "project";
  DataprocSubmitJobOperator.kw_job := [("spark_job", PyDict [])];
  DataprocSubmitJobOperator.kw_region := region;
  DataprocSubmitJobOperator.kw_location := location;
  DataprocSubmitJobOperator.kw_request_id := None;
  DataprocSubmitJobOperator.kw_timeout := None;
  DataprocSubmitJobOperator.kw_asynchronous := asynchronous;
  DataprocSubmitJobOperator.kw_cancel_on_kill := cancel;
  DataprocSubmitJobOperator.kw_wait_timeout := None
|}.

Definition submit_operator (asynchronous cancel : bool) : DataprocSubmitJobOperator.t := {|
  DataprocSubmitJobOperator.project_id := "project";
  DataprocSubmitJobOperator.region := "europe-west1";
  DataprocSubmitJobOperator.job := [("spark_job", PyDict [])];
  DataprocSubmitJobOperator.request_id := None;
  DataprocSubmitJobOperator.timeout := None;
  DataprocSubmitJobOperator.asynchronous := asynchronous;
  DataprocSubmitJobOperator.cancel_on_kill := cancel;
  DataprocSubmitJobOperator.wait_timeout := None;
  DataprocSubmitJobOperator.job_id := None
|}.

(** A base constructor for the examples: it takes [task_id] and rejects
    every other keyword argument. *)
Definition task_id_only (names : list string) : result unit :=
  match filter (fun arg => negb (arg =? "task_id")%string) names with
  | [] => inr tt
  | arg :: _ => inl (AirflowException ("Invalid argument: " ++ arg)%string)
  end.

(** The arguments of the generator when none is passed: its defaults. *)
Definition generator_defaults : ClusterGenerator.kwargs (datetime := string) := {|
  ClusterGenerator.project_id := "";
  ClusterGenerator.num_workers := None;
  ClusterGenerator.zone := None;
  ClusterGenerator.network_uri := None;
  ClusterGenerator.subnetwork_uri := None;
  ClusterGenerator.internal_ip_only := None;
  ClusterGenerator.tags := None;
  ClusterGenerator.storage_bucket := None;
  ClusterGenerator.init_actions_uris := None;
  ClusterGenerator.init_action_timeout := "10m";
  ClusterGenerator.metadata := None;
  ClusterGenerator.custom_image := None;
  ClusterGenerator.custom_image_project_id := None;
  ClusterGenerator.custom_image_family := None;
  ClusterGenerator.image_version := None;
  ClusterGenerator.autoscaling_policy := None;
  ClusterGenerator.properties := None;
  ClusterGenerator.optional_components := None;
  ClusterGenerator.num_masters := 1;
  ClusterGenerator.master_machine_type := "n1-standard-4";
  ClusterGenerator.master_disk_type := "pd-standard";
  ClusterGenerator.master_disk_size := 1024;
  ClusterGenerator.worker_machine_type := "n1-standard-4";
  ClusterGenerator.worker_disk_type := "pd-standard";
  ClusterGenerator.worker_disk_size := 1024;
  ClusterGenerator.num_preemptible_workers := 0;
  ClusterGenerator.service_account := None;
  ClusterGenerator.service_account_scopes := None;
  ClusterGenerator.idle_delete_ttl := None;
  ClusterGenerator.auto_delete_time := None;
  ClusterGenerator.auto_delete_ttl := None;
  ClusterGenerator.customer_managed_key := None;
  ClusterGenerator.enable_component_gateway := Some false
|}.

(** The names of the arguments in [image_and_family], in [two_workers] and
    in [zonal_kwargs], each with [task_id]; the last with [params] too. *)
Definition image_and_family_keywords : list string :=
  ["task_id"; "custom_image"; "custom_image_family"; "image_version"; "num_workers"].

Definition two_workers_keywords : list string :=
  ["task_id"; "image_version"; "num_workers"].

Definition zonal_keywords : list string :=
  [ "task_id"; "params"; "num_workers"; "zone"; "network_uri"; "subnetwork_uri";
    "internal_ip_only"; "tags"; "storage_bucket"; "init_actions_uris";
    "init_action_timeout"; "custom_image"; "properties"; "optional_components";
    "worker_machine_type"; "worker_disk_type"; "worker_disk_size";
    "idle_delete_ttl"; "auto_delete_ttl"; "enable_component_gateway" ].

(** Keyword arguments of the create operator, with the names [names] of
    those that it has no parameter for. *)
Definition cluster_kwargs (project : option string) (config : option dict)
    (names : list string) (generator : ClusterGenerator.kwargs (datetime := string))
    : CreateClusterArguments.kwargs (datetime := string) := {|
  CreateClusterArguments.cluster_name := "cluster-1";
  CreateClusterArguments.region := None;
  CreateClusterArguments.project_id := project;
  CreateClusterArguments.cluster_config := config;
  CreateClusterArguments.labels := None;
  CreateClusterArguments.request_id := None;
  CreateClusterArguments.delete_on_error := true;
  CreateClusterArguments.use_if_exists := true;
  CreateClusterArguments.timeout := 3600;
  CreateClusterArguments.keywords := names;
  CreateClusterArguments.generator_kwargs := generator
|}.

(** *** Duration strings *)

(** A string of decimal digits. *)
Fixpoint all_digits (s : string) : bool :=
  match s with
  | EmptyString => true
  | String c s' => is_digit c && all_digits s'
  end.

(** The duration [ds] with the unit [u], followed by [tl]. *)
Definition duration (ds : string) (u : ascii) (tl : string) : string :=
  ds ++ String u tl.

(** * Properties *)

(** ** Duration strings *)

Lemma re_match_unit (units s ds : string) (u : ascii) :
  re_match units s = Some (ds, u) -> mem_ascii u units = true.
Proof.
  unfold re_match.
  destruct (span_digits s) as [[|d ds'] [|u' tl]]; try discriminate.
  destruct (mem_ascii u' units) eqn:Hmem; simpl; try discriminate.
  destruct (_ || _); intros H; inversion H; subst; assumption.
Qed.

Lemma float_round_small (n : Z) : n < 2 ^ 53 -> float_round n = n.
Proof.
  intros Hn. unfold float_round.
  assert (Hlog : Z.log2 n < 53).
  { destruct (Z_lt_le_dec 0 n) as [Hpos | Hneg].
    - apply Z.log2_lt_pow2; assumption.
    - rewrite Z.log2_nonpos by assumption. lia. }
  destruct (Z.leb_spec (Z.log2 n + 1 - 53) 0); [reflexivity | lia].
Qed.

Lemma float_of_str_exact (s : string) :
  int_of_str s < 2 ^ 53 -> float_of_str s = Finite (int_of_str s).
Proof.
  intros Hn. unfold float_of_str.
  rewrite float_round_small by assumption.
  destruct (Z.ltb_spec (int_of_str s) (2 ^ 1024)) as [_ | Hge]; [reflexivity |].
  exfalso. assert (2 ^ 53 < 2 ^ 1024) by (apply Z.pow_lt_mono_r; lia). lia.
Qed.

Lemma timedelta_whole_seconds (c v : Z) :
  v * c < timedelta_limit_seconds ->
  exists td,
    timedelta_of (c * 1000000) (Finite v) = inr td
    /\ total_seconds td = Finite (v * c).
Proof.
  unfold timedelta_limit_seconds, timedelta_of, timedelta_max_days. intros Hlim.
  replace (v * (c * 1000000)) with (v * c * 1000000) by ring.
  set (p := v * c) in *.
  destruct (Z.ltb_spec 999999999 (p * 1000000 / 86400000000)) as [Hover | _].
  - exfalso.
    assert (p * 1000000 / 86400000000 < 1000000000)
      by (apply Z.div_lt_upper_bound; lia).
    lia.
  - eexists. split; [reflexivity |].
    unfold total_seconds. simpl. rewrite Z.div_mul by lia. reflexivity.
Qed.

Lemma below_limit_exact (s : string) (c : Z) :
  1 <= c -> int_of_str s * c < timedelta_limit_seconds -> int_of_str s < 2 ^ 53.
Proof.
  unfold timedelta_limit_seconds. intros Hc Hlim.
  assert (H53 : 2 ^ 53 = 9007199254740992) by reflexivity.
  rewrite H53. nia.
Qed.

Lemma mem_ascii_cons (u c : ascii) (cs : string) :
  mem_ascii u (String c cs) = true -> u = c \/ mem_ascii u cs = true.
Proof.
  cbn [mem_ascii]. intros H. apply orb_true_iff in H.
  destruct H as [H | H]; [left | right; assumption].
  apply Ascii.eqb_eq in H. congruence.
Qed.

Lemma mem_ascii_sm (u : ascii) :
  mem_ascii u "sm" = true -> u = "s"%char \/ u = "m"%char.
Proof.
  intros H.
  apply mem_ascii_cons in H as [H | H]; [left; assumption |].
  apply mem_ascii_cons in H as [H | H]; [right; assumption |].
  discriminate H.
Qed.

Lemma mem_ascii_smdh (u : ascii) :
  mem_ascii u "smdh" = true ->
  u = "s"%char \/ u = "m"%char \/ u = "d"%char \/ u = "h"%char.
Proof.
  intros H.
  apply mem_ascii_cons in H as [H | H]; [tauto |].
  apply mem_ascii_cons in H as [H | H]; [tauto |].
  apply mem_ascii_cons in H as [H | H]; [tauto |].
  apply mem_ascii_cons in H as [H | H]; [tauto |].
  discriminate H.
Qed.

Ltac whole_seconds c ds Hlim :=
  let td := fresh "td" in
  let Htd := fresh "Htd" in
  let Hsec := fresh "Hsec" in
  destruct (timedelta_whole_seconds c (int_of_str ds) Hlim) as [td [Htd Hsec]];
  rewrite Htd; cbn [bind_result]; rewrite Hsec; reflexivity.

(** The init-action parser on a string that matches: seconds go through
    a float, minutes through a [timedelta]. *)
Lemma init_action_timeout_seconds {datetime : Type}
    (self : ClusterGenerator.t (datetime := datetime)) (ds : string) (u : ascii) :
  re_match "sm" (ClusterGenerator.init_action_timeout (ClusterGenerator.args self))
  = Some (ds, u) ->
  (if (u =? "s")%char then int_of_str ds < 2 ^ 53
   else int_of_str ds * unit_seconds u < timedelta_limit_seconds) ->
  ClusterGenerator._get_init_action_timeout self
  = inr (seconds (int_of_str ds * unit_seconds u)).
Proof.
  intros Hmatch Hlim. unfold ClusterGenerator._get_init_action_timeout.
  rewrite Hmatch.
  destruct (mem_ascii_sm u (re_match_unit _ _ _ _ Hmatch)) as [-> | ->].
  - change (unit_seconds "s") with 1 in *. cbn [Ascii.eqb Bool.eqb] in Hlim.
    rewrite float_of_str_exact by exact Hlim.
    cbn. unfold seconds. rewrite Z.mul_1_r. reflexivity.
  - change (unit_seconds "m") with 60 in *. cbn [Ascii.eqb Bool.eqb] in Hlim.
    rewrite float_of_str_exact by (apply (below_limit_exact ds 60); lia).
    cbn [Ascii.eqb Bool.eqb]. unfold timedelta_minutes.
    change 60000000 with (60 * 1000000).
    whole_seconds 60 ds Hlim.
Qed.



(** [int] within its limit, and beyond. *)
Lemma python_int_within (s : string) :
  (digits_in s <= 4300)%nat -> python_int s = inr (int_of_str s).
Proof.
  intros Hdigits. unfold python_int, int_max_str_digits.
  destruct (Nat.ltb_spec 4300 (digits_in s)); [lia | reflexivity].
Qed.

Lemma python_int_beyond (s : string) :
  (4300 < digits_in s)%nat -> exists msg, python_int s = inl (ValueError msg).
Proof.
  intros Hdigits. unfold python_int, int_max_str_digits.
  destruct (Nat.ltb_spec 4300 (digits_in s)); [eauto | lia].
Qed.

(** The value of [timeout] in the decommission parser on a string that
    matches: seconds go through [int], the other units through a float
    and a [timedelta]. *)
Lemma parse_timeout_seconds (s ds : string) (u : ascii) :
  re_match "smdh" s = Some (ds, u) ->
  (if (u =? "s")%char then (digits_in ds <= 4300)%nat
   else int_of_str ds * unit_seconds u < timedelta_limit_seconds) ->
  DataprocScaleClusterOperator.parse_timeout s
  = inr (Some (int_of_str ds * unit_seconds u)).
Proof.
  intros Hmatch Hlim. unfold DataprocScaleClusterOperator.parse_timeout.
  rewrite Hmatch.
  destruct (mem_ascii_smdh u (re_match_unit _ _ _ _ Hmatch))
    as [-> | [-> | [-> | ->]]]; cbn [Ascii.eqb Bool.eqb] in Hlim.
  - change (unit_seconds "s") with 1. cbn [Ascii.eqb Bool.eqb].
    rewrite (python_int_within ds Hlim). cbn [bind_result].
    rewrite Z.mul_1_r. reflexivity.
  - change (unit_seconds "m") with 60 in *.
    rewrite float_of_str_exact by (apply (below_limit_exact ds 60); lia).
    cbn [Ascii.eqb Bool.eqb]. unfold timedelta_minutes.
    change 60000000 with (60 * 1000000).
    whole_seconds 60 ds Hlim.
  - change (unit_seconds "d") with 86400 in *.
    rewrite float_of_str_exact by (apply (below_limit_exact ds 86400); lia).
    cbn [Ascii.eqb Bool.eqb]. unfold timedelta_days.
    change 86400000000 with (86400 * 1000000).
    whole_seconds 86400 ds Hlim.
  - change (unit_seconds "h") with 3600 in *.
    rewrite float_of_str_exact by (apply (below_limit_exact ds 3600); lia).
    cbn [Ascii.eqb Bool.eqb]. unfold timedelta_hours.
    change 3600000000 with (3600 * 1000000).
    whole_seconds 3600 ds Hlim.
Qed.

Lemma init_action_timeout_no_match {datetime : Type}
    (self : ClusterGenerator.t (datetime := datetime)) :
  re_match "sm" (ClusterGenerator.init_action_timeout (ClusterGenerator.args self)) = None ->
  ClusterGenerator._get_init_action_timeout self
  = inl ClusterGenerator.init_action_timeout_error.
Proof.
  intros Hno. unfold ClusterGenerator._get_init_action_timeout.
  rewrite Hno. reflexivity.
Qed.

Lemma re_match_nonempty (units s ds : string) (u : ascii) :
  re_match units s = Some (ds, u) -> exists c s', s = String c s'.
Proof.
  destruct s as [|c s']; [discriminate | eauto].
Qed.

Lemma if_str_nonempty (c : ascii) (s : string) :
  if_str (Some (String c s)) = Some (String c s).
Proof. reflexivity. Qed.

(** The examples of the specification, at the call site that has all four
    units, and at the init-action call site. *)
Example decommission_10m :
  DataprocScaleClusterOperator._graceful_decommission_timeout_object
    (scale_operator (Some "10m")) = inr (Some (seconds 600)).
Proof. reflexivity. Qed.

Example decommission_1h :
  DataprocScaleClusterOperator._graceful_decommission_timeout_object
    (scale_operator (Some "1h")) = inr (Some (seconds 3600)).
Proof. reflexivity. Qed.

Example decommission_2d :
  DataprocScaleClusterOperator._graceful_decommission_timeout_object
    (scale_operator (Some "2d")) = inr (Some (seconds 172800)).
Proof. reflexivity. Qed.

Example decommission_abc :
  DataprocScaleClusterOperator._graceful_decommission_timeout_object
    (scale_operator (Some "abc"))
  = inl DataprocScaleClusterOperator.decommission_timeout_error.
Proof. reflexivity. Qed.

Example init_action_10m :
  ClusterGenerator._get_init_action_timeout (generator_with_timeout "10m")
  = inr (seconds 600).
Proof. reflexivity. Qed.

Example init_action_0s :
  ClusterGenerator._get_init_action_timeout (generator_with_timeout "0s")
  = inr (seconds 0).
Proof. reflexivity. Qed.

(** The digits need not be ASCII: ten minutes, written with the
    Arabic-Indic digits one (U+0661) and zero (U+0660). *)
Example init_action_arabic_indic_10m :
  let ten := String "217" (String "161" (String "217" (String "160" EmptyString))) in
  re_match "sm" (ten ++ "m") = Some (ten, "m"%char)
  /\ int_of_str ten = 10
  /\ digits_in ten = 2%nat
  /\ ClusterGenerator._get_init_action_timeout (generator_with_timeout (ten ++ "m"))
     = inr (seconds 600).
Proof. repeat split; vm_compute; reflexivity. Qed.

(** The hour is not a unit of the init-action call site. *)
Example init_action_1h :
  ClusterGenerator._get_init_action_timeout (generator_with_timeout "1h")
  = inl ClusterGenerator.init_action_timeout_error.
Proof. reflexivity. Qed.

(** Beyond the range of [timedelta] the conversion overflows. *)
Example decommission_overflow :
  DataprocScaleClusterOperator._graceful_decommission_timeout_object
    (scale_operator (Some "1440000000000m")) = inl OverflowError.
Proof. vm_compute. reflexivity. Qed.

(** C5, as stated, fails at the decommission call site: ["0s"] matches
    the pattern and stands for zero seconds, yet the parser raises on it
    instead of returning zero; the empty string does not match, yet the
    parser returns [None] instead of raising; a string of 4301 digits and
    the unit [s] matches and stands for one second, yet [int] refuses it
    with [ValueError].  It fails at the init-action call site for seconds
    from [2^53] on: [2^53 + 1] seconds come out as [2^53], through the
    float.  It fails at both call sites beyond the range of [timedelta]:
    [10^9] days in minutes match the pattern, and the parsers raise
    [OverflowError]. *)
Lemma C5_zero_seconds_counterexample :
  (re_match "smdh" "0s" = Some ("0", "s"%char)
   /\ int_of_str "0" * unit_seconds "s" = 0
   /\ DataprocScaleClusterOperator._graceful_decommission_timeout_object
        (scale_operator (Some "0s"))
      = inl DataprocScaleClusterOperator.decommission_timeout_error)
  /\ (re_match "smdh" "" = None
      /\ DataprocScaleClusterOperator._graceful_decommission_timeout_object
           (scale_operator (Some "")) = inr None)
  /\ (re_match "smdh" (zeros 4300 ++ "1s") = Some (zeros 4300 ++ "1", "s"%char)
      /\ int_of_str (zeros 4300 ++ "1") * unit_seconds "s" = 1
      /\ digits_in (zeros 4300 ++ "1") = 4301%nat
      /\ exists msg,
           DataprocScaleClusterOperator._graceful_decommission_timeout_object
             (scale_operator (Some (zeros 4300 ++ "1s")))
           = inl (ValueError msg))
  /\ (re_match "sm" "9007199254740993s" = Some ("9007199254740993", "s"%char)
      /\ int_of_str "9007199254740993" * unit_seconds "s" = 2 ^ 53 + 1
      /\ ClusterGenerator._get_init_action_timeout
           (generator_with_timeout "9007199254740993s")
         = inr (seconds (2 ^ 53)))
  /\ (re_match "sm" "1440000000000m" = Some ("1440000000000", "m"%char)
      /\ ClusterGenerator._get_init_action_timeout
           (generator_with_timeout "1440000000000m") = inl OverflowError
      /\ DataprocScaleClusterOperator._graceful_decommission_timeout_object
           (scale_operator (Some "1440000000000m")) = inl OverflowError).
Proof.
  split; [repeat split; vm_compute; reflexivity |].
  split; [repeat split; vm_compute; reflexivity |].
  split.
  { split; [vm_compute; reflexivity |]. split; [vm_compute; reflexivity |].
    split; [vm_compute; reflexivity |].
    eexists. vm_compute. reflexivity. }
  split; repeat split; vm_compute; reflexivity.
Qed.

(** C5 (amended).  Let a string match the pattern of its call site.  With
    the unit [m], [h] or [d] and less than [10^9] days, the init-action
    parser returns the exact number of seconds, zero included, and the
    decommission parser returns it when it is positive.  With the unit [s]
    the init-action parser returns the exact number when it is below
    [2^53], and the decommission parser returns it when it is positive and
    has at most 4300 digits.  A string that does not match makes the
    init-action parser raise, and makes the decommission parser raise
    unless it is empty or absent, in which case the result is [None]. *)
Theorem C5_duration_parsers (s ds : string) (u : ascii) :
  (forall (datetime : Type) (self : ClusterGenerator.t (datetime := datetime)),
      ClusterGenerator.init_action_timeout (ClusterGenerator.args self) = s ->
      (re_match "sm" s = Some (ds, u) ->
       (if (u =? "s")%char then int_of_str ds < 2 ^ 53
        else int_of_str ds * unit_seconds u < timedelta_limit_seconds) ->
       ClusterGenerator._get_init_action_timeout self
       = inr (seconds (int_of_str ds * unit_seconds u)))
      /\ (re_match "sm" s = None ->
          ClusterGenerator._get_init_action_timeout self
          = inl ClusterGenerator.init_action_timeout_error))
  /\ (forall self : DataprocScaleClusterOperator.t,
        DataprocScaleClusterOperator.graceful_decommission_timeout self = Some s ->
        (re_match "smdh" s = Some (ds, u) ->
         0 < int_of_str ds * unit_seconds u ->
         (if (u =? "s")%char then (digits_in ds <= 4300)%nat
          else int_of_str ds * unit_seconds u < timedelta_limit_seconds) ->
         DataprocScaleClusterOperator._graceful_decommission_timeout_object self
         = inr (Some (seconds (int_of_str ds * unit_seconds u))))
        /\ (re_match "smdh" s = None -> s <> EmptyString ->
            DataprocScaleClusterOperator._graceful_decommission_timeout_object self
            = inl DataprocScaleClusterOperator.decommission_timeout_error))
  /\ (forall self : DataprocScaleClusterOperator.t,
        if_str (DataprocScaleClusterOperator.graceful_decommission_timeout self) = None ->
        DataprocScaleClusterOperator._graceful_decommission_timeout_object self
        = inr None).
Proof.
  split; [| split].
  - intros datetime self Hs. split.
    + intros Hmatch Hlim. apply init_action_timeout_seconds; [rewrite Hs |]; assumption.
    + intros Hno. apply init_action_timeout_no_match. rewrite Hs. assumption.
  - intros self Hs. split.
    + intros Hmatch Hpos Hlim.
      unfold DataprocScaleClusterOperator._graceful_decommission_timeout_object.
      rewrite Hs.
      destruct (re_match_nonempty _ _ _ _ Hmatch) as [c [s' ->]].
      rewrite if_str_nonempty.
      rewrite (parse_timeout_seconds _ _ _ Hmatch Hlim).
      cbn [bind_result if_int].
      destruct (Z.eqb_spec (int_of_str ds * unit_seconds u) 0) as [Hz | _];
        [lia | reflexivity].
    + intros Hno Hne.
      unfold DataprocScaleClusterOperator._graceful_decommission_timeout_object.
      rewrite Hs. destruct s as [|c s']; [congruence |].
      rewrite if_str_nonempty.
      unfold DataprocScaleClusterOperator.parse_timeout. rewrite Hno.
      reflexivity.
  - intros self Hnone.
    unfold DataprocScaleClusterOperator._graceful_decommission_timeout_object.
    rewrite Hnone. reflexivity.
Qed.

Lemma C5_duration_parsers_witness :
  ClusterGenerator._get_init_action_timeout (generator_with_timeout "10m")
  = inr (seconds 600)
  /\ ClusterGenerator._get_init_action_timeout (generator_with_timeout "0s")
     = inr (seconds 0)
  /\ DataprocScaleClusterOperator._graceful_decommission_timeout_object
       (scale_operator (Some "2d")) = inr (Some (seconds 172800))
  /\ DataprocScaleClusterOperator._graceful_decommission_timeout_object
       (scale_operator (Some "30s")) = inr (Some (seconds 30))
  /\ DataprocScaleClusterOperator._graceful_decommission_timeout_object
       (scale_operator (Some "abc"))
     = inl DataprocScaleClusterOperator.decommission_timeout_error
  /\ DataprocScaleClusterOperator._graceful_decommission_timeout_object
       (scale_operator (Some "")) = inr None.
Proof.
  split; [| split; [| split; [| split; [| split]]]].
  - apply (proj1 (proj1 (C5_duration_parsers "10m" "10" "m")
                    string (generator_with_timeout "10m") eq_refl)).
    + reflexivity.
    + vm_compute. reflexivity.
  - apply (proj1 (proj1 (C5_duration_parsers "0s" "0" "s")
                    string (generator_with_timeout "0s") eq_refl)).
    + reflexivity.
    + vm_compute. reflexivity.
  - apply (proj1 (proj1 (proj2 (C5_duration_parsers "2d" "2" "d"))
                    (scale_operator (Some "2d")) eq_refl)).
    + reflexivity.
    + vm_compute. reflexivity.
    + vm_compute. reflexivity.
  - apply (proj1 (proj1 (proj2 (C5_duration_parsers "30s" "30" "s"))
                    (scale_operator (Some "30s")) eq_refl)).
    + reflexivity.
    + vm_compute. reflexivity.
    + apply Nat.leb_le. reflexivity.
  - apply (proj2 (proj1 (proj2 (C5_duration_parsers "abc" "" "s"))
                    (scale_operator (Some "abc")) eq_refl)).
    + reflexivity.
    + discriminate.
  - apply (proj2 (proj2 (C5_duration_parsers "" "" "s")) (scale_operator (Some ""))).
    reflexivity.
Defined.

(** ** Dictionaries *)

Lemma getitem_setitem (k k' : string) (v : pyval) (d : dict) :
  getitem k (setitem k' v d) = if (k' =? k)%string then Some v else getitem k d.
Proof.
  induction d as [| [k0 v0] d IH]; simpl.
  - destruct (String.eqb_spec k' k); reflexivity.
  - destruct (String.eqb_spec k0 k') as [-> | Hne]; simpl.
    + destruct (String.eqb_spec k' k); reflexivity.
    + destruct (String.eqb_spec k0 k) as [-> | Hne'].
      * destruct (String.eqb_spec k' k); [congruence | reflexivity].
      * exact IH.
Qed.

Lemma agree_off_refl (k1 : string) (d : dict) : agree_off k1 d d.
Proof. intros k _. reflexivity. Qed.

Lemma agree_off_trans (k1 : string) (d1 d2 d3 : dict) :
  agree_off k1 d1 d2 -> agree_off k1 d2 d3 -> agree_off k1 d1 d3.
Proof.
  intros H12 H23 k Hk. rewrite (H23 k Hk). apply H12, Hk.
Qed.

Lemma agree_off_setitem (k1 : string) (v : pyval) (d : dict) :
  agree_off k1 d (setitem k1 v d).
Proof.
  intros k Hk. rewrite getitem_setitem, Hk. reflexivity.
Qed.

Lemma is_dictb_setitem_dict (k1 : string) (inner d : dict) :
  is_dictb k1 (setitem k1 (PyDict inner) d) = true.
Proof.
  unfold is_dictb. rewrite getitem_setitem, String.eqb_refl. reflexivity.
Qed.

(** A change at one key keeps the sections when the key still holds a
    dictionary, or is not a section. *)
Lemma sections_ok_step (k1 : string) (d d' : dict) :
  sections_ok d -> agree_off k1 d d' ->
  is_dictb k1 d' = true \/ ~ In k1 sections ->
  sections_ok d'.
Proof.
  intros Hok Hagree Hk1 k Hin.
  destruct (String.eqb_spec k1 k) as [-> | Hne].
  - destruct Hk1 as [Hd | Hout]; [exact Hd | contradiction].
  - unfold is_dictb. rewrite (Hagree k) by (apply String.eqb_neq; exact Hne).
    apply (Hok k Hin).
Qed.

Lemma setitem2_spec (k1 k2 : string) (v : pyval) (d inner : dict) :
  getitem k1 d = Some (PyDict inner) ->
  setitem2 k1 k2 v d = inr (setitem k1 (PyDict (setitem k2 v inner)) d).
Proof.
  intros Hget. unfold setitem2. rewrite Hget. reflexivity.
Qed.

Lemma is_dictb_inv (k : string) (d : dict) :
  is_dictb k d = true -> exists inner, getitem k d = Some (PyDict inner).
Proof.
  unfold is_dictb. destruct (getitem k d) as [[| | | | |inner]|]; try discriminate.
  eauto.
Qed.

Lemma setitem2_step (k1 k2 : string) (v : pyval) (d : dict) :
  is_dictb k1 d = true ->
  exists d', setitem2 k1 k2 v d = inr d'
             /\ agree_off k1 d d' /\ is_dictb k1 d' = true.
Proof.
  intros Hd. destruct (is_dictb_inv _ _ Hd) as [inner Hget].
  eexists. split; [apply setitem2_spec, Hget |].
  split; [apply agree_off_setitem | apply is_dictb_setitem_dict].
Qed.

Lemma set_if_step {A : Type} (o : option A) (k1 k2 : string) (v : A -> pyval)
    (d : dict) :
  is_dictb k1 d = true ->
  exists d', ClusterGenerator.set_if o k1 k2 v d = inr d'
             /\ agree_off k1 d d' /\ is_dictb k1 d' = true.
Proof.
  intros Hd. destruct o as [x |]; simpl.
  - apply setitem2_step, Hd.
  - exists d. auto using agree_off_refl.
Qed.

(** ** The blocks of [_build_cluster_data] *)

Section GeneratorBlocks.

Context {datetime : Type}.
Variable utc_strftime : datetime -> string.
Variable self : ClusterGenerator.t (datetime := datetime).

Import ClusterGenerator.

Lemma section_is_dict (k : string) (d : dict) :
  sections_ok d -> In k sections -> is_dictb k d = true.
Proof. intros Hok Hin. apply Hok, Hin. Qed.

(** One nested assignment into the section [k1]: it returns, keeps the
    sections ([Hok'], from [Hok]) and leaves the other entries alone. *)
Ltac section_step k1 Hok Hok' :=
  match goal with
  | |- context [set_if ?o k1 ?k2 ?v ?d] =>
      let d' := fresh "d" in
      let E := fresh "E" in
      let Ha := fresh "Ha" in
      let Hd := fresh "Hd" in
      destruct (set_if_step o k1 k2 v d (section_is_dict k1 d Hok ltac:(simpl; tauto)))
        as [d' [E [Ha Hd]]];
      rewrite E; cbn [bind_result];
      pose proof (sections_ok_step k1 d d' Hok Ha (or_introl Hd)) as Hok'
  | |- context [setitem2 k1 ?k2 ?v ?d] =>
      let d' := fresh "d" in
      let E := fresh "E" in
      let Ha := fresh "Ha" in
      let Hd := fresh "Hd" in
      destruct (setitem2_step k1 k2 v d (section_is_dict k1 d Hok ltac:(simpl; tauto)))
        as [d' [E [Ha Hd]]];
      rewrite E; cbn [bind_result];
      pose proof (sections_ok_step k1 d d' Hok Ha (or_introl Hd)) as Hok'
  end.

Lemma initial_cluster_data_sections :
  sections_ok (initial_cluster_data self)
  /\ getitem "lifecycle_config" (initial_cluster_data self) = Some (PyDict []).
Proof.
  unfold initial_cluster_data.
  destruct (machine_type_uris self) as [master_type_uri worker_type_uri].
  destruct (0 <? num_preemptible_workers self);
    destruct (if_str (storage_bucket self)); split; try reflexivity;
    intros k [<- | [<- | [<- | [<- | [<- | []]]]]]; reflexivity.
Qed.

Lemma custom_image_uris_step (url : string) (d : dict) :
  sections_ok d ->
  exists d', custom_image_uris self url d = inr d'
             /\ sections_ok d'
             /\ getitem "lifecycle_config" d' = getitem "lifecycle_config" d.
Proof.
  intros Hok. unfold custom_image_uris.
  section_step "master_config" Hok Hok1.
  destruct (negb (single_node self)).
  - section_step "worker_config" Hok1 Hok2.
    eexists. split; [reflexivity |]. split; [assumption |].
    rewrite (Ha0 "lifecycle_config" eq_refl). apply (Ha "lifecycle_config" eq_refl).
  - eexists. split; [reflexivity |]. split; [assumption |].
    apply (Ha "lifecycle_config" eq_refl).
Qed.

Lemma image_config_step (d : dict) :
  sections_ok d ->
  exists d', image_config self d = inr d'
             /\ sections_ok d'
             /\ getitem "lifecycle_config" d' = getitem "lifecycle_config" d.
Proof.
  intros Hok. unfold image_config.
  destruct (if_str (image_version self)) as [version |].
  - section_step "software_config" Hok Hok1.
    eexists. split; [reflexivity |]. split; [assumption |].
    apply (Ha "lifecycle_config" eq_refl).
  - destruct (if_str (custom_image self)) as [image |];
      [apply custom_image_uris_step, Hok |].
    destruct (if_str (custom_image_family self)) as [family |];
      [apply custom_image_uris_step, Hok |].
    exists d. auto.
Qed.

Lemma build_gce_cluster_config_step (d : dict) :
  sections_ok d ->
  if internal_ip_without_subnetwork self
  then _build_gce_cluster_config self d = inl internal_ip_error
  else exists d', _build_gce_cluster_config self d = inr d'
                  /\ sections_ok d'
                  /\ getitem "lifecycle_config" d' = getitem "lifecycle_config" d.
Proof.
  intros Hok. unfold _build_gce_cluster_config, internal_ip_without_subnetwork, is_set.
  section_step "gce_cluster_config" Hok Hok1.
  section_step "gce_cluster_config" Hok1 Hok2.
  section_step "gce_cluster_config" Hok2 Hok3.
  section_step "gce_cluster_config" Hok3 Hok4.
  assert (Hlc : getitem "lifecycle_config" d3 = getitem "lifecycle_config" d).
  { rewrite (Ha2 "lifecycle_config" eq_refl), (Ha1 "lifecycle_config" eq_refl), (Ha0 "lifecycle_config" eq_refl). apply (Ha "lifecycle_config" eq_refl). }
  destruct (if_bool (internal_ip_only self)); cbn [andb].
  - destruct (is_some (if_str (subnetwork_uri self))); cbn [negb];
      [| reflexivity].
    section_step "gce_cluster_config" Hok4 Hok5.
    section_step "gce_cluster_config" Hok5 Hok6.
    section_step "gce_cluster_config" Hok6 Hok7.
    section_step "gce_cluster_config" Hok7 Hok8.
    eexists. split; [reflexivity |]. split; [assumption |].
    rewrite (Ha6 "lifecycle_config" eq_refl), (Ha5 "lifecycle_config" eq_refl), (Ha4 "lifecycle_config" eq_refl), (Ha3 "lifecycle_config" eq_refl).
    exact Hlc.
  - cbn [bind_result].
    section_step "gce_cluster_config" Hok4 Hok5.
    section_step "gce_cluster_config" Hok5 Hok6.
    section_step "gce_cluster_config" Hok6 Hok7.
    eexists. split; [reflexivity |]. split; [assumption |].
    rewrite (Ha5 "lifecycle_config" eq_refl), (Ha4 "lifecycle_config" eq_refl), (Ha3 "lifecycle_config" eq_refl).
    exact Hlc.
Qed.

Lemma software_config_step (d : dict) :
  sections_ok d ->
  exists d', software_config self d = inr d'
             /\ sections_ok d'
             /\ getitem "lifecycle_config" d' = getitem "lifecycle_config" d.
Proof.
  intros Hok. unfold software_config.
  section_step "software_config" Hok Hok1.
  section_step "software_config" Hok1 Hok2.
  eexists. split; [reflexivity |]. split; [assumption |].
  rewrite (Ha0 "lifecycle_config" eq_refl). apply (Ha "lifecycle_config" eq_refl).
Qed.

Lemma setitem2_lookup (k1 k2 : string) (v : pyval) (d inner : dict) :
  getitem k1 d = Some (PyDict inner) ->
  exists d', setitem2 k1 k2 v d = inr d'
             /\ agree_off k1 d d'
             /\ getitem k1 d' = Some (PyDict (setitem k2 v inner)).
Proof.
  intros Hget. eexists. split; [apply setitem2_spec, Hget |].
  split; [apply agree_off_setitem |].
  rewrite getitem_setitem, String.eqb_refl. reflexivity.
Qed.

Lemma sections_ok_lifecycle (d d' : dict) (l' : dict) :
  sections_ok d -> agree_off "lifecycle_config" d d' ->
  getitem "lifecycle_config" d' = Some (PyDict l') -> sections_ok d'.
Proof.
  intros Hok Ha Hget. apply (sections_ok_step "lifecycle_config" d d' Hok Ha).
  left. unfold is_dictb. rewrite Hget. reflexivity.
Qed.

(** The lifecycle section after [_build_lifecycle_config]: the time wins
    over the TTL. *)
Lemma build_lifecycle_config_step (d l : dict) :
  sections_ok d ->
  getitem "lifecycle_config" d = Some (PyDict l) ->
  exists d' l',
    _build_lifecycle_config utc_strftime self d = inr d'
    /\ sections_ok d'
    /\ getitem "lifecycle_config" d' = Some (PyDict l')
    /\ match auto_delete_time self with
       | Some time =>
           getitem "auto_delete_time" l' = Some (PyStr (utc_strftime time))
           /\ getitem "auto_delete_ttl" l' = getitem "auto_delete_ttl" l
       | None =>
           getitem "auto_delete_time" l' = getitem "auto_delete_time" l
           /\ getitem "auto_delete_ttl" l'
              = match if_int (auto_delete_ttl self) with
                | Some n => Some (seconds_dict n)
                | None => getitem "auto_delete_ttl" l
                end
       end.
Proof.
  intros Hok Hget. unfold _build_lifecycle_config.
  assert (Hidle : exists d1 l1,
             set_if (if_int (idle_delete_ttl self)) "lifecycle_config" "idle_delete_ttl"
               seconds_dict d = inr d1
             /\ sections_ok d1
             /\ getitem "lifecycle_config" d1 = Some (PyDict l1)
             /\ getitem "auto_delete_time" l1 = getitem "auto_delete_time" l
             /\ getitem "auto_delete_ttl" l1 = getitem "auto_delete_ttl" l).
  { destruct (if_int (idle_delete_ttl self)) as [n |]; cbn [set_if].
    - destruct (setitem2_lookup "lifecycle_config" "idle_delete_ttl" (seconds_dict n)
                  d l Hget) as [d1 [E [Ha Hl]]].
      exists d1. eexists. split; [exact E |].
      split; [exact (sections_ok_lifecycle d d1 _ Hok Ha Hl) |].
      split; [exact Hl |].
      rewrite !getitem_setitem. split; reflexivity.
    - exists d, l. auto. }
  destruct Hidle as [d1 [l1 [E1 [Hok1 [Hget1 [Htime1 Httl1]]]]]].
  rewrite E1. cbn [bind_result].
  destruct (auto_delete_time self) as [time |].
  - destruct (setitem2_lookup "lifecycle_config" "auto_delete_time"
                (PyStr (utc_strftime time)) d1 l1 Hget1) as [d2 [E2 [Ha2 Hl2]]].
    rewrite E2. cbn [bind_result].
    exists d2. eexists. split; [reflexivity |].
    split; [exact (sections_ok_lifecycle d1 d2 _ Hok1 Ha2 Hl2) |].
    split; [exact Hl2 |].
    rewrite !getitem_setitem. split; [reflexivity | exact Httl1].
  - destruct (if_int (auto_delete_ttl self)) as [n |]; cbn [set_if].
    + destruct (setitem2_lookup "lifecycle_config" "auto_delete_ttl" (seconds_dict n)
                  d1 l1 Hget1) as [d2 [E2 [Ha2 Hl2]]].
      rewrite E2. cbn [bind_result].
      exists d2. eexists. split; [reflexivity |].
      split; [exact (sections_ok_lifecycle d1 d2 _ Hok1 Ha2 Hl2) |].
      split; [exact Hl2 |].
      rewrite !getitem_setitem. split; [exact Htime1 | reflexivity].
    + cbn [bind_result]. exists d1, l1.
      split; [reflexivity |]. split; [exact Hok1 |]. split; [exact Hget1 |].
      split; assumption.
Qed.

Lemma if_list_nonempty {A : Type} (o : option (list A)) (l : list A) :
  if_list o = Some l -> exists x xs, l = x :: xs.
Proof.
  destruct o as [[| x xs] |]; simpl; try discriminate.
  intros H. inversion H. eauto.
Qed.

Lemma map_result_total {A B : Type} (f : A -> result B) (xs : list A) :
  (forall x, exists y, f x = inr y) -> exists ys, map_result f xs = inr ys.
Proof.
  intros Hf. induction xs as [| x xs [ys IH]]; simpl; [eauto |].
  destruct (Hf x) as [y ->]. rewrite IH. simpl. eauto.
Qed.

(** The init actions raise what the timeout parser raises, and only when
    there is an init action. *)
Lemma initialization_actions_step (d : dict) :
  match if_list (init_actions_uris self), _get_init_action_timeout self with
  | Some _, inl e => initialization_actions self d = inl e
  | Some _, inr _ =>
      exists d', initialization_actions self d = inr d'
                 /\ agree_off "initialization_actions" d d'
  | None, _ => initialization_actions self d = inr d
  end.
Proof.
  unfold initialization_actions.
  destruct (if_list (init_actions_uris self)) as [uris |] eqn:Huris.
  - destruct (_get_init_action_timeout self) as [e | t] eqn:Htimeout.
    + destruct (if_list_nonempty _ _ Huris) as [x [xs ->]]. reflexivity.
    + match goal with
      | |- context [map_result ?f uris] =>
          destruct (map_result_total f uris) as [ys Hys];
          [intros uri; simpl; eauto | rewrite Hys]
      end.
      cbn [bind_result]. eexists. split; [reflexivity |].
      apply agree_off_setitem.
  - destruct (_get_init_action_timeout self); reflexivity.
Qed.

Lemma remaining_config_lifecycle (d : dict) :
  getitem "lifecycle_config" (remaining_config self d) = getitem "lifecycle_config" d.
Proof.
  unfold remaining_config.
  destruct (if_str (customer_managed_key self));
    destruct (if_str (autoscaling_policy self));
    destruct (if_bool (enable_component_gateway self));
    rewrite ?getitem_setitem; reflexivity.
Qed.

(** What [make] does: it raises for internal IPs without a subnetwork, or
    what the timeout parser raises when there are init actions, and
    otherwise returns a config whose lifecycle section is as
    [_build_lifecycle_config] fills it. *)
Lemma make_outcome :
  if internal_ip_without_subnetwork self then make utc_strftime self = inl internal_ip_error
  else
    match if_list (init_actions_uris self), _get_init_action_timeout self with
    | Some _, inl e => make utc_strftime self = inl e
    | _, _ =>
        exists cluster_data l,
          make utc_strftime self = inr cluster_data
          /\ getitem "lifecycle_config" cluster_data = Some (PyDict l)
          /\ match auto_delete_time self with
             | Some time =>
                 getitem "auto_delete_time" l = Some (PyStr (utc_strftime time))
                 /\ getitem "auto_delete_ttl" l = None
             | None =>
                 getitem "auto_delete_time" l = None
                 /\ getitem "auto_delete_ttl" l
                    = match if_int (auto_delete_ttl self) with
                      | Some n => Some (seconds_dict n)
                      | None => None
                      end
             end
    end.
Proof.
  unfold make, _build_cluster_data.
  destruct initial_cluster_data_sections as [Hok0 Hlc0].
  destruct (image_config_step (initial_cluster_data self) Hok0) as [d1 [E1 [Hok1 Hlc1]]].
  rewrite E1. cbn [bind_result].
  pose proof (build_gce_cluster_config_step d1 Hok1) as Hgce.
  destruct (internal_ip_without_subnetwork self).
  { rewrite Hgce. reflexivity. }
  destruct Hgce as [d2 [E2 [Hok2 Hlc2]]].
  rewrite E2. cbn [bind_result].
  destruct (software_config_step d2 Hok2) as [d3 [E3 [Hok3 Hlc3]]].
  rewrite E3. cbn [bind_result].
  assert (Hget3 : getitem "lifecycle_config" d3 = Some (PyDict [])).
  { rewrite Hlc3, Hlc2, Hlc1. exact Hlc0. }
  destruct (build_lifecycle_config_step d3 [] Hok3 Hget3)
    as [d4 [l [E4 [Hok4 [Hget4 Hfacts]]]]].
  rewrite E4. cbn [bind_result].
  assert (Hdone : forall d5,
             agree_off "initialization_actions" d4 d5 ->
             exists cluster_data l0,
               (inr (remaining_config self d5) : result dict) = inr cluster_data
               /\ getitem "lifecycle_config" cluster_data = Some (PyDict l0)
               /\ match auto_delete_time self with
                  | Some time =>
                      getitem "auto_delete_time" l0 = Some (PyStr (utc_strftime time))
                      /\ getitem "auto_delete_ttl" l0 = None
                  | None =>
                      getitem "auto_delete_time" l0 = None
                      /\ getitem "auto_delete_ttl" l0
                         = match if_int (auto_delete_ttl self) with
                           | Some n => Some (seconds_dict n)
                           | None => None
                           end
                  end).
  { intros d5 Ha. exists (remaining_config self d5), l.
    split; [reflexivity |].
    split; [rewrite remaining_config_lifecycle, (Ha "lifecycle_config" eq_refl);
            exact Hget4 |].
    destruct (auto_delete_time self); [exact Hfacts |].
    destruct (if_int (auto_delete_ttl self)); exact Hfacts. }
  pose proof (initialization_actions_step d4) as Hinit.
  destruct (if_list (init_actions_uris self)) as [uris |].
  - destruct (_get_init_action_timeout self) as [e | t].
    + rewrite Hinit. reflexivity.
    + destruct Hinit as [d5 [E5 Ha5]]. rewrite E5. cbn [bind_result].
      apply Hdone, Ha5.
  - rewrite Hinit. cbn [bind_result]. apply Hdone, agree_off_refl.
Qed.

End GeneratorBlocks.

(** ** The cluster config generator *)

Section GeneratorClaims.

Context {datetime : Type}.
Variable utc_strftime : datetime -> string.

Import ClusterGenerator.

Lemma init_outcome (kw : kwargs (datetime := datetime)) :
  __init__ kw =
  if is_set (custom_image kw) && is_set (image_version kw) then
    inl (ValueError "The custom_image and image_version can't be both set")
  else if is_set (custom_image_family kw) && is_set (image_version kw) then
    inl (ValueError "The image_version and custom_image_family can't be both set")
  else if is_set (custom_image_family kw) && is_set (custom_image kw) then
    inl (ValueError "The custom_image and custom_image_family can't be both set")
  else if single_node_with_preemptible kw then
    inl (ValueError "Single node cannot have preemptible workers.")
  else inr (attributes kw).
Proof.
  unfold __init__, single_node_with_preemptible, is_set. cbn.
  destruct (num_workers kw); reflexivity.
Qed.

Lemma init_returns_attributes (kw : kwargs (datetime := datetime)) (self : t) :
  __init__ kw = inr self -> self = attributes kw.
Proof.
  rewrite init_outcome.
  repeat match goal with
         | |- context [if ?b then _ else _] => destruct b
         end; congruence.
Qed.

(** C6.  The constructor raises [ValueError] for each of the three pairs
    of image sources that are both set, and for a single-node cluster with
    preemptible workers.  With at most one image source set it raises
    nothing about images: it returns the generator unless the single-node
    conflict, the other rejection of this claim, applies; and [make] then
    builds the config whenever its own two checks pass (internal IPs have
    their subnetwork, init actions have a timeout that parses).  An
    argument is set when it is neither [None] nor empty. *)
Theorem C6_config_conflicts (kw : kwargs (datetime := datetime)) :
  (is_set (custom_image kw) = true -> is_set (image_version kw) = true ->
   exists msg, __init__ kw = inl (ValueError msg))
  /\ (is_set (custom_image_family kw) = true -> is_set (image_version kw) = true ->
      exists msg, __init__ kw = inl (ValueError msg))
  /\ (is_set (custom_image kw) = true -> is_set (custom_image_family kw) = true ->
      exists msg, __init__ kw = inl (ValueError msg))
  /\ (single_node_with_preemptible kw = true ->
      exists msg, __init__ kw = inl (ValueError msg))
  /\ ((image_sources kw <= 1)%nat ->
      (forall e, __init__ kw = inl e ->
                 single_node_with_preemptible kw = true
                 /\ e = ValueError "Single node cannot have preemptible workers.")
      /\ (single_node_with_preemptible kw = false ->
          __init__ kw = inr (attributes kw)
          /\ (internal_ip_without_subnetwork kw = false ->
              (if_list (init_actions_uris kw) = None
               \/ exists seconds,
                    _get_init_action_timeout (attributes kw) = inr seconds) ->
              exists cluster_data, make utc_strftime (attributes kw) = inr cluster_data))).
Proof.
  rewrite init_outcome. unfold image_sources.
  destruct (is_set (custom_image kw)), (is_set (custom_image_family kw)),
    (is_set (image_version kw)), (single_node_with_preemptible kw);
    cbn [andb Nat.b2n Nat.add];
    repeat split; intros;
    try discriminate; try lia; eauto; try congruence.
  all: pose proof (make_outcome utc_strftime (attributes kw)) as Hmake;
    cbn [args attributes] in Hmake;
    match goal with
    | Hip : internal_ip_without_subnetwork _ = false |- _ => rewrite Hip in Hmake
    end;
    match goal with
    | Huris : _ \/ _ |- _ => destruct Huris as [Hnone | [secs Hsecs]]
    end;
    [ rewrite Hnone in Hmake; destruct Hmake as [cd [l [Hcd _]]]; eauto
    | rewrite Hsecs in Hmake;
      destruct (if_list (init_actions_uris kw)) as [uris |];
      destruct Hmake as [cd [l [Hcd _]]]; eauto ].
Qed.

(** C7.  In a built config the lifecycle section holds the formatted
    [auto_delete_time] and no [auto_delete_ttl] whenever the time is given,
    with or without a TTL; the TTL is there only when the time is absent,
    and then exactly when it is not zero. *)
Theorem C7_auto_delete_time_wins (self : t (datetime := datetime)) (cluster_data : dict) :
  make utc_strftime self = inr cluster_data ->
  (forall time,
      auto_delete_time self = Some time ->
      getitem2 "lifecycle_config" "auto_delete_time" cluster_data
      = Some (PyStr (utc_strftime time))
      /\ getitem2 "lifecycle_config" "auto_delete_ttl" cluster_data = None)
  /\ (getitem2 "lifecycle_config" "auto_delete_ttl" cluster_data <> None ->
      auto_delete_time self = None)
  /\ (auto_delete_time self = None ->
      getitem2 "lifecycle_config" "auto_delete_ttl" cluster_data
      = match if_int (auto_delete_ttl self) with
        | Some n => Some (seconds_dict n)
        | None => None
        end).
Proof.
  intros Hmake. pose proof (make_outcome utc_strftime self) as Hout.
  rewrite Hmake in Hout.
  assert (Hfacts : exists l,
             getitem "lifecycle_config" cluster_data = Some (PyDict l)
             /\ match auto_delete_time self with
                | Some time =>
                    getitem "auto_delete_time" l = Some (PyStr (utc_strftime time))
                    /\ getitem "auto_delete_ttl" l = None
                | None =>
                    getitem "auto_delete_time" l = None
                    /\ getitem "auto_delete_ttl" l
                       = match if_int (auto_delete_ttl self) with
                         | Some n => Some (seconds_dict n)
                         | None => None
                         end
                end).
  { destruct (internal_ip_without_subnetwork self); [discriminate |].
    destruct (if_list (init_actions_uris self)) as [uris |];
      [destruct (_get_init_action_timeout self); [discriminate |] |];
      destruct Hout as [cd [l [Hcd Hl]]]; inversion Hcd; subst cd; eauto. }
  destruct Hfacts as [l [Hget Hl]].
  unfold getitem2. rewrite Hget.
  destruct (auto_delete_time self) as [time |]; destruct Hl as [Htime Httl].
  - split; [| split].
    + intros time' Heq. inversion Heq; subst time'. split; assumption.
    + intros Hpresent. contradiction.
    + discriminate.
  - split; [| split].
    + discriminate.
    + reflexivity.
    + intros _. exact Httl.
Qed.

(** C10.  A malformed init-action timeout does not stop the constructor:
    arguments that are accepted are still accepted with the timeout
    replaced by a string that does not match.  [make] then raises the
    timeout error when there are init actions (and the earlier check of
    the internal IPs passes), and only then; without init actions the
    malformed string has no effect, and the config is built. *)
Theorem C10_init_action_timeout_deferred
    (kw : kwargs (datetime := datetime)) (accepted : t) (timeout : string) :
  re_match "sm" timeout = None ->
  __init__ kw = inr accepted ->
  exists self,
    __init__ (with_init_action_timeout timeout kw) = inr self
    /\ (make utc_strftime self = inl init_action_timeout_error ->
        if_list (init_actions_uris kw) <> None)
    /\ (if_list (init_actions_uris kw) <> None ->
        internal_ip_without_subnetwork kw = false ->
        make utc_strftime self = inl init_action_timeout_error)
    /\ (if_list (init_actions_uris kw) = None ->
        make utc_strftime self <> inl init_action_timeout_error
        /\ (internal_ip_without_subnetwork kw = false ->
            exists cluster_data, make utc_strftime self = inr cluster_data)).
Proof.
  intros Hbad Hinit.
  exists (attributes (with_init_action_timeout timeout kw)).
  split.
  { rewrite init_outcome in *. cbn [with_init_action_timeout custom_image image_version
      custom_image_family] in *.
    unfold single_node_with_preemptible in *.
    cbn [with_init_action_timeout num_workers num_preemptible_workers] in *.
    repeat match goal with
           | H : context [if ?b then _ else _] |- _ => destruct b
           end; try discriminate; reflexivity. }
  set (self := attributes (with_init_action_timeout timeout kw)).
  pose proof (make_outcome utc_strftime self) as Hout.
  assert (Herr : _get_init_action_timeout self = inl init_action_timeout_error)
    by (apply init_action_timeout_no_match; exact Hbad).
  rewrite Herr in Hout.
  change (internal_ip_without_subnetwork self)
    with (internal_ip_without_subnetwork kw) in Hout.
  change (if_list (init_actions_uris self)) with (if_list (init_actions_uris kw)) in Hout.
  destruct (internal_ip_without_subnetwork kw).
  - rewrite Hout. repeat split; discriminate.
  - destruct (if_list (init_actions_uris kw)) as [uris |].
    + rewrite Hout. repeat split; congruence.
    + destruct Hout as [cd [l [Hcd _]]]. rewrite Hcd.
      repeat split; try discriminate; try congruence; eauto.
Qed.

End GeneratorClaims.

Lemma C6_config_conflicts_witness :
  (exists msg, ClusterGenerator.__init__ image_and_version = inl (ValueError msg))
  /\ (exists msg, ClusterGenerator.__init__ family_and_version = inl (ValueError msg))
  /\ (exists msg, ClusterGenerator.__init__ image_and_family = inl (ValueError msg))
  /\ (exists msg, ClusterGenerator.__init__ single_node_preemptible = inl (ValueError msg))
  /\ ClusterGenerator.__init__ two_workers = inr (ClusterGenerator.attributes two_workers)
  /\ exists cluster_data,
       ClusterGenerator.make as_text (ClusterGenerator.attributes two_workers)
       = inr cluster_data.
Proof.
  split; [| split; [| split; [| split]]].
  - destruct (C6_config_conflicts as_text image_and_version) as [Hconflict _].
    apply Hconflict; reflexivity.
  - destruct (C6_config_conflicts as_text family_and_version) as [_ [Hconflict _]].
    apply Hconflict; reflexivity.
  - destruct (C6_config_conflicts as_text image_and_family) as [_ [_ [Hconflict _]]].
    apply Hconflict; reflexivity.
  - destruct (C6_config_conflicts as_text single_node_preemptible)
      as [_ [_ [_ [Hconflict _]]]].
    apply Hconflict; reflexivity.
  - destruct (C6_config_conflicts as_text two_workers) as [_ [_ [_ [_ Haccept]]]].
    assert (Hone : (image_sources two_workers <= 1)%nat) by (vm_compute; apply le_n).
    destruct (Haccept Hone) as [_ Hbuilt].
    destruct (Hbuilt eq_refl) as [Hinit Hmake].
    split; [exact Hinit |].
    apply Hmake; [reflexivity | left; reflexivity].
Defined.

Lemma C7_auto_delete_time_wins_witness :
  (exists cluster_data,
      ClusterGenerator.make as_text (ClusterGenerator.attributes time_and_ttl)
      = inr cluster_data
      /\ getitem2 "lifecycle_config" "auto_delete_time" cluster_data
         = Some (PyStr "2030-01-01T00:00:00.000000Z")
      /\ getitem2 "lifecycle_config" "auto_delete_ttl" cluster_data = None)
  /\ (exists cluster_data,
        ClusterGenerator.make as_text (ClusterGenerator.attributes ttl_only)
        = inr cluster_data
        /\ getitem2 "lifecycle_config" "auto_delete_ttl" cluster_data
           = Some (PyDict [("seconds", PyInt 3600)])
        /\ ClusterGenerator.auto_delete_time
             (ClusterGenerator.args (ClusterGenerator.attributes ttl_only)) = None).
Proof.
  split.
  - eexists. split; [vm_compute; reflexivity |].
    apply (proj1 (C7_auto_delete_time_wins as_text
                    (ClusterGenerator.attributes time_and_ttl) _ eq_refl)
             "2030-01-01T00:00:00.000000Z" eq_refl).
  - eexists. split; [vm_compute; reflexivity |].
    split.
    + apply (proj2 (proj2 (C7_auto_delete_time_wins as_text
                             (ClusterGenerator.attributes ttl_only) _ eq_refl))
               eq_refl).
    + apply (proj1 (proj2 (C7_auto_delete_time_wins as_text
                             (ClusterGenerator.attributes ttl_only) _ eq_refl))).
      discriminate.
Defined.

Lemma C10_init_action_timeout_deferred_witness :
  (exists self,
      ClusterGenerator.__init__ (with_init_action_timeout "ten minutes" with_init_action)
      = inr self
      /\ ClusterGenerator.make as_text self
         = inl ClusterGenerator.init_action_timeout_error
      /\ if_list (ClusterGenerator.init_actions_uris with_init_action) <> None)
  /\ (exists self cluster_data,
        ClusterGenerator.__init__ (with_init_action_timeout "ten minutes" two_workers)
        = inr self
        /\ ClusterGenerator.make as_text self = inr cluster_data
        /\ ClusterGenerator.make as_text self
           <> inl ClusterGenerator.init_action_timeout_error).
Proof.
  split.
  - destruct (C10_init_action_timeout_deferred as_text with_init_action
                (ClusterGenerator.attributes with_init_action) "ten minutes"
                eq_refl eq_refl) as [self [Hinit [Honly [Hraise _]]]].
    assert (Hmake : ClusterGenerator.make as_text self
                    = inl ClusterGenerator.init_action_timeout_error)
      by (apply Hraise; [discriminate | reflexivity]).
    exists self. split; [exact Hinit |]. split; [exact Hmake | exact (Honly Hmake)].
  - destruct (C10_init_action_timeout_deferred as_text two_workers
                (ClusterGenerator.attributes two_workers) "ten minutes"
                eq_refl eq_refl) as [self [Hinit [_ [_ Hnone]]]].
    destruct (Hnone eq_refl) as [Hquiet Hbuild].
    destruct (Hbuild eq_refl) as [cluster_data Hmake].
    exists self, cluster_data. split; [exact Hinit |]. split; [exact Hmake | exact Hquiet].
Defined.

(** ** The backoff intervals *)

Local Open Scope list_scope.

Lemma backoff_first : backoff 0 = 10.
Proof. reflexivity. Qed.

Lemma backoff_bounds (k : nat) : 10 <= backoff k <= 120.
Proof.
  unfold backoff, exponential_sleep_generator.
  assert (1 <= 2 ^ Z.of_nat k) by (apply (Z.pow_le_mono_r 2 0); lia).
  lia.
Qed.

Lemma backoff_monotone (k : nat) : backoff k <= backoff (S k).
Proof.
  unfold backoff, exponential_sleep_generator.
  rewrite Nat2Z.inj_succ, Z.pow_succ_r by lia.
  assert (1 <= 2 ^ Z.of_nat k) by (apply (Z.pow_le_mono_r 2 0); lia).
  lia.
Qed.

Lemma slept_nonneg (m : nat) : 0 <= slept m.
Proof.
  induction m as [| m IH]; simpl; [lia |].
  pose proof (backoff_bounds m). lia.
Qed.

Lemma slept_monotone (i m : nat) : (i <= m)%nat -> slept i <= slept m.
Proof.
  induction 1 as [| m Hle IH]; [lia |].
  simpl. pose proof (backoff_bounds m). lia.
Qed.

(** ** The polling loops *)

Section PollingLoops.

Variable self : DataprocCreateClusterOperator.t.
Variable hook : DataprocHook.

Import DataprocCreateClusterOperator.

Lemma polls_succ (tr : trace) (k : nat) :
  ((fetch_point tr k ++ [GetCluster])%list = polls tr (S k)).
Proof.
  unfold fetch_point. simpl. rewrite <- app_assoc. reflexivity.
Qed.

Lemma fetched_until_succ (tr : trace) (k : nat) (c : Cluster) :
  fetched_until hook tr k ->
  get_cluster hook (fetch_point tr k) = inr c ->
  fetched_until hook tr (S k).
Proof.
  intros Hbefore Hget i Hi.
  destruct (Nat.eq_dec i k) as [-> | Hne]; [eauto |].
  apply Hbefore. lia.
Qed.

(** The deleting loop from round [k] on, with enough fuel for the time that
    is left. *)
Lemma deleting_loop_rounds (tr : trace) (f k : nat) :
  timeout self - slept k < 10 * Z.of_nat f ->
  fetched_until hook tr k ->
  (forall i, (i < k)%nat -> slept i <= timeout self) ->
  exists m r,
    deleting_loop self hook (S f) k (timeout self - slept k) (polls tr k)
    = Some (polls tr m, r)
    /\ (forall i, (i < m)%nat -> slept i <= timeout self)
    /\ deleting_outcome self hook tr m r.
Proof.
  revert k. induction f as [| f IH]; intros k Hfuel Hfetched Hslept.
  - exists k, (inl (still_deleting self)).
    cbn [deleting_loop].
    destruct (Z.ltb_spec (timeout self - slept k) 0) as [Hup | Hleft]; [| lia].
    split; [reflexivity |]. split; [exact Hslept |].
    right. right. split; [exact Hfetched |]. split; [lia | reflexivity].
  - cbn [deleting_loop].
    destruct (Z.ltb_spec (timeout self - slept k) 0) as [Hup | Hleft].
    + exists k, (inl (still_deleting self)).
      split; [reflexivity |]. split; [exact Hslept |].
      right. right. split; [exact Hfetched |]. split; [lia | reflexivity].
    + unfold bind, emit, catch, _get_cluster, call, ret, raise.
      change (exponential_sleep_generator 10 120 k) with (backoff k).
      change (polls tr k ++ [Sleep (backoff k)])%list with (fetch_point tr k).
      rewrite polls_succ.
      assert (Hslept' : forall i, (i < S k)%nat -> slept i <= timeout self).
      { intros i Hi. destruct (Nat.eq_dec i k) as [-> | Hne]; [lia |].
        apply Hslept. lia. }
      destruct (get_cluster hook (fetch_point tr k)) as [e | c] eqn:Hget.
      * exists (S k).
        destruct e;
          try (eexists; split; [reflexivity |]; split; [exact Hslept' |];
               right; left; eexists; eexists;
               split; [reflexivity |]; split; [exact Hfetched |];
               split; [exact Hget |]; split; [discriminate | reflexivity]).
        exists (inr tt). split; [reflexivity |]. split; [exact Hslept' |].
        left. exists k. auto.
      * replace (timeout self - slept k - backoff k)
          with (timeout self - slept (S k)) by (cbn [slept]; lia).
        apply IH.
        -- cbn [slept]. pose proof (backoff_bounds k). lia.
        -- apply (fetched_until_succ tr k c Hfetched Hget).
        -- exact Hslept'.
Qed.

(** The creating loop from round [k] on. *)
Lemma creating_loop_rounds (tr : trace) (c0 : Cluster) (f k : nat) (c : Cluster) :
  timeout self - slept k < 10 * Z.of_nat f ->
  match k with
  | O => c = c0
  | S k' => get_cluster hook (fetch_point tr k') = inr c
  end ->
  (forall i, (i < k)%nat -> slept i <= timeout self) ->
  exists m r,
    creating_loop self hook (S f) k (timeout self - slept k) c (polls tr k)
    = Some (polls tr m, r)
    /\ (forall i, (i < m)%nat -> slept i <= timeout self)
    /\ creating_outcome self hook tr c0 m r.
Proof.
  revert k c. induction f as [| f IH]; intros k c Hfuel Hlast Hslept.
  - cbn [creating_loop].
    destruct (ClusterStatus.eqb (state c) ClusterStatus.CREATING) eqn:Hstate; cbn [negb].
    + destruct (Z.ltb_spec (timeout self - slept k) 0) as [Hup | Hleft]; [| lia].
      exists k, (inl (still_creating self)).
      split; [reflexivity |]. split; [exact Hslept |].
      right. right. split; [lia | reflexivity].
    + exists k, (inr c). split; [reflexivity |]. split; [exact Hslept |].
      left. exists c. split; [reflexivity |]. split; [| exact Hlast].
      intros Heq. rewrite Heq in Hstate. discriminate.
  - cbn [creating_loop].
    destruct (ClusterStatus.eqb (state c) ClusterStatus.CREATING) eqn:Hstate; cbn [negb].
    + destruct (Z.ltb_spec (timeout self - slept k) 0) as [Hup | Hleft].
      * exists k, (inl (still_creating self)).
        split; [reflexivity |]. split; [exact Hslept |].
        right. right. split; [lia | reflexivity].
      * unfold bind, emit, _get_cluster, call.
        change (exponential_sleep_generator 10 120 k) with (backoff k).
        change (polls tr k ++ [Sleep (backoff k)])%list with (fetch_point tr k).
        rewrite polls_succ.
        assert (Hslept' : forall i, (i < S k)%nat -> slept i <= timeout self).
        { intros i Hi. destruct (Nat.eq_dec i k) as [-> | Hne]; [lia |].
          apply Hslept. lia. }
        destruct (get_cluster hook (fetch_point tr k)) as [e | c'] eqn:Hget.
        -- exists (S k), (inl e). split; [reflexivity |]. split; [exact Hslept' |].
           right. left. exists k, e. auto.
        -- replace (timeout self - slept k - backoff k)
             with (timeout self - slept (S k)) by (cbn [slept]; lia).
           apply IH.
           ++ cbn [slept]. pose proof (backoff_bounds k). lia.
           ++ exact Hget.
           ++ exact Hslept'.
    + exists k, (inr c). split; [reflexivity |]. split; [exact Hslept |].
      left. exists c. split; [reflexivity |]. split; [| exact Hlast].
      intros Heq. rewrite Heq in Hstate. discriminate.
Qed.

Lemma poll_fuel_enough (fuel : nat) :
  (poll_fuel (timeout self) <= fuel)%nat ->
  exists f, fuel = S f /\ timeout self - slept 0 < 10 * Z.of_nat f.
Proof.
  unfold poll_fuel. intros Hfuel.
  destruct fuel as [| f]; [lia |]. exists f. split; [reflexivity |].
  cbn [slept].
  destruct (Z_lt_le_dec (timeout self) 0) as [Hneg | Hpos]; [lia |].
  assert (Hdiv : timeout self < 10 * (timeout self / 10 + 1)).
  { pose proof (Z.mul_succ_div_gt (timeout self) 10). lia. }
  assert (Z.of_nat (Z.to_nat (timeout self / 10)) = timeout self / 10).
  { apply Z2Nat.id. apply Z.div_pos; lia. }
  lia.
Qed.

End PollingLoops.

Section PollingClaims.

Variable self : DataprocCreateClusterOperator.t.
Variable hook : DataprocHook.

Import DataprocCreateClusterOperator.

Lemma wait_deleting_rounds (tr : trace) (fuel : nat) :
  (poll_fuel (timeout self) <= fuel)%nat ->
  exists m r,
    _wait_for_cluster_in_deleting_state self hook fuel tr = Some (polls tr m, r)
    /\ (forall i, (i < m)%nat -> slept i <= timeout self)
    /\ deleting_outcome self hook tr m r.
Proof.
  intros Hfuel. destruct (poll_fuel_enough self fuel Hfuel) as [f [-> Hf]].
  unfold _wait_for_cluster_in_deleting_state.
  assert (Hnone : forall i, ~ (i < 0)%nat) by (intros i; lia).
  pose proof (deleting_loop_rounds self hook tr f 0 Hf
                (fun i Hi => False_ind _ (Hnone i Hi))
                (fun i Hi => False_ind _ (Hnone i Hi))) as Hrounds.
  cbn [slept polls] in Hrounds. rewrite Z.sub_0_r in Hrounds. exact Hrounds.
Qed.

Lemma wait_creating_rounds (tr : trace) (fuel : nat) :
  (poll_fuel (timeout self) <= fuel)%nat ->
  match get_cluster hook tr with
  | inl e =>
      _wait_for_cluster_in_creating_state self hook fuel tr
      = Some ((tr ++ [GetCluster])%list, inl e)
  | inr c0 =>
      exists m r,
        _wait_for_cluster_in_creating_state self hook fuel tr
        = Some (polls (tr ++ [GetCluster])%list m, r)
        /\ (forall i, (i < m)%nat -> slept i <= timeout self)
        /\ creating_outcome self hook (tr ++ [GetCluster])%list c0 m r
  end.
Proof.
  intros Hfuel. destruct (poll_fuel_enough self fuel Hfuel) as [f [-> Hf]].
  unfold _wait_for_cluster_in_creating_state, bind, _get_cluster, call.
  destruct (get_cluster hook tr) as [e | c0]; [reflexivity |].
  assert (Hnone : forall i, ~ (i < 0)%nat) by (intros i; lia).
  pose proof (creating_loop_rounds self hook (tr ++ [GetCluster])%list c0 f 0 c0 Hf eq_refl
                (fun i Hi => False_ind _ (Hnone i Hi))) as Hrounds.
  cbn [slept polls] in Hrounds. rewrite Z.sub_0_r in Hrounds. exact Hrounds.
Qed.

Lemma last_sleep_bound (m : nat) :
  (forall i, (i < m)%nat -> slept i <= timeout self) ->
  (0 < m)%nat -> slept m <= timeout self + 120.
Proof.
  intros Hslept Hm. destruct m as [| m']; [lia |].
  cbn [slept]. pose proof (Hslept m' ltac:(lia)). pose proof (backoff_bounds m'). lia.
Qed.

End PollingClaims.

Lemma polls_app (tr : trace) (m : nat) : polls tr m = (tr ++ polls [] m)%list.
Proof.
  induction m as [| m IH]; simpl; [rewrite app_nil_r; reflexivity |].
  rewrite IH, <- app_assoc. reflexivity.
Qed.

Lemma sleep_total_app (tr1 tr2 : trace) :
  sleep_total (tr1 ++ tr2) = sleep_total tr1 + sleep_total tr2.
Proof.
  induction tr1 as [| ev tr1 IH]; simpl; [reflexivity |].
  destruct ev; rewrite IH; lia.
Qed.

(** The time slept in [m] rounds is the sum of the first [m] intervals. *)
Lemma sleep_total_polls (tr : trace) (m : nat) :
  sleep_total (polls tr m) = sleep_total tr + slept m.
Proof.
  induction m as [| m IH]; simpl; [lia |].
  rewrite sleep_total_app, IH. simpl. lia.
Qed.

(** C2, as stated, fails: with a total timeout of 5 seconds and a cluster
    that stays in place, the wait-until-absent loop sleeps 10 seconds before
    it raises the timeout error. *)
Lemma C2_sleep_exceeds_timeout :
  let self := example_operator true true 5 in
  let hook := existing_cluster_hook ClusterStatus.DELETING 100 ClusterStatus.RUNNING in
  DataprocCreateClusterOperator._wait_for_cluster_in_deleting_state self hook 3 []
  = Some ([Sleep 10; GetCluster],
          inl (DataprocCreateClusterOperator.still_deleting self))
  /\ DataprocCreateClusterOperator.timeout self = 5
  /\ sleep_total [Sleep 10; GetCluster] = 10
  /\ ~ (sleep_total [Sleep 10; GetCluster] <= DataprocCreateClusterOperator.timeout self).
Proof.
  split; [reflexivity |]. split; [reflexivity |]. split; [reflexivity |].
  vm_compute. intros Hle. apply Hle. reflexivity.
Qed.

(** With the default timeout of one hour the same loop sleeps 3630
    seconds. *)
Example hour_timeout_sleeps_3630 :
  let self := example_operator true true 3600 in
  let hook := existing_cluster_hook ClusterStatus.DELETING 100 ClusterStatus.RUNNING in
  exists tr,
    DataprocCreateClusterOperator._wait_for_cluster_in_deleting_state self hook
      (DataprocCreateClusterOperator.poll_fuel 3600) []
    = Some (tr, inl (DataprocCreateClusterOperator.still_deleting self))
    /\ sleep_total tr = 3630.
Proof.
  eexists. split; vm_compute; reflexivity.
Qed.

(** C2 (amended).  The intervals start at 10 seconds, never decrease and
    never exceed 120 seconds.  With fuel for the timeout, each loop ends
    after some [m] rounds of sleeping for the next interval and fetching.
    Every sleep starts while the time slept so far is within the timeout,
    so the time slept in all exceeds the timeout by 120 seconds at most;
    the timeout error is raised only when the time slept is greater than
    the timeout.  Only the intervals count: what the fetches return, or
    how long they take, does not enter the time that is left. *)
Theorem C2_polling_loops (self : DataprocCreateClusterOperator.t) (hook : DataprocHook)
    (tr : trace) (fuel : nat) :
  (DataprocCreateClusterOperator.poll_fuel (DataprocCreateClusterOperator.timeout self)
   <= fuel)%nat ->
  (backoff 0 = 10 /\ forall k, backoff k <= backoff (S k) <= 120)
  /\ (exists m r,
        DataprocCreateClusterOperator._wait_for_cluster_in_deleting_state self hook fuel tr
        = Some (polls tr m, r)
        /\ sleep_total (polls tr m) = sleep_total tr + slept m
        /\ (forall i, (i < m)%nat -> slept i <= DataprocCreateClusterOperator.timeout self)
        /\ ((0 < m)%nat -> slept m <= DataprocCreateClusterOperator.timeout self + 120)
        /\ deleting_outcome self hook tr m r)
  /\ match get_cluster hook tr with
     | inl e =>
         DataprocCreateClusterOperator._wait_for_cluster_in_creating_state self hook fuel tr
         = Some ((tr ++ [GetCluster])%list, inl e)
     | inr c0 =>
         exists m r,
           DataprocCreateClusterOperator._wait_for_cluster_in_creating_state self hook
             fuel tr
           = Some (polls (tr ++ [GetCluster])%list m, r)
           /\ sleep_total (polls (tr ++ [GetCluster])%list m) = sleep_total tr + slept m
           /\ (forall i, (i < m)%nat ->
                         slept i <= DataprocCreateClusterOperator.timeout self)
           /\ ((0 < m)%nat -> slept m <= DataprocCreateClusterOperator.timeout self + 120)
           /\ creating_outcome self hook (tr ++ [GetCluster])%list c0 m r
     end.
Proof.
  intros Hfuel. split; [| split].
  - split; [exact backoff_first |].
    intros k. pose proof (backoff_bounds (S k)). pose proof (backoff_monotone k). lia.
  - destruct (wait_deleting_rounds self hook tr fuel Hfuel) as [m [r [Hrun [Hslept Hout]]]].
    exists m, r. split; [exact Hrun |]. split; [apply sleep_total_polls |].
    split; [exact Hslept |]. split; [apply last_sleep_bound, Hslept | exact Hout].
  - pose proof (wait_creating_rounds self hook tr fuel Hfuel) as Hrun.
    destruct (get_cluster hook tr) as [e | c0]; [exact Hrun |].
    destruct Hrun as [m [r [Hrun [Hslept Hout]]]].
    exists m, r. split; [exact Hrun |].
    split; [rewrite sleep_total_polls, sleep_total_app; simpl; lia |].
    split; [exact Hslept |]. split; [apply last_sleep_bound, Hslept | exact Hout].
Qed.

Lemma C2_polling_loops_witness :
  let self := example_operator true true 5 in
  (let hook := existing_cluster_hook ClusterStatus.DELETING 100 ClusterStatus.RUNNING in
   exists m r,
     DataprocCreateClusterOperator._wait_for_cluster_in_deleting_state self hook 3 []
     = Some (polls [] m, r)
     /\ ((0 < m)%nat -> slept m <= 5 + 120))
  /\ (let hook := existing_cluster_hook ClusterStatus.CREATING 100 ClusterStatus.RUNNING in
      exists m r,
        DataprocCreateClusterOperator._wait_for_cluster_in_creating_state self hook 3 []
        = Some (polls [GetCluster] m, r)
        /\ ((0 < m)%nat -> slept m <= 5 + 120)).
Proof.
  intros self.
  assert (Hfuel : (DataprocCreateClusterOperator.poll_fuel
                     (DataprocCreateClusterOperator.timeout self) <= 3)%nat)
    by (vm_compute; repeat constructor).
  split; intros hook.
  - destruct (C2_polling_loops self hook [] 3 Hfuel)
      as [_ [[m [r [Hrun [_ [_ [Hbound _]]]]]] _]].
    exists m, r. split; [exact Hrun | exact Hbound].
  - destruct (C2_polling_loops self hook [] 3 Hfuel) as [_ [_ Hcreating]].
    hnf in Hcreating.
    destruct Hcreating as [m [r [Hrun [_ [_ [Hbound _]]]]]].
    exists m, r. split; [exact Hrun | exact Hbound].
Defined.

(** ** The create-or-adopt operator *)

Section CreateOrAdopt.

Variable self : DataprocCreateClusterOperator.t.
Variable hook : DataprocHook.

Import DataprocCreateClusterOperator.

Lemma execute_steps (fuel : nat) :
  execute self hook fuel [] =
  match create_or_adopt self hook (pushed self) with
  | None => None
  | Some (tr, inl e) => Some (tr, inl e)
  | Some (tr, inr cluster) => inspect self hook fuel cluster tr
  end.
Proof. reflexivity. Qed.

(** The first step: create, and fetch when the cluster exists already and
    may be used. *)
Lemma create_or_adopt_steps (tr : trace) :
  create_or_adopt self hook tr =
  match create_cluster hook tr with
  | inr cluster => Some (tr ++ [CreateCluster], inr cluster)
  | inl AlreadyExists =>
      if use_if_exists self
      then Some (tr ++ [CreateCluster; GetCluster],
                 get_cluster hook (tr ++ [CreateCluster]))
      else Some (tr ++ [CreateCluster], inl AlreadyExists)
  | inl e => Some (tr ++ [CreateCluster], inl e)
  end.
Proof.
  unfold create_or_adopt, _create_cluster, _get_cluster. unfold catch, call, raise.
  destruct (create_cluster hook tr) as [[] | cluster]; try reflexivity.
  destruct (use_if_exists self); cbn [negb]; [| reflexivity].
  rewrite <- app_assoc. reflexivity.
Qed.

Lemma handle_error_state_other (cluster : Cluster) (tr : trace) :
  state cluster <> ClusterStatus.ERROR ->
  _handle_error_state self hook cluster tr = Some (tr, inr tt).
Proof.
  intros Hstate. unfold _handle_error_state.
  destruct (state cluster); try reflexivity. congruence.
Qed.

(** The ERROR state: the diagnosis, then the delete when it is asked for,
    then the error. *)
Lemma handle_error_state_error (cluster : Cluster) (tr : trace) :
  state cluster = ClusterStatus.ERROR ->
  _handle_error_state self hook cluster tr =
  match diagnose_cluster hook tr with
  | inl e => Some (tr ++ [DiagnoseCluster], inl e)
  | inr _ =>
      if delete_on_error self then
        Some (tr ++ [DiagnoseCluster; DeleteCluster],
              match delete_cluster hook (tr ++ [DiagnoseCluster]) with
              | inl e => inl e
              | inr _ => inl error_state_deleted
              end)
      else Some (tr ++ [DiagnoseCluster], inl error_state_kept)
  end.
Proof.
  intros Hstate. unfold _handle_error_state. rewrite Hstate. cbn [ClusterStatus.eqb negb].
  unfold _delete_cluster. unfold bind, call, raise.
  destruct (diagnose_cluster hook tr) as [e | uri]; [reflexivity |].
  destruct (delete_on_error self); [| reflexivity].
  rewrite <- app_assoc. cbn [app].
  destruct (delete_cluster hook (tr ++ [DiagnoseCluster])); reflexivity.
Qed.

Lemma inspect_error (fuel : nat) (cluster : Cluster) (tr : trace) :
  state cluster = ClusterStatus.ERROR ->
  inspect self hook fuel cluster tr =
  match _handle_error_state self hook cluster tr with
  | Some (tr', inl e) => Some (tr', inl e)
  | _ => None
  end.
Proof.
  intros Hstate. unfold inspect, bind.
  rewrite (handle_error_state_error cluster tr Hstate).
  destruct (diagnose_cluster hook tr); [reflexivity |].
  destruct (delete_on_error self); [| reflexivity].
  destruct (delete_cluster hook (tr ++ [DiagnoseCluster])); reflexivity.
Qed.

Lemma inspect_settled (fuel : nat) (cluster : Cluster) (tr : trace) :
  settled (state cluster) = true ->
  inspect self hook fuel cluster tr = Some (tr, inr cluster).
Proof.
  intros Hstate. unfold inspect, bind.
  rewrite handle_error_state_other
    by (intros Heq; rewrite Heq in Hstate; discriminate).
  destruct (state cluster); try discriminate; reflexivity.
Qed.

Lemma inspect_creating (fuel : nat) (cluster : Cluster) (tr : trace) :
  state cluster = ClusterStatus.CREATING ->
  inspect self hook fuel cluster tr =
  match _wait_for_cluster_in_creating_state self hook fuel tr with
  | None => None
  | Some (tr', inl e) => Some (tr', inl e)
  | Some (tr', inr cluster') =>
      match _handle_error_state self hook cluster' tr' with
      | None => None
      | Some (tr'', inl e) => Some (tr'', inl e)
      | Some (tr'', inr _) => Some (tr'', inr cluster')
      end
  end.
Proof.
  intros Hstate. unfold inspect, bind.
  rewrite handle_error_state_other by (rewrite Hstate; discriminate).
  rewrite Hstate. cbn [ClusterStatus.eqb].
  destruct (_wait_for_cluster_in_creating_state self hook fuel tr)
    as [[tr' [e | cluster']] |]; reflexivity.
Qed.

Lemma inspect_deleting (fuel : nat) (cluster : Cluster) (tr : trace) :
  state cluster = ClusterStatus.DELETING ->
  inspect self hook fuel cluster tr =
  match _wait_for_cluster_in_deleting_state self hook fuel tr with
  | None => None
  | Some (tr1, inl e) => Some (tr1, inl e)
  | Some (tr1, inr _) =>
      match _create_cluster hook tr1 with
      | None => None
      | Some (tr2, inl e) => Some (tr2, inl e)
      | Some (tr2, inr cluster') =>
          match _handle_error_state self hook cluster' tr2 with
          | None => None
          | Some (tr3, inl e) => Some (tr3, inl e)
          | Some (tr3, inr _) => Some (tr3, inr cluster')
          end
      end
  end.
Proof.
  intros Hstate. unfold inspect, bind.
  rewrite handle_error_state_other by (rewrite Hstate; discriminate).
  rewrite Hstate. cbn [ClusterStatus.eqb].
  destruct (_wait_for_cluster_in_deleting_state self hook fuel tr)
    as [[tr1 [e | []]] |]; reflexivity.
Qed.

End CreateOrAdopt.

(** ** Which events a run emits *)

Lemma emits_only_ret (p : event -> bool) {A : Type} (x : A) : emits_only p (ret x).
Proof.
  intros tr. exists [], (inr x). rewrite app_nil_r. split; reflexivity.
Qed.

Lemma emits_only_raise (p : event -> bool) {A : Type} (e : exn) :
  emits_only p (raise e : M A).
Proof.
  intros tr. exists [], (inl e). rewrite app_nil_r. split; reflexivity.
Qed.

Lemma emits_only_call (p : event -> bool) {A : Type} (ev : event)
    (answer : trace -> result A) :
  p ev = true -> emits_only p (call ev answer).
Proof.
  intros Hev tr. exists [ev], (answer tr). split; [reflexivity |].
  simpl. rewrite Hev. reflexivity.
Qed.

Lemma emits_only_emit (p : event -> bool) (ev : event) :
  p ev = true -> emits_only p (emit ev).
Proof.
  intros Hev tr. exists [ev], (inr tt). split; [reflexivity |].
  simpl. rewrite Hev. reflexivity.
Qed.

Lemma emits_only_bind (p : event -> bool) {A B : Type} (m : M A) (k : A -> M B) :
  emits_only p m -> (forall x, emits_only p (k x)) -> emits_only p (bind m k).
Proof.
  intros Hm Hk tr. destruct (Hm tr) as [ext [r [Hrun Hext]]].
  unfold bind. rewrite Hrun. destruct r as [e | x].
  - exists ext, (inl e). auto.
  - destruct (Hk x (tr ++ ext)) as [ext' [r' [Hrun' Hext']]].
    exists (ext ++ ext'), r'. rewrite Hrun', app_assoc. split; [reflexivity |].
    rewrite forallb_app, Hext, Hext'. reflexivity.
Qed.

Lemma emits_only_catch (p : event -> bool) {A : Type} (m : M A) (handler : exn -> M A) :
  emits_only p m -> (forall e, emits_only p (handler e)) -> emits_only p (catch m handler).
Proof.
  intros Hm Hh tr. destruct (Hm tr) as [ext [r [Hrun Hext]]].
  unfold catch. rewrite Hrun. destruct r as [e | x].
  - destruct (Hh e (tr ++ ext)) as [ext' [r' [Hrun' Hext']]].
    exists (ext ++ ext'), r'. rewrite Hrun', app_assoc. split; [reflexivity |].
    rewrite forallb_app, Hext, Hext'. reflexivity.
  - exists ext, (inr x). auto.
Qed.

Lemma emits_only_weaken (p q : event -> bool) {A : Type} (m : M A) :
  (forall ev, p ev = true -> q ev = true) -> emits_only p m -> emits_only q m.
Proof.
  intros Hpq Hm tr. destruct (Hm tr) as [ext [r [Hrun Hext]]].
  exists ext, r. split; [exact Hrun |].
  rewrite forallb_forall in *. auto.
Qed.

Lemma is_poll_remote (ev : event) : is_poll ev = true -> is_remote ev = true.
Proof. destruct ev; simpl; intros H; try reflexivity; discriminate H. Qed.

Lemma polls_only (m : nat) : forallb is_poll (polls [] m) = true.
Proof.
  induction m as [| m IH]; simpl; [reflexivity |].
  rewrite forallb_app, IH. reflexivity.
Qed.

Lemma no_delete_in_polls (ext : trace) :
  forallb is_poll ext = true -> delete_calls ext = 0%nat.
Proof.
  unfold delete_calls. induction ext as [| ev ext IH]; simpl; [reflexivity |].
  intros Hext. apply andb_true_iff in Hext as [Hev Hext].
  destruct ev; simpl in *; try discriminate; auto.
Qed.

Lemma no_xcom_in_remote (ext : trace) :
  forallb is_remote ext = true -> xcom_pushes ext = 0%nat.
Proof.
  unfold xcom_pushes. induction ext as [| ev ext IH]; simpl; [reflexivity |].
  intros Hext. apply andb_true_iff in Hext as [Hev Hext].
  destruct ev; simpl in *; try discriminate; auto.
Qed.

Lemma delete_calls_app (tr1 tr2 : trace) :
  delete_calls (tr1 ++ tr2) = (delete_calls tr1 + delete_calls tr2)%nat.
Proof.
  unfold delete_calls. rewrite filter_app, length_app. reflexivity.
Qed.

Section EmittedEvents.

Variable self : DataprocCreateClusterOperator.t.
Variable hook : DataprocHook.

Import DataprocCreateClusterOperator.

Lemma create_cluster_polls : emits_only is_poll (_create_cluster hook).
Proof. apply emits_only_call. reflexivity. Qed.

Lemma get_cluster_polls : emits_only is_poll (_get_cluster hook).
Proof. apply emits_only_call. reflexivity. Qed.

Lemma create_or_adopt_polls : emits_only is_poll (create_or_adopt self hook).
Proof.
  apply emits_only_catch; [apply create_cluster_polls |].
  intros e. destruct e; try apply emits_only_raise.
  destruct (negb (use_if_exists self));
    [apply emits_only_raise | apply get_cluster_polls].
Qed.

Lemma wait_deleting_polls (fuel : nat) :
  (poll_fuel (timeout self) <= fuel)%nat ->
  emits_only is_poll (_wait_for_cluster_in_deleting_state self hook fuel).
Proof.
  intros Hfuel tr.
  destruct (wait_deleting_rounds self hook tr fuel Hfuel) as [m [r [Hrun _]]].
  exists (polls [] m), r. rewrite <- polls_app. split; [exact Hrun | apply polls_only].
Qed.

Lemma wait_creating_polls (fuel : nat) :
  (poll_fuel (timeout self) <= fuel)%nat ->
  emits_only is_poll (_wait_for_cluster_in_creating_state self hook fuel).
Proof.
  intros Hfuel tr. pose proof (wait_creating_rounds self hook tr fuel Hfuel) as Hrun.
  destruct (get_cluster hook tr) as [e | c0].
  - exists [GetCluster], (inl e). split; [exact Hrun | reflexivity].
  - destruct Hrun as [m [r [Hrun _]]].
    exists ([GetCluster] ++ polls [] m), r.
    rewrite app_assoc, <- polls_app. split; [exact Hrun |].
    rewrite forallb_app, polls_only. reflexivity.
Qed.

Lemma handle_error_state_remote (cluster : Cluster) :
  emits_only is_remote (_handle_error_state self hook cluster).
Proof.
  unfold _handle_error_state.
  destruct (negb (ClusterStatus.eqb (state cluster) ClusterStatus.ERROR));
    [apply emits_only_ret |].
  apply emits_only_bind; [apply emits_only_call; reflexivity |].
  intros uri. destruct (delete_on_error self); [| apply emits_only_raise].
  apply emits_only_bind; [apply emits_only_call; reflexivity |].
  intros _. apply emits_only_raise.
Qed.

Lemma inspect_remote (fuel : nat) (cluster : Cluster) :
  (poll_fuel (timeout self) <= fuel)%nat ->
  emits_only is_remote (inspect self hook fuel cluster).
Proof.
  intros Hfuel. unfold inspect.
  apply emits_only_bind; [apply handle_error_state_remote |].
  intros _.
  destruct (ClusterStatus.eqb (state cluster) ClusterStatus.CREATING).
  - apply emits_only_bind;
      [apply (emits_only_weaken is_poll), wait_creating_polls;
       [exact is_poll_remote | exact Hfuel] |].
    intros cluster'.
    apply emits_only_bind; [apply handle_error_state_remote |].
    intros _. apply emits_only_ret.
  - destruct (ClusterStatus.eqb (state cluster) ClusterStatus.DELETING);
      [| apply emits_only_ret].
    apply emits_only_bind;
      [apply (emits_only_weaken is_poll), wait_deleting_polls;
       [exact is_poll_remote | exact Hfuel] |].
    intros _.
    apply emits_only_bind;
      [apply (emits_only_weaken is_poll), create_cluster_polls; exact is_poll_remote |].
    intros cluster'.
    apply emits_only_bind; [apply handle_error_state_remote |].
    intros _. apply emits_only_ret.
Qed.

(** A cluster reaches the check for the ERROR state after creates, fetches
    and sleeps only. *)
Lemma checked_after_polls (fuel : nat) (cluster : Cluster) (tr : trace) :
  (poll_fuel (timeout self) <= fuel)%nat ->
  checked self hook fuel cluster tr ->
  exists ext, tr = pushed self ++ ext /\ forallb is_poll ext = true.
Proof.
  intros Hfuel Hchecked.
  destruct Hchecked as [c tr Hfirst | c0 c tr0 tr Hfirst _ Hwait
                       | c0 c tr0 tr1 tr Hfirst _ Hwait Hcreate].
  - destruct (create_or_adopt_polls (pushed self)) as [ext [r [Hrun Hext]]].
    rewrite Hrun in Hfirst.
    assert (Htr : tr = pushed self ++ ext) by congruence.
    exists ext. split; [exact Htr | exact Hext].
  - destruct (create_or_adopt_polls (pushed self)) as [ext [r [Hrun Hext]]].
    rewrite Hrun in Hfirst.
    assert (Htr0 : tr0 = pushed self ++ ext) by congruence.
    destruct (wait_creating_polls fuel Hfuel tr0) as [ext' [r' [Hrun' Hext']]].
    rewrite Hrun' in Hwait.
    assert (Htr : tr = tr0 ++ ext') by congruence.
    exists (ext ++ ext'). rewrite Htr, Htr0, app_assoc, forallb_app, Hext, Hext'.
    split; reflexivity.
  - destruct (create_or_adopt_polls (pushed self)) as [ext [r [Hrun Hext]]].
    rewrite Hrun in Hfirst.
    assert (Htr0 : tr0 = pushed self ++ ext) by congruence.
    destruct (wait_deleting_polls fuel Hfuel tr0) as [ext' [r' [Hrun' Hext']]].
    rewrite Hrun' in Hwait.
    assert (Htr1 : tr1 = tr0 ++ ext') by congruence.
    destruct (create_cluster_polls tr1) as [ext'' [r'' [Hrun'' Hext'']]].
    rewrite Hrun'' in Hcreate.
    assert (Htr : tr = tr1 ++ ext'') by congruence.
    exists (ext ++ ext' ++ ext'').
    rewrite Htr, Htr1, Htr0, !app_assoc, !forallb_app, Hext, Hext', Hext''.
    split; reflexivity.
Qed.

End EmittedEvents.

Section CreateOrAdoptClaims.

Variable self : DataprocCreateClusterOperator.t.
Variable hook : DataprocHook.

Import DataprocCreateClusterOperator.

(** A run whose cluster is found in the ERROR state at one of the three
    checks ends in that check. *)
Lemma execute_error (fuel : nat) (cluster : Cluster) (tr : trace) :
  checked self hook fuel cluster tr ->
  state cluster = ClusterStatus.ERROR ->
  execute self hook fuel [] =
  match diagnose_cluster hook tr with
  | inl e => Some (tr ++ [DiagnoseCluster], inl e)
  | inr _ =>
      if delete_on_error self then
        Some (tr ++ [DiagnoseCluster; DeleteCluster],
              match delete_cluster hook (tr ++ [DiagnoseCluster]) with
              | inl e => inl e
              | inr _ => inl error_state_deleted
              end)
      else Some (tr ++ [DiagnoseCluster], inl error_state_kept)
  end.
Proof.
  intros Hchecked Hstate. rewrite execute_steps.
  destruct Hchecked as [c tr Hfirst | c0 c tr0 tr Hfirst Hstate0 Hwait
                       | c0 c tr0 tr1 tr Hfirst Hstate0 Hwait Hcreate];
    rewrite Hfirst.
  - rewrite (inspect_error self hook fuel c tr Hstate).
    rewrite (handle_error_state_error self hook c tr Hstate).
    destruct (diagnose_cluster hook tr); [reflexivity |].
    destruct (delete_on_error self); [| reflexivity].
    destruct (delete_cluster hook (tr ++ [DiagnoseCluster])); reflexivity.
  - rewrite (inspect_creating self hook fuel c0 tr0 Hstate0), Hwait.
    rewrite (handle_error_state_error self hook c tr Hstate).
    destruct (diagnose_cluster hook tr); [reflexivity |].
    destruct (delete_on_error self); [| reflexivity].
    destruct (delete_cluster hook (tr ++ [DiagnoseCluster])); reflexivity.
  - rewrite (inspect_deleting self hook fuel c0 tr0 Hstate0), Hwait, Hcreate.
    rewrite (handle_error_state_error self hook c tr Hstate).
    destruct (diagnose_cluster hook tr); [reflexivity |].
    destruct (delete_on_error self); [| reflexivity].
    destruct (delete_cluster hook (tr ++ [DiagnoseCluster])); reflexivity.
Qed.

(** C1.  When the cluster that [execute] checks is in the ERROR state --
    the created or adopted cluster, the cluster after the wait while
    CREATING, or the cluster created anew after the wait while DELETING --
    the run fails, and the diagnosis is the first call after the check.
    When the diagnosis raises, the run ends with its error and without a
    delete call.  When it returns: with [delete_on_error] the run makes
    exactly one delete call and raises the error of that call or, once the
    call returns, the [AirflowException] for the ERROR state; without it
    the run makes no delete call and raises the [AirflowException] for the
    ERROR state. *)
Theorem C1_error_state_handling (fuel : nat) (cluster : Cluster) (tr : trace) :
  (poll_fuel (timeout self) <= fuel)%nat ->
  checked self hook fuel cluster tr ->
  state cluster = ClusterStatus.ERROR ->
  exists tr' e,
    execute self hook fuel [] = Some (tr', inl e)
    /\ (exists rest, tr' = tr ++ DiagnoseCluster :: rest)
    /\ (delete_on_error self = false -> delete_calls tr' = 0%nat)
    /\ match diagnose_cluster hook tr with
       | inl e' =>
           tr' = tr ++ [DiagnoseCluster]
           /\ delete_calls tr' = 0%nat
           /\ e = e'
       | inr _ =>
           if delete_on_error self
           then tr' = tr ++ [DiagnoseCluster; DeleteCluster]
                /\ delete_calls tr' = 1%nat
                /\ e = match delete_cluster hook (tr ++ [DiagnoseCluster]) with
                       | inl e' => e'
                       | inr _ =>
                           AirflowException "Cluster was created but was in ERROR state."
                       end
           else tr' = tr ++ [DiagnoseCluster]
                /\ delete_calls tr' = 0%nat
                /\ e = AirflowException "Cluster was created but is in ERROR state"
       end.
Proof.
  intros Hfuel Hchecked Hstate.
  rewrite (execute_error fuel cluster tr Hchecked Hstate).
  destruct (checked_after_polls self hook fuel cluster tr Hfuel Hchecked)
    as [ext [Htr Hext]].
  assert (Hnone : delete_calls tr = 0%nat).
  { rewrite Htr, delete_calls_app, (no_delete_in_polls ext Hext). reflexivity. }
  assert (Hkept : delete_calls (tr ++ [DiagnoseCluster]) = 0%nat)
    by (rewrite delete_calls_app, Hnone; reflexivity).
  assert (Hdeleted : delete_calls (tr ++ [DiagnoseCluster; DeleteCluster]) = 1%nat)
    by (rewrite delete_calls_app, Hnone; reflexivity).
  destruct (diagnose_cluster hook tr) as [e | uri].
  - exists (tr ++ [DiagnoseCluster]), e. split; [reflexivity |].
    split; [exists []; reflexivity |].
    split; [intros _; exact Hkept |]. auto.
  - destruct (delete_on_error self).
    + exists (tr ++ [DiagnoseCluster; DeleteCluster]),
        (match delete_cluster hook (tr ++ [DiagnoseCluster]) with
         | inl e' => e'
         | inr _ => error_state_deleted
         end).
      split; [destruct (delete_cluster hook (tr ++ [DiagnoseCluster])); reflexivity |].
      split; [exists [DeleteCluster]; reflexivity |].
      split; [discriminate |]. auto.
    + exists (tr ++ [DiagnoseCluster]), error_state_kept. split; [reflexivity |].
      split; [exists []; reflexivity |].
      split; [intros _; exact Hkept |]. auto.
Qed.

(** A created cluster is inspected as it is. *)
Lemma execute_created (fuel : nat) (cluster : Cluster) :
  create_cluster hook (pushed self) = inr cluster ->
  execute self hook fuel []
  = inspect self hook fuel cluster (pushed self ++ [CreateCluster]).
Proof.
  intros Hcreate. rewrite execute_steps, create_or_adopt_steps, Hcreate. reflexivity.
Qed.

(** C3.  When the create call raises [AlreadyExists]: without
    [use_if_exists] the run ends there with that very error; with it the
    next call fetches the cluster, and the run goes on with the fetched
    cluster as it would with a created one -- a cluster in a settled state
    is returned. *)
Theorem C3_already_exists (fuel : nat) :
  create_cluster hook (pushed self) = inl AlreadyExists ->
  (use_if_exists self = false ->
   execute self hook fuel [] = Some (pushed self ++ [CreateCluster], inl AlreadyExists))
  /\ (use_if_exists self = true ->
      match get_cluster hook (pushed self ++ [CreateCluster]) with
      | inl e =>
          execute self hook fuel []
          = Some (pushed self ++ [CreateCluster; GetCluster], inl e)
      | inr cluster =>
          execute self hook fuel []
          = inspect self hook fuel cluster (pushed self ++ [CreateCluster; GetCluster])
          /\ (settled (state cluster) = true ->
              execute self hook fuel []
              = Some (pushed self ++ [CreateCluster; GetCluster], inr cluster))
      end).
Proof.
  intros Hexists. rewrite execute_steps, create_or_adopt_steps, Hexists.
  split; intros Huse; rewrite Huse; [reflexivity |].
  destruct (get_cluster hook (pushed self ++ [CreateCluster])) as [e | cluster];
    [reflexivity |].
  split; [reflexivity |].
  intros Hsettled. apply inspect_settled, Hsettled.
Qed.

(** The deleting loop while the cluster is still there at the fetches of
    the rounds before [n] and gone at round [n]. *)
Lemma deleting_loop_until_gone (tr : trace) (n : nat) :
  fetched_until hook tr n ->
  get_cluster hook (fetch_point tr n) = inl NotFound ->
  slept n <= timeout self ->
  forall d k fuel,
    (k + d = n)%nat -> (d < fuel)%nat ->
    deleting_loop self hook fuel k (timeout self - slept k) (polls tr k)
    = Some (polls tr (S n), inr tt).
Proof.
  intros Hfetched Hgone Htime.
  induction d as [| d IH]; intros k fuel Hk Hfuel;
    (destruct fuel as [| fuel]; [lia |]);
    cbn [deleting_loop];
    assert (Hleft : slept k <= timeout self)
      by (pose proof (slept_monotone k n ltac:(lia)); lia);
    (destruct (Z.ltb_spec (timeout self - slept k) 0) as [Hup | _]; [lia |]);
    unfold _get_cluster; unfold bind, emit, catch, call, ret, raise;
    change (exponential_sleep_generator 10 120 k) with (backoff k);
    change (polls tr k ++ [Sleep (backoff k)]) with (fetch_point tr k);
    rewrite polls_succ.
  - assert (k = n) by lia. subst k. rewrite Hgone. reflexivity.
  - destruct (Hfetched k ltac:(lia)) as [c Hc]. rewrite Hc.
    replace (timeout self - slept k - backoff k)
      with (timeout self - slept (S k)) by (cbn [slept]; lia).
    apply IH; lia.
Qed.

(** The wait while the cluster is DELETING returns only when a fetch
    raises [NotFound], after fetches that all returned the cluster. *)
Lemma wait_deleting_returns (fuel : nat) (tr0 tr1 : trace) :
  (poll_fuel (timeout self) <= fuel)%nat ->
  _wait_for_cluster_in_deleting_state self hook fuel tr0 = Some (tr1, inr tt) ->
  exists n,
    tr1 = polls tr0 (S n)
    /\ fetched_until hook tr0 n
    /\ get_cluster hook (fetch_point tr0 n) = inl NotFound.
Proof.
  intros Hfuel Hwait.
  destruct (wait_deleting_rounds self hook tr0 fuel Hfuel) as [m [r [Hrun [_ Hout]]]].
  rewrite Hrun in Hwait.
  assert (Htr : tr1 = polls tr0 m) by congruence.
  assert (Hr : r = inr tt) by congruence.
  destruct Hout as [[n [Hm [Hfetched [Hgone _]]]]
                   | [[n [e [_ [_ [_ [_ He]]]]]] | [_ [_ He]]]];
    [| congruence | congruence].
  exists n. rewrite Htr, Hm. auto.
Qed.

(** C4.  Let the created or adopted cluster be in the DELETING state.  The
    wait that follows returns only when a fetch raises [NotFound], after
    fetches that all returned the cluster.  When the cluster is still there
    at [n] fetches of the wait and gone at the next, within the timeout,
    the run fetches exactly those [n + 1] times, each after a sleep, then
    creates, and returns the cluster of that create, provided it is not in
    the ERROR state. *)
Theorem C4_recreate_after_deleting (fuel : nat) (c0 : Cluster) (tr0 : trace) :
  create_or_adopt self hook (pushed self) = Some (tr0, inr c0) ->
  state c0 = ClusterStatus.DELETING ->
  ((poll_fuel (timeout self) <= fuel)%nat ->
   forall tr1,
     _wait_for_cluster_in_deleting_state self hook fuel tr0 = Some (tr1, inr tt) ->
     exists n,
       tr1 = polls tr0 (S n)
       /\ fetched_until hook tr0 n
       /\ get_cluster hook (fetch_point tr0 n) = inl NotFound)
  /\ (forall (n : nat) (c' : Cluster),
        fetched_until hook tr0 n ->
        get_cluster hook (fetch_point tr0 n) = inl NotFound ->
        slept n <= timeout self ->
        create_cluster hook (polls tr0 (S n)) = inr c' ->
        state c' <> ClusterStatus.ERROR ->
        (n < fuel)%nat ->
        _wait_for_cluster_in_deleting_state self hook fuel tr0
        = Some (polls tr0 (S n), inr tt)
        /\ execute self hook fuel []
           = Some (polls tr0 (S n) ++ [CreateCluster], inr c')).
Proof.
  intros Hfirst Hstate. split.
  - intros Hfuel tr1 Hwait. exact (wait_deleting_returns fuel tr0 tr1 Hfuel Hwait).
  - intros n c' Hfetched Hgone Htime Hcreate Hok Hfuel.
    assert (Hwait : _wait_for_cluster_in_deleting_state self hook fuel tr0
                    = Some (polls tr0 (S n), inr tt)).
    { pose proof (deleting_loop_until_gone tr0 n Hfetched Hgone Htime n 0%nat fuel
                    eq_refl Hfuel) as Hloop.
      cbn [slept polls] in Hloop. rewrite Z.sub_0_r in Hloop. exact Hloop. }
    split; [exact Hwait |].
    rewrite execute_steps, Hfirst, (inspect_deleting self hook fuel c0 tr0 Hstate), Hwait.
    unfold _create_cluster, call. rewrite Hcreate.
    rewrite (handle_error_state_other self hook c' _ Hok). reflexivity.
Qed.

(** C8.  Every run, with fuel for the timeout, starts by pushing the record
    of the cluster name, the region and the project, before any call of the
    hook, and pushes no other record, whether it returns or raises. *)
Theorem C8_correlation_record (fuel : nat) :
  (poll_fuel (timeout self) <= fuel)%nat ->
  exists rest r,
    execute self hook fuel []
    = Some (XcomPush "cluster_conf"
              [ ("cluster_name", PyStr (cluster_name self));
                ("region", PyStr (region self));
                ("project_id", opt_str (project_id self)) ] :: rest, r)
    /\ forallb is_remote rest = true
    /\ xcom_pushes rest = 0%nat.
Proof.
  intros Hfuel. rewrite execute_steps.
  destruct (create_or_adopt_polls self hook (pushed self)) as [ext [r [Hrun Hext]]].
  rewrite Hrun.
  assert (Hremote : forallb is_remote ext = true).
  { rewrite forallb_forall in *. intros ev Hin. apply is_poll_remote, Hext, Hin. }
  destruct r as [e | cluster].
  - exists ext, (inl e). split; [reflexivity |].
    split; [exact Hremote | apply no_xcom_in_remote, Hremote].
  - destruct (inspect_remote self hook fuel cluster Hfuel (pushed self ++ ext))
      as [ext' [r' [Hrun' Hext']]].
    rewrite Hrun'. exists (ext ++ ext'), r'.
    split; [rewrite <- app_assoc; reflexivity |].
    assert (Hall : forallb is_remote (ext ++ ext') = true)
      by (rewrite forallb_app, Hremote, Hext'; reflexivity).
    split; [exact Hall | apply no_xcom_in_remote, Hall].
Qed.

End CreateOrAdoptClaims.

Lemma C1_error_state_handling_witness :
  (let self := example_operator true true 3600 in
   let hook := existing_cluster_hook ClusterStatus.ERROR 100 ClusterStatus.RUNNING in
   exists tr' e,
     DataprocCreateClusterOperator.execute self hook
       (DataprocCreateClusterOperator.poll_fuel 3600) []
     = Some (tr', inl e)
     /\ tr' = pushed self ++ [CreateCluster; GetCluster; DiagnoseCluster; DeleteCluster]
     /\ delete_calls tr' = 1%nat
     /\ e = AirflowException "Cluster was created but was in ERROR state.")
  /\ (let self := example_operator false true 3600 in
      let hook := existing_cluster_hook ClusterStatus.ERROR 100 ClusterStatus.RUNNING in
      exists tr' e,
        DataprocCreateClusterOperator.execute self hook
          (DataprocCreateClusterOperator.poll_fuel 3600) []
        = Some (tr', inl e)
        /\ tr' = pushed self ++ [CreateCluster; GetCluster; DiagnoseCluster]
        /\ delete_calls tr' = 0%nat
        /\ e = AirflowException "Cluster was created but is in ERROR state").
Proof.
  split; intros self hook.
  - assert (Hchecked : checked self hook (DataprocCreateClusterOperator.poll_fuel 3600)
                         (example_cluster "old" ClusterStatus.ERROR)
                         (pushed self ++ [CreateCluster; GetCluster]))
      by (apply checked_first; reflexivity).
    destruct (C1_error_state_handling self hook
                (DataprocCreateClusterOperator.poll_fuel 3600)
                (example_cluster "old" ClusterStatus.ERROR)
                (pushed self ++ [CreateCluster; GetCluster])
                (le_n _) Hchecked eq_refl)
      as [tr' [e [Hrun [_ [_ [Htr [Hcalls Herror]]]]]]].
    exists tr', e. split; [exact Hrun |]. split; [exact Htr |].
    split; [exact Hcalls | exact Herror].
  - assert (Hchecked : checked self hook (DataprocCreateClusterOperator.poll_fuel 3600)
                         (example_cluster "old" ClusterStatus.ERROR)
                         (pushed self ++ [CreateCluster; GetCluster]))
      by (apply checked_first; reflexivity).
    destruct (C1_error_state_handling self hook
                (DataprocCreateClusterOperator.poll_fuel 3600)
                (example_cluster "old" ClusterStatus.ERROR)
                (pushed self ++ [CreateCluster; GetCluster])
                (le_n _) Hchecked eq_refl)
      as [tr' [e [Hrun [_ [Hkept [Htr [_ Herror]]]]]]].
    exists tr', e. split; [exact Hrun |]. split; [exact Htr |].
    split; [exact (Hkept eq_refl) | exact Herror].
Defined.

(** C1, as stated, fails when a call of the clean-up raises: the handler
    has no [try].  With [delete_on_error] and a diagnosis that raises, the
    run ends with the error of the diagnosis and makes no delete call;
    without [delete_on_error] it ends with that error as well, not with the
    error for the ERROR state; with a diagnosis that returns and a delete
    that raises [NotFound], the run raises [NotFound]. *)
Lemma C1_failing_cleanup_counterexample :
  let adopted self := pushed self ++ [CreateCluster; GetCluster] in
  (let self := example_operator true true 3600 in
   let hook := broken_cluster_hook (inl (ApiError "diagnose failed")) (inr tt) in
   checked self hook (DataprocCreateClusterOperator.poll_fuel 3600)
     (example_cluster "old" ClusterStatus.ERROR) (adopted self)
   /\ DataprocCreateClusterOperator.delete_on_error self = true
   /\ DataprocCreateClusterOperator.execute self hook
        (DataprocCreateClusterOperator.poll_fuel 3600) []
      = Some (adopted self ++ [DiagnoseCluster], inl (ApiError "diagnose failed"))
   /\ delete_calls (adopted self ++ [DiagnoseCluster]) = 0%nat)
  /\ (let self := example_operator false true 3600 in
      let hook := broken_cluster_hook (inl (ApiError "diagnose failed")) (inr tt) in
      DataprocCreateClusterOperator.delete_on_error self = false
      /\ DataprocCreateClusterOperator.execute self hook
           (DataprocCreateClusterOperator.poll_fuel 3600) []
         = Some (adopted self ++ [DiagnoseCluster], inl (ApiError "diagnose failed")))
  /\ (let self := example_operator true true 3600 in
      let hook := broken_cluster_hook (inr "gs://bucket/diagnostic.tar") (inl NotFound) in
      checked self hook (DataprocCreateClusterOperator.poll_fuel 3600)
        (example_cluster "old" ClusterStatus.ERROR) (adopted self)
      /\ DataprocCreateClusterOperator.execute self hook
           (DataprocCreateClusterOperator.poll_fuel 3600) []
         = Some (adopted self ++ [DiagnoseCluster; DeleteCluster], inl NotFound)
      /\ delete_calls (adopted self ++ [DiagnoseCluster; DeleteCluster]) = 1%nat).
Proof.
  intros adopted. split; [| split]; intros self hook.
  - split; [apply checked_first; reflexivity |].
    split; [reflexivity |]. split; reflexivity.
  - split; reflexivity.
  - split; [apply checked_first; reflexivity |]. split; reflexivity.
Qed.

Lemma C3_already_exists_witness :
  (let self := example_operator true false 3600 in
   let hook := existing_cluster_hook ClusterStatus.RUNNING 100 ClusterStatus.RUNNING in
   DataprocCreateClusterOperator.execute self hook 0 []
   = Some (pushed self ++ [CreateCluster], inl AlreadyExists))
  /\ (let self := example_operator true true 3600 in
      let hook := existing_cluster_hook ClusterStatus.RUNNING 100 ClusterStatus.RUNNING in
      DataprocCreateClusterOperator.execute self hook 0 []
      = Some (pushed self ++ [CreateCluster; GetCluster],
              inr (example_cluster "old" ClusterStatus.RUNNING))).
Proof.
  split; intros self hook.
  - apply (proj1 (C3_already_exists self hook 0 eq_refl)). reflexivity.
  - apply (proj2 (proj2 (C3_already_exists self hook 0 eq_refl) eq_refl)). reflexivity.
Defined.

Lemma C4_recreate_after_deleting_witness :
  let self := example_operator true true 3600 in
  let hook := existing_cluster_hook ClusterStatus.DELETING 3 ClusterStatus.RUNNING in
  let adopted := pushed self ++ [CreateCluster; GetCluster] in
  DataprocCreateClusterOperator.execute self hook
    (DataprocCreateClusterOperator.poll_fuel 3600) []
  = Some (pushed self
          ++ [ CreateCluster; GetCluster;
               Sleep 10; GetCluster; Sleep 20; GetCluster; Sleep 40; GetCluster;
               CreateCluster ],
          inr (example_cluster "new" ClusterStatus.RUNNING))
  /\ exists n,
       polls adopted 3 = polls adopted (S n)
       /\ fetched_until hook adopted n
       /\ get_cluster hook (fetch_point adopted n) = inl NotFound.
Proof.
  intros self hook adopted.
  assert (Hfetched : fetched_until hook adopted 2).
  { intros i Hi. exists (example_cluster "old" ClusterStatus.DELETING).
    destruct i as [| [| i]]; [reflexivity | reflexivity | lia]. }
  assert (Htime : slept 2 <= DataprocCreateClusterOperator.timeout self)
    by (vm_compute; discriminate).
  assert (Hfuel : (2 < DataprocCreateClusterOperator.poll_fuel 3600)%nat)
    by (vm_compute; repeat constructor).
  assert (Hnew : state (example_cluster "new" ClusterStatus.RUNNING)
                 <> ClusterStatus.ERROR) by discriminate.
  destruct (C4_recreate_after_deleting self hook
              (DataprocCreateClusterOperator.poll_fuel 3600)
              (example_cluster "old" ClusterStatus.DELETING) adopted
              eq_refl eq_refl) as [Hreturns Hscenario].
  destruct (Hscenario 2%nat (example_cluster "new" ClusterStatus.RUNNING)
              Hfetched eq_refl Htime eq_refl Hnew Hfuel) as [Hwait Hrun].
  split; [exact Hrun |].
  exact (Hreturns (le_n _) (polls adopted 3) Hwait).
Defined.

(** C4, as stated, fails.  With a total timeout of 5 seconds and a cluster
    that would be gone at the third fetch of the wait, the run gives up
    after one fetch: no fetch raises [NotFound] and nothing is created.
    When the cluster is gone but the new create raises, the run ends with
    that error; when the new create returns a cluster in the ERROR state,
    the run raises the error for that state instead of returning it. *)
Lemma C4_wait_gives_up_counterexample :
  (let self := example_operator true true 5 in
   let hook := existing_cluster_hook ClusterStatus.DELETING 3 ClusterStatus.RUNNING in
   let adopted := pushed self ++ [CreateCluster; GetCluster] in
   DataprocCreateClusterOperator.create_or_adopt self hook (pushed self)
   = Some (adopted, inr (example_cluster "old" ClusterStatus.DELETING))
   /\ fetched_until hook adopted 2
   /\ get_cluster hook (fetch_point adopted 2) = inl NotFound
   /\ DataprocCreateClusterOperator.execute self hook
        (DataprocCreateClusterOperator.poll_fuel 5) []
      = Some (adopted ++ [Sleep 10; GetCluster],
              inl (DataprocCreateClusterOperator.still_deleting self)))
  /\ (let self := example_operator true true 3600 in
      let hook := contended_hook 1 in
      let adopted := pushed self ++ [CreateCluster; GetCluster] in
      DataprocCreateClusterOperator.create_or_adopt self hook (pushed self)
      = Some (adopted, inr (example_cluster "old" ClusterStatus.DELETING))
      /\ DataprocCreateClusterOperator.execute self hook
           (DataprocCreateClusterOperator.poll_fuel 3600) []
         = Some (adopted ++ [Sleep 10; GetCluster; CreateCluster], inl AlreadyExists))
  /\ (let self := example_operator false true 3600 in
      let hook := existing_cluster_hook ClusterStatus.DELETING 1 ClusterStatus.ERROR in
      let adopted := pushed self ++ [CreateCluster; GetCluster] in
      DataprocCreateClusterOperator.create_or_adopt self hook (pushed self)
      = Some (adopted, inr (example_cluster "old" ClusterStatus.DELETING))
      /\ create_cluster hook (adopted ++ [Sleep 10; GetCluster])
         = inr (example_cluster "new" ClusterStatus.ERROR)
      /\ DataprocCreateClusterOperator.execute self hook
           (DataprocCreateClusterOperator.poll_fuel 3600) []
         = Some (adopted ++ [Sleep 10; GetCluster; CreateCluster; DiagnoseCluster],
                 inl (AirflowException "Cluster was created but is in ERROR state"))).
Proof.
  split; [| split]; intros self hook adopted.
  - split; [reflexivity |]. split.
    + intros i Hi. exists (example_cluster "old" ClusterStatus.DELETING).
      destruct i as [| [| i]]; [reflexivity | reflexivity | lia].
    + split; reflexivity.
  - split; reflexivity.
  - split; [reflexivity |]. split; reflexivity.
Qed.

Lemma C8_correlation_record_witness :
  let self := example_operator true true 3600 in
  let hook := existing_cluster_hook ClusterStatus.ERROR 100 ClusterStatus.RUNNING in
  exists rest r,
    DataprocCreateClusterOperator.execute self hook
      (DataprocCreateClusterOperator.poll_fuel 3600) []
    = Some (XcomPush "cluster_conf"
              [ ("cluster_name", PyStr "cluster-1");
                ("region", PyStr "europe-west1");
                ("project_id", PyStr "project") ] :: rest, r)
    /\ xcom_pushes rest = 0%nat.
Proof.
  intros self hook.
  destruct (C8_correlation_record self hook
              (DataprocCreateClusterOperator.poll_fuel 3600) (le_n _))
    as [rest [r [Hrun [_ Hnone]]]].
  exists rest, r. split; [exact Hrun | exact Hnone].
Defined.

(** ** The job operator *)

(** C9.  An operator built with no error states, or with [{ERROR}], has
    the error states [{ERROR}].  When it submits a job and waits for it:
    if the job ends in the state ERROR the run raises the job error, and
    if the job ends in the state DONE the run returns the id of the
    submitted job. *)
Theorem C9_job_error_states (hook_project : option string)
    (kw : DataprocJobBaseOperator.kwargs)
    (template : DataprocJobBaseOperator.DataProcJobBuilder)
    (self : DataprocJobBaseOperator.t) (hook : DataprocHook) (job_id : string) :
  DataprocJobBaseOperator.kw_job_error_states kw = None
  \/ DataprocJobBaseOperator.kw_job_error_states kw = Some ["ERROR"%string] ->
  DataprocJobBaseOperator.kw_asynchronous kw = false ->
  DataprocJobBaseOperator.create_job_template
    (DataprocJobBaseOperator.__init__ hook_project kw) template = inr self ->
  submit_job hook [] = inr job_id ->
  let submitted :=
    [SubmitJob; XcomPush "job_conf" (DataprocJobBaseOperator.job_conf self job_id)] in
  DataprocJobBaseOperator.job_error_states self = ["ERROR"%string]
  /\ (job_terminal_state hook submitted = Some JobStatus.ERROR ->
      DataprocJobBaseOperator.execute self hook []
      = Some (submitted ++ [WaitForJob],
              inl (DataprocJobBaseOperator.JobExecutionError job_id)))
  /\ (job_terminal_state hook submitted = Some JobStatus.DONE ->
      DataprocJobBaseOperator.execute self hook []
      = Some (submitted ++ [WaitForJob], inr job_id)).
Proof.
  intros Hstates Hsync Htemplate Hsubmit submitted.
  unfold DataprocJobBaseOperator.create_job_template in Htemplate.
  destruct (DataprocJobBaseOperator.project_id
              (DataprocJobBaseOperator.__init__ hook_project kw)) as [project |] eqn:Hproject;
    [| discriminate].
  assert (Hself : self = {|
            DataprocJobBaseOperator.project_id := Some project;
            DataprocJobBaseOperator.region :=
              DataprocJobBaseOperator.region
                (DataprocJobBaseOperator.__init__ hook_project kw);
            DataprocJobBaseOperator.job_error_states :=
              DataprocJobBaseOperator.job_error_states
                (DataprocJobBaseOperator.__init__ hook_project kw);
            DataprocJobBaseOperator.asynchronous :=
              DataprocJobBaseOperator.asynchronous
                (DataprocJobBaseOperator.__init__ hook_project kw);
            DataprocJobBaseOperator.job_template := Some template |})
    by congruence.
  assert (Herror_states : DataprocJobBaseOperator.job_error_states self = ["ERROR"%string]).
  { rewrite Hself. cbn. destruct Hstates as [-> | ->]; reflexivity. }
  split; [exact Herror_states |].
  assert (Hwait : DataprocJobBaseOperator.asynchronous self = false)
    by (rewrite Hself; cbn; exact Hsync).
  assert (Htmpl : DataprocJobBaseOperator.job_template self = Some template)
    by (rewrite Hself; reflexivity).
  unfold DataprocJobBaseOperator.execute. rewrite Htmpl.
  unfold DataprocJobBaseOperator.wait_for_job.
  unfold bind, call, emit, ret. rewrite Hsubmit, Hwait. cbn [negb app].
  fold submitted.
  split; intros Hfinal; rewrite Hfinal; reflexivity.
Qed.

Lemma C9_job_error_states_witness :
  DataprocJobBaseOperator.execute job_operator (job_hook JobStatus.ERROR) []
  = Some ([ SubmitJob;
            XcomPush "job_conf" (DataprocJobBaseOperator.job_conf job_operator "job_0a1b2c3d");
            WaitForJob ],
          inl (DataprocJobBaseOperator.JobExecutionError "job_0a1b2c3d"))
  /\ DataprocJobBaseOperator.execute job_operator (job_hook JobStatus.DONE) []
     = Some ([ SubmitJob;
               XcomPush "job_conf"
                 (DataprocJobBaseOperator.job_conf job_operator "job_0a1b2c3d");
               WaitForJob ],
             inr "job_0a1b2c3d"%string).
Proof.
  split.
  - apply (proj1 (proj2 (C9_job_error_states None job_kwargs
                           {| DataprocJobBaseOperator.job := [] |} job_operator
                           (job_hook JobStatus.ERROR) "job_0a1b2c3d"
                           (or_introl eq_refl) eq_refl eq_refl eq_refl))).
    reflexivity.
  - apply (proj2 (proj2 (C9_job_error_states None job_kwargs
                           {| DataprocJobBaseOperator.job := [] |} job_operator
                           (job_hook JobStatus.DONE) "job_0a1b2c3d"
                           (or_introl eq_refl) eq_refl eq_refl eq_refl))).
    reflexivity.
Defined.

(** ** Every run of the create operator *)

Section CreateOrAdoptRuns.

Variable self : DataprocCreateClusterOperator.t.
Variable hook : DataprocHook.

Import DataprocCreateClusterOperator.

(** The check of a cluster, followed by its return. *)
Lemma checked_then_returned (cluster : Cluster) (tr : trace) :
  exists tail r,
    match _handle_error_state self hook cluster tr with
    | None => None
    | Some (tr', inl e) => Some (tr', inl e)
    | Some (tr', inr _) => Some (tr', inr cluster)
    end = Some (tr ++ tail, r)
    /\ run_end self tail r
    /\ forall c, r = inr c -> c = cluster.
Proof.
  destruct (ClusterStatus.eqb (state cluster) ClusterStatus.ERROR) eqn:Hstate.
  - assert (Herror : state cluster = ClusterStatus.ERROR)
      by (destruct (state cluster); try discriminate; reflexivity).
    rewrite (handle_error_state_error self hook cluster tr Herror).
    destruct (diagnose_cluster hook tr) as [e | uri].
    + exists [DiagnoseCluster], (inl e). split; [reflexivity |].
      split; [right; exists e; auto | discriminate].
    + destruct (delete_on_error self) eqn:Hdelete.
      * destruct (delete_cluster hook (tr ++ [DiagnoseCluster])) as [e | []];
          eexists [DiagnoseCluster; DeleteCluster], (inl _);
          (split; [reflexivity |]);
          (split; [right; eexists; auto | discriminate]).
      * exists [DiagnoseCluster], (inl error_state_kept). split; [reflexivity |].
        split; [right; eexists; auto | discriminate].
  - assert (Hother : state cluster <> ClusterStatus.ERROR)
      by (intros Heq; rewrite Heq in Hstate; discriminate).
    rewrite (handle_error_state_other self hook cluster tr Hother).
    exists [], (inr cluster). rewrite app_nil_r. split; [reflexivity |].
    split; [| intros c Hc; congruence].
    left. split; [reflexivity |]. intros c Hc. congruence.
Qed.

Lemma run_end_raised (e : exn) : run_end self [] (inl e).
Proof. left. split; [reflexivity |]. intros c Hc. discriminate Hc. Qed.

(** The shape of every run from the check of the first cluster on. *)
Lemma inspect_shape (fuel : nat) (cluster : Cluster) (tr : trace) :
  (poll_fuel (timeout self) <= fuel)%nat ->
  exists ext tail r,
    inspect self hook fuel cluster tr = Some (tr ++ ext ++ tail, r)
    /\ forallb is_poll ext = true
    /\ run_end self tail r.
Proof.
  intros Hfuel.
  destruct (state cluster) eqn:Hstate.
  1, 3, 5, 7, 8:
    rewrite (inspect_settled self hook fuel cluster tr) by (rewrite Hstate; reflexivity);
    exists [], [], (inr cluster); rewrite !app_nil_r;
    (split; [reflexivity |]); (split; [reflexivity |]);
    left; (split; [reflexivity |]); intros c Hc;
    assert (c = cluster) by congruence; subst c; rewrite Hstate; discriminate.
  - rewrite (inspect_creating self hook fuel cluster tr Hstate).
    destruct (wait_creating_polls self hook fuel Hfuel tr) as [ext [r [Hrun Hext]]].
    rewrite Hrun. destruct r as [e | cluster'].
    + exists ext, [], (inl e). rewrite app_nil_r.
      split; [reflexivity |]. split; [exact Hext | apply run_end_raised].
    + destruct (checked_then_returned cluster' (tr ++ ext)) as [tail [r [Hcheck [Hend _]]]].
      exists ext, tail, r. rewrite app_assoc. split; [exact Hcheck | auto].
  - rewrite (inspect_error self hook fuel cluster tr Hstate).
    destruct (checked_then_returned cluster tr) as [tail [r [Hcheck [Hend _]]]].
    rewrite (handle_error_state_error self hook cluster tr Hstate) in *.
    exists [], tail, r. cbn [app]. split; [| split; [reflexivity | exact Hend]].
    destruct (diagnose_cluster hook tr); [exact Hcheck |].
    destruct (delete_on_error self); [| exact Hcheck].
    destruct (delete_cluster hook (tr ++ [DiagnoseCluster])); exact Hcheck.
  - rewrite (inspect_deleting self hook fuel cluster tr Hstate).
    destruct (wait_deleting_polls self hook fuel Hfuel tr) as [ext [r [Hrun Hext]]].
    rewrite Hrun. destruct r as [e | []].
    + exists ext, [], (inl e). rewrite app_nil_r.
      split; [reflexivity |]. split; [exact Hext | apply run_end_raised].
    + unfold _create_cluster, call.
      destruct (create_cluster hook (tr ++ ext)) as [e | cluster'].
      * exists (ext ++ [CreateCluster]), [], (inl e). rewrite app_nil_r, app_assoc.
        split; [reflexivity |].
        split; [rewrite forallb_app, Hext; reflexivity | apply run_end_raised].
      * destruct (checked_then_returned cluster' ((tr ++ ext) ++ [CreateCluster]))
          as [tail [r [Hcheck [Hend _]]]].
        exists (ext ++ [CreateCluster]), tail, r.
        rewrite !app_assoc.
        split; [exact Hcheck |].
        split; [rewrite forallb_app, Hext; reflexivity | exact Hend].
Qed.

(** The shape of every run: the record, then creates, fetches and sleeps,
    then the end. *)
Lemma execute_shape (fuel : nat) :
  (poll_fuel (timeout self) <= fuel)%nat ->
  exists ext tail r,
    execute self hook fuel [] = Some (pushed self ++ ext ++ tail, r)
    /\ forallb is_poll ext = true
    /\ run_end self tail r.
Proof.
  intros Hfuel. rewrite execute_steps.
  destruct (create_or_adopt_polls self hook (pushed self)) as [ext [r [Hrun Hext]]].
  rewrite Hrun. destruct r as [e | cluster].
  - exists ext, [], (inl e). rewrite app_nil_r.
    split; [reflexivity |]. split; [exact Hext | apply run_end_raised].
  - destruct (inspect_shape fuel cluster (pushed self ++ ext) Hfuel)
      as [ext' [tail [r [Hinspect [Hext' Hend]]]]].
    rewrite Hinspect. exists (ext ++ ext'), tail, r.
    rewrite <- !app_assoc.
    split; [reflexivity |].
    split; [rewrite forallb_app, Hext, Hext'; reflexivity | exact Hend].
Qed.

Lemma delete_calls_end (tail : trace) (r : result Cluster) :
  run_end self tail r ->
  (delete_calls tail <= 1)%nat
  /\ (delete_on_error self = false -> delete_calls tail = 0%nat)
  /\ (delete_calls tail = 1%nat -> tail = [DiagnoseCluster; DeleteCluster]
                                   /\ exists e, r = inl e).
Proof.
  intros [[-> _] | [e [-> [-> | [-> Hdelete]]]]].
  - split; [auto |]. split; [reflexivity | discriminate].
  - split; [auto |]. split; [reflexivity | discriminate].
  - split; [auto |]. split; [rewrite Hdelete; discriminate |].
    intros _. split; [reflexivity | eauto].
Qed.

(** X1.  A run that returns a cluster never returns one in the ERROR
    state, and has made no diagnose and no delete call: after the record
    its trace holds creates, fetches and sleeps only. *)
Theorem execute_returns_no_error_cluster (fuel : nat) (tr : trace) (cluster : Cluster) :
  (poll_fuel (timeout self) <= fuel)%nat ->
  execute self hook fuel [] = Some (tr, inr cluster) ->
  state cluster <> ClusterStatus.ERROR
  /\ exists ext, tr = pushed self ++ ext
                 /\ forallb is_poll ext = true
                 /\ delete_calls tr = 0%nat.
Proof.
  intros Hfuel Hrun.
  destruct (execute_shape fuel Hfuel) as [ext [tail [r [Hshape [Hext Hend]]]]].
  rewrite Hshape in Hrun.
  assert (Htr : tr = pushed self ++ ext ++ tail) by congruence.
  assert (Hr : r = inr cluster) by congruence.
  destruct Hend as [[-> Hstate] | [e [He _]]]; [| congruence].
  split; [exact (Hstate cluster Hr) |].
  exists ext. rewrite app_nil_r in Htr.
  split; [exact Htr |]. split; [exact Hext |].
  rewrite Htr, delete_calls_app, (no_delete_in_polls ext Hext). reflexivity.
Qed.

(** X2.  Every run makes at most one delete call, and none when the
    operator does not delete on error.  A delete call is the last call of
    its run, comes right after the diagnosis, and the run then raises. *)
Theorem execute_deletes_only_after_diagnosis (fuel : nat) :
  (poll_fuel (timeout self) <= fuel)%nat ->
  exists tr r,
    execute self hook fuel [] = Some (tr, r)
    /\ (delete_calls tr <= 1)%nat
    /\ (delete_on_error self = false -> delete_calls tr = 0%nat)
    /\ (delete_calls tr = 1%nat ->
        delete_on_error self = true
        /\ (exists tr0, tr = tr0 ++ [DiagnoseCluster; DeleteCluster])
        /\ exists e, r = inl e).
Proof.
  intros Hfuel.
  destruct (execute_shape fuel Hfuel) as [ext [tail [r [Hshape [Hext Hend]]]]].
  exists (pushed self ++ ext ++ tail), r. split; [exact Hshape |].
  destruct (delete_calls_end tail r Hend) as [Hmost [Hnone Hone]].
  assert (Hcount : delete_calls (pushed self ++ ext ++ tail) = delete_calls tail).
  { rewrite !delete_calls_app, (no_delete_in_polls ext Hext). reflexivity. }
  rewrite Hcount. split; [exact Hmost |]. split; [exact Hnone |].
  intros H1. destruct (Hone H1) as [-> Hraised].
  split.
  - destruct (delete_on_error self); [reflexivity |].
    specialize (Hnone eq_refl). rewrite Hnone in H1. discriminate H1.
  - split; [| exact Hraised].
    exists (pushed self ++ ext). rewrite app_assoc. reflexivity.
Qed.

(** X3.  The create that follows the wait for the end of a deletion is
    not guarded: whatever it raises ends the run, [AlreadyExists]
    included, even when [use_if_exists] is set -- the cluster is fetched
    and adopted only after the first create. *)
Theorem recreate_error_ends_run (fuel : nat) (c0 : Cluster) (tr0 : trace) (n : nat)
    (e : exn) :
  create_or_adopt self hook (pushed self) = Some (tr0, inr c0) ->
  state c0 = ClusterStatus.DELETING ->
  fetched_until hook tr0 n ->
  get_cluster hook (fetch_point tr0 n) = inl NotFound ->
  slept n <= timeout self ->
  create_cluster hook (polls tr0 (S n)) = inl e ->
  (n < fuel)%nat ->
  execute self hook fuel [] = Some (polls tr0 (S n) ++ [CreateCluster], inl e).
Proof.
  intros Hfirst Hstate Hfetched Hgone Htime Hcreate Hfuel.
  assert (Hwait : _wait_for_cluster_in_deleting_state self hook fuel tr0
                  = Some (polls tr0 (S n), inr tt)).
  { pose proof (deleting_loop_until_gone self hook tr0 n Hfetched Hgone Htime n 0%nat fuel
                  eq_refl Hfuel) as Hloop.
    cbn [slept polls] in Hloop. rewrite Z.sub_0_r in Hloop. exact Hloop. }
  rewrite execute_steps, Hfirst, (inspect_deleting self hook fuel c0 tr0 Hstate), Hwait.
  unfold _create_cluster, call. rewrite Hcreate. reflexivity.
Qed.

(** Every round sleeps ten seconds at least. *)
Lemma slept_lower_bound (m : nat) : 10 * Z.of_nat m <= slept m.
Proof.
  induction m as [| m IH]; [reflexivity |].
  cbn [slept]. pose proof (backoff_bounds m). lia.
Qed.

(** The creating loop while the fetches of the rounds before [n] return
    the cluster still CREATING and the fetch of round [n] raises. *)
Lemma creating_loop_until_error (tr : trace) (n : nat) (e : exn) :
  (forall i, (i < n)%nat ->
             exists c, get_cluster hook (fetch_point tr i) = inr c
                       /\ state c = ClusterStatus.CREATING) ->
  get_cluster hook (fetch_point tr n) = inl e ->
  slept n <= timeout self ->
  forall d k fuel c,
    (k + d = n)%nat -> (d < fuel)%nat ->
    state c = ClusterStatus.CREATING ->
    creating_loop self hook fuel k (timeout self - slept k) c (polls tr k)
    = Some (polls tr (S n), inl e).
Proof.
  intros Hfetched Hraised Htime.
  induction d as [| d IH]; intros k fuel c Hk Hfuel Hc;
    (destruct fuel as [| fuel]; [lia |]);
    cbn [creating_loop]; rewrite Hc; cbn [ClusterStatus.eqb negb];
    assert (Hleft : slept k <= timeout self)
      by (pose proof (slept_monotone k n ltac:(lia)); lia);
    (destruct (Z.ltb_spec (timeout self - slept k) 0) as [Hup | _]; [lia |]);
    unfold _get_cluster; unfold bind, emit, call, ret, raise;
    change (exponential_sleep_generator 10 120 k) with (backoff k);
    change (polls tr k ++ [Sleep (backoff k)]) with (fetch_point tr k);
    rewrite polls_succ.
  - assert (k = n) by lia. subst k. rewrite Hraised. reflexivity.
  - destruct (Hfetched k ltac:(lia)) as [c' [Hget Hc']]. rewrite Hget.
    replace (timeout self - slept k - backoff k)
      with (timeout self - slept (S k)) by (cbn [slept]; lia).
    apply (IH (S k) fuel c'); [lia | lia | exact Hc'].
Qed.

(** X4.  When the first cluster is CREATING, a run that returns gives the
    cluster of its last fetch, which is its last call; that cluster is
    neither CREATING nor in the ERROR state, and no other state is looked
    at.  A fetch that raises ends the run with its error, be it the first
    fetch of the wait or, within the timeout, a fetch that follows fetches
    of the cluster still CREATING: unlike the wait for a deletion, this
    wait does not take [NotFound] for an answer. *)
Theorem creating_wait_returns_last_fetch (fuel : nat) (c0 : Cluster) (tr0 : trace) :
  (poll_fuel (timeout self) <= fuel)%nat ->
  create_or_adopt self hook (pushed self) = Some (tr0, inr c0) ->
  state c0 = ClusterStatus.CREATING ->
  (forall tr cluster,
      execute self hook fuel [] = Some (tr, inr cluster) ->
      state cluster <> ClusterStatus.CREATING
      /\ state cluster <> ClusterStatus.ERROR
      /\ exists tr', tr = tr' ++ [GetCluster] /\ get_cluster hook tr' = inr cluster)
  /\ (forall e,
        get_cluster hook tr0 = inl e ->
        execute self hook fuel [] = Some (tr0 ++ [GetCluster], inl e))
  /\ (forall (n : nat) (c1 : Cluster) (e : exn),
        get_cluster hook tr0 = inr c1 ->
        state c1 = ClusterStatus.CREATING ->
        (forall i, (i < n)%nat ->
                   exists c, get_cluster hook (fetch_point (tr0 ++ [GetCluster]) i) = inr c
                             /\ state c = ClusterStatus.CREATING) ->
        slept n <= timeout self ->
        get_cluster hook (fetch_point (tr0 ++ [GetCluster]) n) = inl e ->
        execute self hook fuel [] = Some (polls (tr0 ++ [GetCluster]) (S n), inl e)).
Proof.
  intros Hfuel Hfirst Hstate.
  rewrite execute_steps, Hfirst, (inspect_creating self hook fuel c0 tr0 Hstate).
  pose proof (wait_creating_rounds self hook tr0 fuel Hfuel) as Hwait.
  split; [| split].
  - intros tr cluster Hrun.
    destruct (get_cluster hook tr0) as [e | c1] eqn:Hget;
      [rewrite Hwait in Hrun; discriminate Hrun |].
    destruct Hwait as [m [r [Hwait [_ Hout]]]]. rewrite Hwait in Hrun.
    destruct Hout as [[c [-> [Hnot Hlast]]] | [[m' [e [_ [_ ->]]]] | [_ ->]]];
      [| discriminate Hrun | discriminate Hrun].
    destruct (checked_then_returned c (polls (tr0 ++ [GetCluster]) m))
      as [tail [r [Hcheck [Hend Hsame_cluster]]]].
    cbv beta iota in Hrun.
    assert (Hsame : Some (polls (tr0 ++ [GetCluster]) m ++ tail, r)
                    = Some (tr, inr cluster))
      by (rewrite <- Hcheck; exact Hrun).
    assert (Hr : r = inr cluster) by congruence.
    assert (Htr : tr = polls (tr0 ++ [GetCluster]) m ++ tail) by congruence.
    destruct Hend as [[-> Hok] | [e [He _]]]; [| congruence].
    rewrite app_nil_r in Htr.
    assert (Hc : cluster = c) by exact (Hsame_cluster cluster Hr).
    subst c. split; [exact Hnot |]. split; [exact (Hok cluster Hr) |].
    destruct m as [| m'].
    + subst cluster. exists tr0. split; [exact Htr | exact Hget].
    + exists (fetch_point (tr0 ++ [GetCluster]) m').
      split; [rewrite polls_succ; exact Htr | exact Hlast].
  - intros e Hget. rewrite Hget in Hwait. rewrite Hwait. reflexivity.
  - intros n c1 e Hget Hc1 Hfetched Htime Hraised. clear Hwait.
    assert (Hn : (n < fuel)%nat).
    { pose proof (slept_lower_bound n) as Hlow. unfold poll_fuel in Hfuel.
      assert (Z.of_nat n <= timeout self / 10)
        by (apply Z.div_le_lower_bound; lia).
      lia. }
    unfold _wait_for_cluster_in_creating_state, _get_cluster.
    unfold bind at 1. unfold call. rewrite Hget.
    pose proof (creating_loop_until_error (tr0 ++ [GetCluster]) n e Hfetched Hraised
                  Htime n 0%nat fuel c1 eq_refl Hn Hc1) as Hloop.
    cbn [slept polls] in Hloop. rewrite Z.sub_0_r in Hloop.
    rewrite Hloop. reflexivity.
Qed.

End CreateOrAdoptRuns.

Lemma execute_returns_no_error_cluster_witness :
  let self := example_operator true true 25 in
  let hook := starting_cluster_hook ClusterStatus.RUNNING in
  let cluster := example_cluster "new" ClusterStatus.RUNNING in
  state cluster <> ClusterStatus.ERROR
  /\ exists ext,
       pushed self ++ [CreateCluster; GetCluster; Sleep 10; GetCluster] = pushed self ++ ext
       /\ forallb is_poll ext = true
       /\ delete_calls (pushed self ++ [CreateCluster; GetCluster; Sleep 10; GetCluster])
          = 0%nat.
Proof.
  intros self hook cluster.
  apply (execute_returns_no_error_cluster self hook 4
           (pushed self ++ [CreateCluster; GetCluster; Sleep 10; GetCluster]) cluster).
  - vm_compute. repeat constructor.
  - reflexivity.
Defined.

Lemma execute_deletes_only_after_diagnosis_witness :
  let self := example_operator true true 25 in
  let hook := existing_cluster_hook ClusterStatus.ERROR 1 ClusterStatus.RUNNING in
  exists tr r,
    DataprocCreateClusterOperator.execute self hook 4 [] = Some (tr, r)
    /\ (delete_calls tr <= 1)%nat
    /\ (DataprocCreateClusterOperator.delete_on_error self = false
        -> delete_calls tr = 0%nat)
    /\ (delete_calls tr = 1%nat ->
        DataprocCreateClusterOperator.delete_on_error self = true
        /\ (exists tr0, tr = tr0 ++ [DiagnoseCluster; DeleteCluster])
        /\ exists e, r = inl e).
Proof.
  intros self hook.
  apply (execute_deletes_only_after_diagnosis self hook 4).
  vm_compute. repeat constructor.
Defined.

Lemma recreate_error_ends_run_witness :
  let self := example_operator true true 25 in
  let hook := contended_hook 1 in
  DataprocCreateClusterOperator.use_if_exists self = true
  /\ DataprocCreateClusterOperator.execute self hook 4 []
     = Some (pushed self ++ [CreateCluster; GetCluster; Sleep 10; GetCluster; CreateCluster],
             inl AlreadyExists).
Proof.
  intros self hook. split; [reflexivity |].
  apply (recreate_error_ends_run self hook 4
           (example_cluster "old" ClusterStatus.DELETING)
           (pushed self ++ [CreateCluster; GetCluster]) 0 AlreadyExists).
  - reflexivity.
  - reflexivity.
  - intros i Hi. exfalso. inversion Hi.
  - reflexivity.
  - vm_compute. discriminate.
  - reflexivity.
  - repeat constructor.
Defined.

Lemma creating_wait_returns_last_fetch_witness :
  (let self := example_operator true true 25 in
   let hook := starting_cluster_hook ClusterStatus.DELETING in
   let cluster := example_cluster "new" ClusterStatus.DELETING in
   state cluster <> ClusterStatus.CREATING
   /\ state cluster <> ClusterStatus.ERROR
   /\ exists tr',
        pushed self ++ [CreateCluster; GetCluster; Sleep 10; GetCluster] = tr' ++ [GetCluster]
        /\ get_cluster hook tr' = inr cluster)
  /\ (let self := example_operator true true 25 in
      let hook := vanishing_cluster_hook 2 NotFound in
      DataprocCreateClusterOperator.execute self hook 4 []
      = Some (pushed self
              ++ [CreateCluster; GetCluster; Sleep 10; GetCluster; Sleep 20; GetCluster],
              inl NotFound)).
Proof.
  split; intros self hook.
  - intros cluster.
    apply (proj1 (creating_wait_returns_last_fetch self hook 4
                    (example_cluster "new" ClusterStatus.CREATING)
                    (pushed self ++ [CreateCluster])
                    ltac:(vm_compute; repeat constructor) eq_refl eq_refl)).
    reflexivity.
  - apply (proj2 (proj2 (creating_wait_returns_last_fetch self hook 4
                           (example_cluster "new" ClusterStatus.CREATING)
                           (pushed self ++ [CreateCluster])
                           ltac:(vm_compute; repeat constructor) eq_refl eq_refl))
             1%nat (example_cluster "new" ClusterStatus.CREATING) NotFound).
    + reflexivity.
    + reflexivity.
    + intros i Hi. exists (example_cluster "new" ClusterStatus.CREATING).
      destruct i as [| i]; [split; reflexivity | lia].
    + vm_compute. discriminate.
    + reflexivity.
Defined.

(** ** Every run of the job operator *)

(** X5.  The record of a job is pushed only once the submit call has
    returned, and carries the id of the submitted job; a submit that
    raises ends the run with no record.  An asynchronous operator returns
    that id right after the record, without waiting, whatever becomes of
    the job; otherwise the only further call is the wait, and an id that
    is returned is the submitted one. *)
Theorem job_record_follows_submit (self : DataprocJobBaseOperator.t)
    (hook : DataprocHook) (template : DataprocJobBaseOperator.DataProcJobBuilder)
    (tr : trace) :
  DataprocJobBaseOperator.job_template self = Some template ->
  match submit_job hook tr with
  | inl e => DataprocJobBaseOperator.execute self hook tr = Some (tr ++ [SubmitJob], inl e)
  | inr job_id =>
      let submitted :=
        tr ++ [SubmitJob; XcomPush "job_conf" (DataprocJobBaseOperator.job_conf self job_id)] in
      if DataprocJobBaseOperator.asynchronous self
      then DataprocJobBaseOperator.execute self hook tr = Some (submitted, inr job_id)
      else forall tr' r,
          DataprocJobBaseOperator.execute self hook tr = Some (tr', r) ->
          tr' = submitted ++ [WaitForJob]
          /\ forall id, r = inr id -> id = job_id
  end.
Proof.
  intros Htemplate. unfold DataprocJobBaseOperator.execute. rewrite Htemplate.
  unfold DataprocJobBaseOperator.wait_for_job. unfold bind, call, emit, ret.
  destruct (submit_job hook tr) as [e | job_id]; [reflexivity |].
  rewrite <- app_assoc. cbn [app].
  destruct (DataprocJobBaseOperator.asynchronous self); cbn [negb]; [reflexivity |].
  intros tr' r Hrun.
  destruct (job_terminal_state hook _) as [final |]; [| discriminate Hrun].
  destruct (DataprocJobBaseOperator.mem_str _ _).
  - assert (Htr : tr' = (tr ++ [SubmitJob; XcomPush "job_conf"
                                   (DataprocJobBaseOperator.job_conf self job_id)])
                        ++ [WaitForJob]) by congruence.
    split; [exact Htr |]. intros id Hid. congruence.
  - assert (Htr : tr' = (tr ++ [SubmitJob; XcomPush "job_conf"
                                   (DataprocJobBaseOperator.job_conf self job_id)])
                        ++ [WaitForJob]) by congruence.
    split; [exact Htr |]. intros id Hid. congruence.
Qed.

Lemma job_record_follows_submit_witness :
  let submitted :=
    [ SubmitJob;
      XcomPush "job_conf" (DataprocJobBaseOperator.job_conf job_operator "job_0a1b2c3d") ] in
  DataprocJobBaseOperator.execute job_operator (job_hook JobStatus.DONE) []
  = Some (submitted ++ [WaitForJob], inr "job_0a1b2c3d"%string)
  /\ submitted ++ [WaitForJob] = submitted ++ [WaitForJob]
  /\ forall id, (inr "job_0a1b2c3d"%string : result string) = inr id ->
                id = "job_0a1b2c3d"%string.
Proof.
  intros submitted. split; [reflexivity |].
  exact (job_record_follows_submit job_operator (job_hook JobStatus.DONE)
           {| DataprocJobBaseOperator.job := [] |} [] eq_refl
           (submitted ++ [WaitForJob]) (inr "job_0a1b2c3d"%string) eq_refl).
Defined.

(** X6.  The project of a job operator is the argument, and the project
    of the connection when there is no argument; the region is the
    argument, and [global] when there is none.  With neither project the
    template cannot be created, and before a template is created a run
    raises without any call.  With a project, the record that a run pushes
    after the submit names that project and that region: an asynchronous
    run returns the job id right after that record, and every other run
    that ends has pushed that record and then waited for the job, and does
    end when the job reaches a final state. *)
Theorem job_project_resolution (hook_project : option string)
    (kw : DataprocJobBaseOperator.kwargs)
    (template : DataprocJobBaseOperator.DataProcJobBuilder) (hook : DataprocHook)
    (tr : trace) :
  let fresh := DataprocJobBaseOperator.__init__ hook_project kw in
  let region := match DataprocJobBaseOperator.kw_region kw with
                | Some r => r
                | None => "global"
                end in
  let submitted job_id project :=
    tr ++ [ SubmitJob;
            XcomPush "job_conf"
              [ ("job_id", PyStr job_id);
                ("region", PyStr region);
                ("project_id", PyStr project) ] ] in
  DataprocJobBaseOperator.execute fresh hook tr
  = Some (tr, inl (AirflowException "Create a job template before"))
  /\ match DataprocJobBaseOperator.kw_project_id kw, hook_project with
     | None, None =>
         exists msg,
           DataprocJobBaseOperator.create_job_template fresh template
           = inl (AirflowException msg)
     | Some project, _ | None, Some project =>
         exists self,
           DataprocJobBaseOperator.create_job_template fresh template = inr self
           /\ forall job_id,
               submit_job hook tr = inr job_id ->
               if DataprocJobBaseOperator.kw_asynchronous kw
               then DataprocJobBaseOperator.execute self hook tr
                    = Some (submitted job_id project, inr job_id)
               else (forall tr' r,
                        DataprocJobBaseOperator.execute self hook tr = Some (tr', r) ->
                        tr' = submitted job_id project ++ [WaitForJob])
                    /\ (forall final,
                           job_terminal_state hook (submitted job_id project) = Some final ->
                           exists r,
                             DataprocJobBaseOperator.execute self hook tr
                             = Some (submitted job_id project ++ [WaitForJob], r))
     end.
Proof.
  intros fresh region submitted. split; [reflexivity |].
  assert (Hregion : DataprocJobBaseOperator.region fresh = region) by reflexivity.
  assert (Hasync : DataprocJobBaseOperator.asynchronous fresh
                   = DataprocJobBaseOperator.kw_asynchronous kw) by reflexivity.
  assert (Hproject : DataprocJobBaseOperator.project_id fresh
                     = match DataprocJobBaseOperator.kw_project_id kw with
                       | Some project => Some project
                       | None => hook_project
                       end)
    by (subst fresh; cbn; destruct (DataprocJobBaseOperator.kw_project_id kw); reflexivity).
  clearbody fresh region.
  assert (Hrun : forall project,
             DataprocJobBaseOperator.project_id fresh = Some project ->
             exists self,
               DataprocJobBaseOperator.create_job_template fresh template = inr self
               /\ forall job_id,
                   submit_job hook tr = inr job_id ->
                   if DataprocJobBaseOperator.kw_asynchronous kw
                   then DataprocJobBaseOperator.execute self hook tr
                        = Some (submitted job_id project, inr job_id)
                   else (forall tr' r,
                            DataprocJobBaseOperator.execute self hook tr = Some (tr', r) ->
                            tr' = submitted job_id project ++ [WaitForJob])
                        /\ (forall final,
                               job_terminal_state hook (submitted job_id project)
                               = Some final ->
                               exists r,
                                 DataprocJobBaseOperator.execute self hook tr
                                 = Some (submitted job_id project ++ [WaitForJob], r))).
  { intros project Hp.
    unfold DataprocJobBaseOperator.create_job_template. rewrite Hp.
    eexists. split; [reflexivity |].
    intros job_id Hsubmit.
    unfold DataprocJobBaseOperator.execute, DataprocJobBaseOperator.job_conf.
    cbn [DataprocJobBaseOperator.job_template DataprocJobBaseOperator.asynchronous
         DataprocJobBaseOperator.region DataprocJobBaseOperator.project_id].
    unfold DataprocJobBaseOperator.wait_for_job.
    unfold bind, call, emit, ret. rewrite Hsubmit, Hasync, ?Hp, Hregion.
    cbn [opt_str]. rewrite <- app_assoc. cbn [app].
    fold (submitted job_id project).
    destruct (DataprocJobBaseOperator.kw_asynchronous kw); cbn [negb]; [reflexivity |].
    split.
    - intros tr' r Hrun.
      destruct (job_terminal_state hook (submitted job_id project)) as [final |];
        [| discriminate Hrun].
      destruct (DataprocJobBaseOperator.mem_str _ _); congruence.
    - intros final Hfinal. rewrite Hfinal.
      destruct (DataprocJobBaseOperator.mem_str _ _); eexists; reflexivity. }
  destruct (DataprocJobBaseOperator.kw_project_id kw) as [project |].
  - apply Hrun, Hproject.
  - destruct hook_project as [project |].
    + apply Hrun, Hproject.
    + eexists. unfold DataprocJobBaseOperator.create_job_template.
      rewrite Hproject. reflexivity.
Qed.

Lemma job_project_resolution_witness :
  DataprocJobBaseOperator.execute (DataprocJobBaseOperator.__init__ None job_kwargs)
    (job_hook JobStatus.DONE) []
  = Some ([], inl (AirflowException "Create a job template before"))
  /\ exists self,
       DataprocJobBaseOperator.create_job_template
         (DataprocJobBaseOperator.__init__ None job_kwargs)
         {| DataprocJobBaseOperator.job := [] |}
       = inr self
       /\ DataprocJobBaseOperator.kw_asynchronous job_kwargs = false
       /\ exists r,
            DataprocJobBaseOperator.execute self (job_hook JobStatus.DONE) []
            = Some ([ SubmitJob;
                      XcomPush "job_conf"
                        [ ("job_id", PyStr "job_0a1b2c3d");
                          ("region", PyStr "europe-west1");
                          ("project_id", PyStr "project") ];
                      WaitForJob ], r).
Proof.
  destruct (job_project_resolution None job_kwargs {| DataprocJobBaseOperator.job := [] |}
              (job_hook JobStatus.DONE) [])
    as [Hbefore [self [Htemplate Hrecord]]].
  split; [exact Hbefore |].
  exists self. split; [exact Htemplate |]. split; [reflexivity |].
  destruct (Hrecord "job_0a1b2c3d"%string eq_refl) as [_ Hends].
  exact (Hends JobStatus.DONE eq_refl).
Defined.

(** ** The waits at their edges *)

(** X26.  The waits at their edges.  The wait for a creation returns at
    once, without a sleep, the cluster that its first fetch finds out of
    the CREATING state, whatever the timeout.  With a negative timeout
    neither wait sleeps: the wait for a deletion raises without a single
    fetch, and the wait for a creation raises after its first fetch when
    that finds the cluster still CREATING. *)
Theorem waits_without_sleep (self : DataprocCreateClusterOperator.t) (hook : DataprocHook)
    (tr : trace) (fuel : nat) :
  (1 <= fuel)%nat ->
  (DataprocCreateClusterOperator.timeout self < 0 ->
   DataprocCreateClusterOperator._wait_for_cluster_in_deleting_state self hook fuel tr
   = Some (tr, inl (AirflowException
                      ("Cluster " ++ DataprocCreateClusterOperator.cluster_name self
                       ++ " is still DELETING state, aborting")%string)))
  /\ forall cluster,
      get_cluster hook tr = inr cluster ->
      (state cluster <> ClusterStatus.CREATING ->
       DataprocCreateClusterOperator._wait_for_cluster_in_creating_state self hook fuel tr
       = Some (tr ++ [GetCluster], inr cluster))
      /\ (state cluster = ClusterStatus.CREATING ->
          DataprocCreateClusterOperator.timeout self < 0 ->
          DataprocCreateClusterOperator._wait_for_cluster_in_creating_state self hook fuel tr
          = Some (tr ++ [GetCluster],
                  inl (AirflowException
                         ("Cluster " ++ DataprocCreateClusterOperator.cluster_name self
                          ++ " is still CREATING state, aborting")%string))).
Proof.
  intros Hfuel. destruct fuel as [| fuel]; [lia |].
  split.
  - intros Hneg.
    unfold DataprocCreateClusterOperator._wait_for_cluster_in_deleting_state.
    cbn [DataprocCreateClusterOperator.deleting_loop].
    destruct (Z.ltb_spec (DataprocCreateClusterOperator.timeout self) 0); [reflexivity | lia].
  - intros cluster Hget.
    unfold DataprocCreateClusterOperator._wait_for_cluster_in_creating_state,
      DataprocCreateClusterOperator._get_cluster.
    unfold bind, call. rewrite Hget.
    cbn [DataprocCreateClusterOperator.creating_loop].
    split.
    + intros Hstate. destruct (state cluster); try reflexivity. congruence.
    + intros Hstate Hneg. rewrite Hstate. cbn [ClusterStatus.eqb negb].
      destruct (Z.ltb_spec (DataprocCreateClusterOperator.timeout self) 0);
        [reflexivity | lia].
Qed.

Lemma waits_without_sleep_witness :
  let self := example_operator true true (-1) in
  let hook := existing_cluster_hook ClusterStatus.CREATING 5 ClusterStatus.RUNNING in
  DataprocCreateClusterOperator._wait_for_cluster_in_deleting_state self hook 1 []
  = Some ([], inl (AirflowException "Cluster cluster-1 is still DELETING state, aborting"))
  /\ DataprocCreateClusterOperator._wait_for_cluster_in_creating_state self hook 1 []
     = Some ([GetCluster],
             inl (AirflowException "Cluster cluster-1 is still CREATING state, aborting")).
Proof.
  intros self hook.
  destruct (waits_without_sleep self hook [] 1 ltac:(repeat constructor))
    as [Hdeleting Hcreating].
  split.
  - apply Hdeleting. reflexivity.
  - apply (proj2 (Hcreating (example_cluster "old" ClusterStatus.CREATING) eq_refl)).
    + reflexivity.
    + reflexivity.
Defined.

(** ** What the built cluster config holds *)

Lemma getitem_put {A : Type} (o : option A) (k k' : string) (v : A -> pyval)
    (inner : dict) :
  getitem k (put o k' v inner)
  = if (k' =? k)%string
    then match o with
         | Some x => Some (v x)
         | None => getitem k inner
         end
    else getitem k inner.
Proof.
  destruct o as [x |]; simpl.
  - apply getitem_setitem.
  - destruct (k' =? k)%string; reflexivity.
Qed.

Lemma setitem2_inv (k1 k2 : string) (v : pyval) (d d' : dict) :
  setitem2 k1 k2 v d = inr d' ->
  exists inner, getitem k1 d = Some (PyDict inner)
                /\ d' = setitem k1 (PyDict (setitem k2 v inner)) d.
Proof.
  unfold setitem2.
  destruct (getitem k1 d) as [[| | | | | inner] |]; try discriminate.
  intros H. exists inner. split; [reflexivity | congruence].
Qed.

(** A nested assignment that returns changes one entry of one section. *)
Lemma setitem2_effect (k1 k2 : string) (v : pyval) (d d' : dict) :
  setitem2 k1 k2 v d = inr d' ->
  agree_off k1 d d'
  /\ forall inner, getitem k1 d = Some (PyDict inner) ->
                   getitem k1 d' = Some (PyDict (setitem k2 v inner)).
Proof.
  intros H. destruct (setitem2_inv _ _ _ _ _ H) as [inner [Hget ->]].
  split; [apply agree_off_setitem |].
  intros inner' Hget'. rewrite getitem_setitem, String.eqb_refl. congruence.
Qed.

Lemma set_if_effect {A : Type} (o : option A) (k1 k2 : string) (v : A -> pyval)
    (d d' : dict) :
  ClusterGenerator.set_if o k1 k2 v d = inr d' ->
  agree_off k1 d d'
  /\ forall inner, getitem k1 d = Some (PyDict inner) ->
                   getitem k1 d' = Some (PyDict (put o k2 v inner)).
Proof.
  destruct o as [x |]; simpl.
  - apply setitem2_effect.
  - intros H. assert (d' = d) by congruence. subst d'.
    split; [apply agree_off_refl | auto].
Qed.

Lemma keys_setitem (k : string) (v : pyval) (d : dict) :
  keys (setitem k v d) = if is_some (getitem k d) then keys d else keys d ++ [k].
Proof.
  unfold keys. induction d as [| [k0 v0] d IH]; simpl; [reflexivity |].
  destruct (String.eqb_spec k0 k) as [-> | Hne]; simpl; [reflexivity |].
  rewrite IH. destruct (is_some (getitem k d)); reflexivity.
Qed.

Lemma keys_setitem2 (k1 k2 : string) (v : pyval) (d d' : dict) :
  setitem2 k1 k2 v d = inr d' -> keys d' = keys d.
Proof.
  intros H. destruct (setitem2_inv _ _ _ _ _ H) as [inner [Hget ->]].
  rewrite keys_setitem, Hget. reflexivity.
Qed.

Lemma keys_set_if {A : Type} (o : option A) (k1 k2 : string) (v : A -> pyval)
    (d d' : dict) :
  ClusterGenerator.set_if o k1 k2 v d = inr d' -> keys d' = keys d.
Proof.
  destruct o as [x |]; simpl; [apply keys_setitem2 | congruence].
Qed.

(** Splits [x <- r ;; k] that returned into [r] and the rest. *)
Ltac bind_inv H :=
  match type of H with
  | bind_result ?r _ = inr _ =>
      let d := fresh "d" in
      let E := fresh "E" in
      destruct r as [? | d] eqn:E; [discriminate H | cbn [bind_result] in H]
  end.

Section GeneratorContents.

Context {datetime : Type}.
Variable utc_strftime : datetime -> string.
Variable self : ClusterGenerator.t (datetime := datetime).

Import ClusterGenerator.

(** [make] runs the blocks one after the other. *)
Lemma make_blocks (cluster_data : dict) :
  make utc_strftime self = inr cluster_data ->
  exists d1 d2 d3 d4 d5,
    image_config self (initial_cluster_data self) = inr d1
    /\ _build_gce_cluster_config self d1 = inr d2
    /\ software_config self d2 = inr d3
    /\ _build_lifecycle_config utc_strftime self d3 = inr d4
    /\ initialization_actions self d4 = inr d5
    /\ cluster_data = remaining_config self d5.
Proof.
  unfold make, _build_cluster_data. intros H.
  bind_inv H. bind_inv H. bind_inv H. bind_inv H. bind_inv H.
  exists d, d0, d1, d2, d3. repeat split; try assumption. congruence.
Qed.

(** *** The image block *)

Lemma custom_image_uris_effect (url : string) (d d' : dict) :
  custom_image_uris self url d = inr d' ->
  keys d' = keys d
  /\ (forall k, ("master_config" =? k)%string = false ->
                ("worker_config" =? k)%string = false ->
                getitem k d' = getitem k d)
  /\ (forall m, getitem "master_config" d = Some (PyDict m) ->
                getitem "master_config" d'
                = Some (PyDict (setitem "image_uri" (PyStr url) m)))
  /\ (forall w, getitem "worker_config" d = Some (PyDict w) ->
                getitem "worker_config" d'
                = Some (PyDict (if single_node self then w
                                else setitem "image_uri" (PyStr url) w))).
Proof.
  unfold custom_image_uris. intros H. bind_inv H.
  destruct (setitem2_effect _ _ _ _ _ E) as [Ha Hm].
  pose proof (keys_setitem2 _ _ _ _ _ E) as Hk.
  destruct (single_node self); cbn [negb] in H.
  - assert (d' = d0) by congruence. subst d'.
    split; [exact Hk |].
    split; [intros k Hk1 _; apply Ha, Hk1 |].
    split; [exact Hm |].
    intros w Hw. rewrite (Ha "worker_config" eq_refl). exact Hw.
  - destruct (setitem2_effect _ _ _ _ _ H) as [Ha' Hw'].
    split; [rewrite (keys_setitem2 _ _ _ _ _ H); exact Hk |].
    split; [intros k Hk1 Hk2; rewrite (Ha' k Hk2); apply Ha, Hk1 |].
    split.
    + intros m Hget. rewrite (Ha' "master_config" eq_refl). apply Hm, Hget.
    + intros w Hget. apply Hw'. rewrite (Ha "worker_config" eq_refl). exact Hget.
Qed.

Lemma image_config_effect (d d' : dict) :
  image_config self d = inr d' ->
  keys d' = keys d
  /\ (forall k, ("software_config" =? k)%string = false ->
                ("master_config" =? k)%string = false ->
                ("worker_config" =? k)%string = false ->
                getitem k d' = getitem k d)
  /\ (forall s, getitem "software_config" d = Some (PyDict s) ->
                getitem "software_config" d'
                = Some (PyDict (put (if_str (image_version self)) "image_version" PyStr s)))
  /\ (forall m, getitem "master_config" d = Some (PyDict m) ->
                getitem "master_config" d'
                = Some (PyDict (put (custom_image_url self) "image_uri" PyStr m)))
  /\ (forall w, getitem "worker_config" d = Some (PyDict w) ->
                getitem "worker_config" d'
                = Some (PyDict (if single_node self then w
                                else put (custom_image_url self) "image_uri" PyStr w))).
Proof.
  intros H. unfold image_config in H. unfold custom_image_url.
  destruct (if_str (image_version self)) as [version |].
  - destruct (setitem2_effect _ _ _ _ _ H) as [Ha Hs].
    split; [exact (keys_setitem2 _ _ _ _ _ H) |].
    split; [intros k Hk _ _; apply Ha, Hk |].
    split; [exact Hs |].
    split; intros x Hx.
    + rewrite (Ha "master_config" eq_refl). exact Hx.
    + rewrite (Ha "worker_config" eq_refl).
      destruct (single_node self); exact Hx.
  - destruct (if_str (custom_image self)) as [image |];
      [| destruct (if_str (custom_image_family self)) as [family |]].
    1, 2: destruct (custom_image_uris_effect _ _ _ H) as [Hk [Ha [Hm Hw]]];
      (split; [exact Hk |]);
      (split; [intros k _ Hk1 Hk2; apply Ha; assumption |]);
      (split; [intros s Hs; rewrite (Ha "software_config" eq_refl eq_refl); exact Hs |]);
      (split; [exact Hm | exact Hw]).
    assert (d' = d) by congruence. subst d'.
    split; [reflexivity |]. split; [reflexivity |].
    split; [auto |]. split; [auto |].
    intros w Hw. destruct (single_node self); exact Hw.
Qed.

(** *** The network block *)

Lemma gce_cluster_config_effect (d d' : dict) :
  _build_gce_cluster_config self d = inr d' ->
  keys d' = keys d
  /\ agree_off "gce_cluster_config" d d'
  /\ internal_ip_without_subnetwork self = false
  /\ forall g,
      getitem "gce_cluster_config" d = Some (PyDict g) ->
      getitem "gce_cluster_config" d'
      = Some (PyDict
                (put (if_list (service_account_scopes self)) "service_account_scopes" str_list
                   (put (if_str (service_account self)) "service_account" PyStr
                      (put (if_list (tags self)) "tags" str_list
                         (put (if if_bool (internal_ip_only self) then Some true else None)
                            "internal_ip_only" PyBool
                            (put (if_str (subnetwork_uri self)) "subnetwork_uri" PyStr
                               (put (if_str (network_uri self)) "network_uri" PyStr
                                  (put (if_list (metadata self)) "metadata" PyDict
                                     (put (if_str (zone self)) "zone_uri"
                                        (fun z =>
                                           PyStr
                                             ("https://www.googleapis.com/compute/v1/projects/"
                                              ++ project_id self ++ "/zones/" ++ z)%string)
                                        g))))))))).
Proof.
  unfold _build_gce_cluster_config, internal_ip_without_subnetwork, is_set. intros H.
  bind_inv H. bind_inv H. bind_inv H. bind_inv H. bind_inv H. bind_inv H. bind_inv H.
  bind_inv H.
  assert (d7 = d') by congruence. subst d7. clear H.
  destruct (set_if_effect _ _ _ _ _ _ E) as [A0 G0].
  destruct (set_if_effect _ _ _ _ _ _ E0) as [A1 G1].
  destruct (set_if_effect _ _ _ _ _ _ E1) as [A2 G2].
  destruct (set_if_effect _ _ _ _ _ _ E2) as [A3 G3].
  destruct (set_if_effect _ _ _ _ _ _ E4) as [A5 G5].
  destruct (set_if_effect _ _ _ _ _ _ E5) as [A6 G6].
  destruct (set_if_effect _ _ _ _ _ _ E6) as [A7 G7].
  pose proof (keys_set_if _ _ _ _ _ _ E) as K0.
  pose proof (keys_set_if _ _ _ _ _ _ E0) as K1.
  pose proof (keys_set_if _ _ _ _ _ _ E1) as K2.
  pose proof (keys_set_if _ _ _ _ _ _ E2) as K3.
  pose proof (keys_set_if _ _ _ _ _ _ E4) as K5.
  pose proof (keys_set_if _ _ _ _ _ _ E5) as K6.
  pose proof (keys_set_if _ _ _ _ _ _ E6) as K7.
  assert (Hip : internal_ip_without_subnetwork self = false
                /\ keys d4 = keys d3
                /\ agree_off "gce_cluster_config" d3 d4
                /\ forall g, getitem "gce_cluster_config" d3 = Some (PyDict g) ->
                             getitem "gce_cluster_config" d4
                             = Some (PyDict
                                       (put (if if_bool (internal_ip_only self)
                                             then Some true else None)
                                          "internal_ip_only" PyBool g))).
  { unfold internal_ip_without_subnetwork, is_set.
    destruct (if_bool (internal_ip_only self)); cbn [andb].
    - destruct (is_some (if_str (subnetwork_uri self))); cbn [negb] in *;
        [| discriminate E3].
      destruct (setitem2_effect _ _ _ _ _ E3) as [A4 G4].
      split; [reflexivity |]. split; [exact (keys_setitem2 _ _ _ _ _ E3) |].
      split; [exact A4 | exact G4].
    - assert (d4 = d3) by congruence. subst d4.
      split; [reflexivity |]. split; [reflexivity |].
      split; [apply agree_off_refl | auto]. }
  destruct Hip as [Hcheck [K4 [A4 G4]]].
  split; [congruence |].
  split.
  { intros k Hk. rewrite (A7 k Hk), (A6 k Hk), (A5 k Hk), (A4 k Hk), (A3 k Hk),
      (A2 k Hk), (A1 k Hk). apply A0, Hk. }
  split; [exact Hcheck |].
  intros g Hg. auto 10.
Qed.

(** *** The software block *)

Lemma software_config_effect (d d' : dict) :
  software_config self d = inr d' ->
  keys d' = keys d
  /\ agree_off "software_config" d d'
  /\ forall s,
      getitem "software_config" d = Some (PyDict s) ->
      getitem "software_config" d'
      = Some (PyDict
                (put (if_list (optional_components self)) "optional_components" str_list
                   (put (if_list (Some (build_properties self))) "properties" PyDict s))).
Proof.
  unfold software_config. intros H. bind_inv H.
  destruct (set_if_effect _ _ _ _ _ _ E) as [A0 G0].
  destruct (set_if_effect _ _ _ _ _ _ H) as [A1 G1].
  split; [rewrite (keys_set_if _ _ _ _ _ _ H); exact (keys_set_if _ _ _ _ _ _ E) |].
  split; [intros k Hk; rewrite (A1 k Hk); apply A0, Hk |].
  auto.
Qed.

(** *** The lifecycle block *)

Lemma lifecycle_config_effect (d d' : dict) :
  _build_lifecycle_config utc_strftime self d = inr d' ->
  keys d' = keys d
  /\ agree_off "lifecycle_config" d d'
  /\ forall l,
      getitem "lifecycle_config" d = Some (PyDict l) ->
      getitem "lifecycle_config" d'
      = Some (PyDict
                (match auto_delete_time self with
                 | Some time => setitem "auto_delete_time" (PyStr (utc_strftime time))
                 | None => put (if_int (auto_delete_ttl self)) "auto_delete_ttl" seconds_dict
                 end
                   (put (if_int (idle_delete_ttl self)) "idle_delete_ttl" seconds_dict l))).
Proof.
  unfold _build_lifecycle_config. intros H. bind_inv H. bind_inv H.
  assert (d1 = d') by congruence. subst d1. clear H.
  destruct (set_if_effect _ _ _ _ _ _ E) as [A0 G0].
  pose proof (keys_set_if _ _ _ _ _ _ E) as K0.
  destruct (auto_delete_time self) as [time |].
  - destruct (setitem2_effect _ _ _ _ _ E0) as [A1 G1].
    split; [rewrite (keys_setitem2 _ _ _ _ _ E0); exact K0 |].
    split; [intros k Hk; rewrite (A1 k Hk); apply A0, Hk | auto].
  - destruct (set_if_effect _ _ _ _ _ _ E0) as [A1 G1].
    split; [rewrite (keys_set_if _ _ _ _ _ _ E0); exact K0 |].
    split; [intros k Hk; rewrite (A1 k Hk); apply A0, Hk | auto].
Qed.

(** *** The init actions *)

Lemma map_result_pure {A B : Type} (f : A -> result B) (g : A -> B) (xs : list A)
    (ys : list B) :
  (forall x, f x = inr (g x)) -> map_result f xs = inr ys -> ys = map g xs.
Proof.
  intros Hf. revert ys. induction xs as [| x xs IH]; simpl; intros ys H.
  - congruence.
  - rewrite Hf in H. cbn [bind_result] in H.
    destruct (map_result f xs) as [e | ys']; [discriminate H |].
    cbn [bind_result] in H. cbn [map]. rewrite <- (IH ys' eq_refl). congruence.
Qed.

Lemma initialization_actions_effect (d d' : dict) :
  initialization_actions self d = inr d' ->
  match if_list (init_actions_uris self) with
  | Some uris =>
      exists execution_timeout,
        _get_init_action_timeout self = inr execution_timeout
        /\ d' = setitem "initialization_actions"
                  (PyList
                     (map (fun uri =>
                             PyDict [ ("executable_file", PyStr uri);
                                      ("execution_timeout", PyDict execution_timeout) ])
                        uris))
                  d
  | None => d' = d
  end.
Proof.
  unfold initialization_actions.
  destruct (if_list (init_actions_uris self)) as [uris |] eqn:Huris; [| congruence].
  intros H. bind_inv H.
  destruct (_get_init_action_timeout self) as [e | execution_timeout] eqn:Htimeout.
  - destruct (if_list_nonempty _ _ Huris) as [x [xs ->]]. discriminate E.
  - exists execution_timeout. split; [reflexivity |].
    rewrite (map_result_pure _
               (fun uri => PyDict [ ("executable_file", PyStr uri);
                                    ("execution_timeout", PyDict execution_timeout) ])
               uris d0 (fun uri => eq_refl) E) in H.
    congruence.
Qed.

(** *** The last block *)

Lemma remaining_config_frame (k : string) (d : dict) :
  ("encryption_config" =? k)%string = false ->
  ("autoscaling_config" =? k)%string = false ->
  ("endpoint_config" =? k)%string = false ->
  getitem k (remaining_config self d) = getitem k d.
Proof.
  intros H1 H2 H3. unfold remaining_config.
  destruct (if_str (customer_managed_key self));
    destruct (if_str (autoscaling_policy self));
    destruct (if_bool (enable_component_gateway self));
    rewrite ?getitem_setitem, ?H1, ?H2, ?H3; reflexivity.
Qed.

End GeneratorContents.

Section GeneratorConfig.

Context {datetime : Type}.
Variable utc_strftime : datetime -> string.
Variable self : ClusterGenerator.t (datetime := datetime).

Import ClusterGenerator.

Lemma initial_cluster_data_contents :
  keys (initial_cluster_data self)
  = config_sections ++ match if_str (storage_bucket self) with
                       | Some _ => ["config_bucket"%string]
                       | None => []
                       end
  /\ getitem "gce_cluster_config" (initial_cluster_data self) = Some (PyDict [])
  /\ getitem "master_config" (initial_cluster_data self)
     = Some (PyDict [ ("num_instances", PyInt (num_masters self));
                      ("machine_type_uri", PyStr (fst (machine_type_uris self)));
                      ("disk_config",
                         disk_config (master_disk_type self) (master_disk_size self)) ])
  /\ getitem "worker_config" (initial_cluster_data self)
     = Some (PyDict [ ("num_instances", opt_int (num_workers self));
                      ("machine_type_uri", PyStr (snd (machine_type_uris self)));
                      ("disk_config",
                         disk_config (worker_disk_type self) (worker_disk_size self)) ])
  /\ getitem "secondary_worker_config" (initial_cluster_data self)
     = Some (PyDict
               (if 0 <? num_preemptible_workers self
                then [ ("num_instances", PyInt (num_preemptible_workers self));
                       ("machine_type_uri", PyStr (snd (machine_type_uris self)));
                       ("disk_config",
                          disk_config (worker_disk_type self) (worker_disk_size self));
                       ("is_preemptible", PyBool true) ]
                else []))
  /\ getitem "software_config" (initial_cluster_data self) = Some (PyDict [])
  /\ getitem "lifecycle_config" (initial_cluster_data self) = Some (PyDict [])
  /\ getitem "encryption_config" (initial_cluster_data self) = Some (PyDict [])
  /\ getitem "autoscaling_config" (initial_cluster_data self) = Some (PyDict [])
  /\ getitem "endpoint_config" (initial_cluster_data self) = Some (PyDict [])
  /\ getitem "config_bucket" (initial_cluster_data self)
     = option_map PyStr (if_str (storage_bucket self))
  /\ getitem "initialization_actions" (initial_cluster_data self) = None.
Proof.
  unfold initial_cluster_data.
  destruct (machine_type_uris self) as [master_type_uri worker_type_uri]. cbn [fst snd].
  destruct (0 <? num_preemptible_workers self);
    destruct (if_str (storage_bucket self));
    repeat split; reflexivity.
Qed.

Lemma initialization_actions_frame (d d' : dict) :
  initialization_actions self d = inr d' ->
  agree_off "initialization_actions" d d'
  /\ (getitem "initialization_actions" d = None ->
      keys d' = keys d ++ match if_list (init_actions_uris self) with
                          | Some _ => ["initialization_actions"%string]
                          | None => []
                          end).
Proof.
  intros H. pose proof (initialization_actions_effect self d d' H) as Heffect.
  destruct (if_list (init_actions_uris self)) as [uris |].
  - destruct Heffect as [t [_ ->]].
    split; [apply agree_off_setitem |].
    intros Hnone. rewrite keys_setitem, Hnone. reflexivity.
  - subst d'. split; [apply agree_off_refl |]. intros _. rewrite app_nil_r. reflexivity.
Qed.

Lemma remaining_config_keys (d : dict) :
  is_some (getitem "encryption_config" d) = true ->
  is_some (getitem "autoscaling_config" d) = true ->
  is_some (getitem "endpoint_config" d) = true ->
  keys (remaining_config self d) = keys d.
Proof.
  intros H1 H2 H3. unfold remaining_config.
  destruct (if_str (customer_managed_key self));
    destruct (if_str (autoscaling_policy self));
    destruct (if_bool (enable_component_gateway self));
    rewrite ?keys_setitem, ?getitem_setitem; cbn [String.eqb Ascii.eqb Bool.eqb];
    rewrite ?H1, ?H2, ?H3; reflexivity.
Qed.

Lemma remaining_config_contents (d : dict) :
  getitem "encryption_config" d = Some (PyDict []) ->
  getitem "autoscaling_config" d = Some (PyDict []) ->
  getitem "endpoint_config" d = Some (PyDict []) ->
  getitem "encryption_config" (remaining_config self d)
  = Some (PyDict match if_str (customer_managed_key self) with
                 | Some key => [("gce_pd_kms_key_name", PyStr key)]
                 | None => []
                 end)
  /\ getitem "autoscaling_config" (remaining_config self d)
     = Some (PyDict match if_str (autoscaling_policy self) with
                    | Some policy => [("policy_uri", PyStr policy)]
                    | None => []
                    end)
  /\ getitem "endpoint_config" (remaining_config self d)
     = Some (PyDict (if if_bool (enable_component_gateway self)
                     then [("enable_http_port_access", PyBool true)]
                     else [])).
Proof.
  intros H1 H2 H3. unfold remaining_config.
  destruct (if_str (customer_managed_key self));
    destruct (if_str (autoscaling_policy self));
    destruct (if_bool (enable_component_gateway self));
    rewrite ?getitem_setitem; cbn [String.eqb Ascii.eqb Bool.eqb];
    rewrite ?H1, ?H2, ?H3; repeat split; reflexivity.
Qed.

(** The sections of a config that [make] returns. *)
Lemma make_contents (cluster_data : dict) :
  make utc_strftime self = inr cluster_data ->
  internal_ip_without_subnetwork self = false
  /\ keys cluster_data
     = config_sections
       ++ match if_str (storage_bucket self) with
          | Some _ => ["config_bucket"%string]
          | None => []
          end
       ++ match if_list (init_actions_uris self) with
          | Some _ => ["initialization_actions"%string]
          | None => []
          end
  /\ (exists d1 d2,
        _build_gce_cluster_config self d1 = inr d2
        /\ getitem "gce_cluster_config" d1 = Some (PyDict [])
        /\ getitem "gce_cluster_config" cluster_data = getitem "gce_cluster_config" d2)
  /\ getitem "master_config" cluster_data
     = Some (PyDict
               (put (custom_image_url self) "image_uri" PyStr
                  [ ("num_instances", PyInt (num_masters self));
                    ("machine_type_uri", PyStr (fst (machine_type_uris self)));
                    ("disk_config",
                       disk_config (master_disk_type self) (master_disk_size self)) ]))
  /\ getitem "worker_config" cluster_data
     = Some (PyDict
               (put (if single_node self then None else custom_image_url self)
                  "image_uri" PyStr
                  [ ("num_instances", opt_int (num_workers self));
                    ("machine_type_uri", PyStr (snd (machine_type_uris self)));
                    ("disk_config",
                       disk_config (worker_disk_type self) (worker_disk_size self)) ]))
  /\ getitem "secondary_worker_config" cluster_data
     = getitem "secondary_worker_config" (initial_cluster_data self)
  /\ getitem "software_config" cluster_data
     = Some (PyDict
               (put (if_list (optional_components self)) "optional_components" str_list
                  (put (if_list (Some (build_properties self))) "properties" PyDict
                     (put (if_str (image_version self)) "image_version" PyStr []))))
  /\ getitem "lifecycle_config" cluster_data
     = Some (PyDict
               (match auto_delete_time self with
                | Some time => setitem "auto_delete_time" (PyStr (utc_strftime time))
                | None => put (if_int (auto_delete_ttl self)) "auto_delete_ttl" seconds_dict
                end
                  (put (if_int (idle_delete_ttl self)) "idle_delete_ttl" seconds_dict [])))
  /\ getitem "config_bucket" cluster_data = option_map PyStr (if_str (storage_bucket self))
  /\ match if_list (init_actions_uris self) with
     | Some uris =>
         exists execution_timeout,
           _get_init_action_timeout self = inr execution_timeout
           /\ getitem "initialization_actions" cluster_data
              = Some (PyList
                        (map (fun uri =>
                                PyDict [ ("executable_file", PyStr uri);
                                         ("execution_timeout", PyDict execution_timeout) ])
                           uris))
     | None => getitem "initialization_actions" cluster_data = None
     end
  /\ (forall k, getitem k (initial_cluster_data self) = None ->
                ("initialization_actions" =? k)%string = false ->
                getitem k cluster_data = None).
Proof.
  intros Hmake.
  destruct (make_blocks utc_strftime self _ Hmake)
    as [d1 [d2 [d3 [d4 [d5 [E1 [E2 [E3 [E4 [E5 ->]]]]]]]]]].
  destruct (image_config_effect self _ _ E1) as [K1 [F1 [S1 [M1 W1]]]].
  destruct (gce_cluster_config_effect self _ _ E2) as [K2 [F2 [Hip G2]]].
  destruct (software_config_effect self _ _ E3) as [K3 [F3 S3]].
  destruct (lifecycle_config_effect utc_strftime self _ _ E4) as [K4 [F4 L4]].
  destruct (initialization_actions_frame _ _ E5) as [F5 K5].
  unfold agree_off in F2, F3, F4, F5.
  pose proof (initialization_actions_effect self _ _ E5) as I5.
  destruct initial_cluster_data_contents
    as [K0 [Hg [Hm [Hw [Hs [Hsw [Hl [He [Ha [Hp [Hb Hi]]]]]]]]]]].
  assert (Hrest : forall k,
             ("software_config" =? k)%string = false ->
             ("master_config" =? k)%string = false ->
             ("worker_config" =? k)%string = false ->
             ("gce_cluster_config" =? k)%string = false ->
             ("lifecycle_config" =? k)%string = false ->
             ("initialization_actions" =? k)%string = false ->
             getitem k d5 = getitem k (initial_cluster_data self)).
  { intros k H1 H2 H3 H4 H5 H6.
    rewrite (F5 k H6), (F4 k H5), (F3 k H1), (F2 k H4). apply F1; assumption. }
  assert (Hnone4 : getitem "initialization_actions" d4 = None).
  { rewrite F4 by reflexivity; rewrite F3 by reflexivity; rewrite F2 by reflexivity;
    rewrite F1 by reflexivity.
    exact Hi. }
  split; [exact Hip |].
  split.
  { rewrite remaining_config_keys
      by (rewrite Hrest by reflexivity; rewrite ?He, ?Ha, ?Hp; reflexivity).
    rewrite (K5 Hnone4), K4, K3, K2, K1, K0, <- app_assoc. reflexivity. }
  split.
  { exists d1, d2. split; [exact E2 |].
    split; [rewrite F1 by reflexivity; exact Hg |].
    rewrite remaining_config_frame by reflexivity.
    rewrite F5 by reflexivity; rewrite F4 by reflexivity; rewrite F3 by reflexivity. reflexivity. }
  split.
  { rewrite remaining_config_frame by reflexivity.
    rewrite F5 by reflexivity; rewrite F4 by reflexivity; rewrite F3 by reflexivity;
      rewrite F2 by reflexivity.
    apply M1, Hm. }
  split.
  { rewrite remaining_config_frame by reflexivity.
    rewrite F5 by reflexivity; rewrite F4 by reflexivity; rewrite F3 by reflexivity;
      rewrite F2 by reflexivity.
    rewrite (W1 _ Hw). destruct (single_node self); reflexivity. }
  split.
  { rewrite remaining_config_frame by reflexivity. apply Hrest; reflexivity. }
  split.
  { rewrite remaining_config_frame by reflexivity.
    rewrite F5 by reflexivity; rewrite F4 by reflexivity.
    apply S3. rewrite F2 by reflexivity. apply S1, Hsw. }
  split.
  { rewrite remaining_config_frame by reflexivity.
    rewrite F5 by reflexivity.
    apply L4. rewrite F3 by reflexivity; rewrite F2 by reflexivity; rewrite F1 by reflexivity.
    exact Hl. }
  split.
  { rewrite remaining_config_frame by reflexivity.
    rewrite Hrest by reflexivity. exact Hb. }
  split.
  { destruct (if_list (init_actions_uris self)) as [uris |].
    - destruct I5 as [t [Ht ->]]. exists t. split; [exact Ht |].
      rewrite remaining_config_frame by reflexivity.
      rewrite getitem_setitem. reflexivity.
    - subst d5. rewrite remaining_config_frame by reflexivity. exact Hnone4. }
  intros k Hk Hinit.
  assert (Hne : forall k', is_some (getitem k' (initial_cluster_data self)) = true ->
                           (k' =? k)%string = false).
  { intros k' Hsome. destruct (String.eqb_spec k' k) as [-> | _]; [| reflexivity].
    rewrite Hk in Hsome. discriminate Hsome. }
  rewrite remaining_config_frame by (apply Hne; rewrite ?He, ?Ha, ?Hp; reflexivity).
  rewrite Hrest; try assumption; apply Hne; rewrite ?Hsw, ?Hm, ?Hw, ?Hg, ?Hl; reflexivity.
Qed.

End GeneratorConfig.

(** ** Properties of the built cluster config *)

Lemma setitem_idempotent (k : string) (v : pyval) (d : dict) :
  setitem k v (setitem k v d) = setitem k v d.
Proof.
  induction d as [| [k0 v0] d IH]; simpl.
  - rewrite String.eqb_refl. reflexivity.
  - destruct (String.eqb_spec k0 k) as [-> | Hne]; simpl.
    + rewrite String.eqb_refl. reflexivity.
    + destruct (String.eqb_spec k0 k); [contradiction |]. rewrite IH. reflexivity.
Qed.

Lemma setitem_nonempty (k : string) (v : pyval) (d : dict) :
  if_list (Some (setitem k v d)) = Some (setitem k v d).
Proof.
  destruct d as [| [k0 v0] d]; simpl; [reflexivity |].
  destruct (k0 =? k)%string; reflexivity.
Qed.

(** Evaluates the lookups of entries that were put into a section. *)
Ltac lookup :=
  rewrite ?getitem_put, ?getitem_setitem; cbn [String.eqb Ascii.eqb Bool.eqb getitem].

Section GeneratorFacts.

Context {datetime : Type}.
Variable utc_strftime : datetime -> string.
Variable self : ClusterGenerator.t (datetime := datetime).

Import ClusterGenerator.

Lemma init_action_timeout_errors (e : exn) :
  _get_init_action_timeout self = inl e ->
  e = init_action_timeout_error \/ e = OverflowError.
Proof.
  unfold _get_init_action_timeout.
  destruct (re_match "sm" (init_action_timeout self)) as [[group1 group2] |];
    [| intros H; left; congruence].
  destruct (group2 =? "s")%char.
  - destruct (float_of_str group1); simpl; intros H; [discriminate H |].
    right. congruence.
  - destruct (group2 =? "m")%char; [| intros H; left; congruence].
    unfold timedelta_minutes, timedelta_of.
    destruct (float_of_str group1) as [v |]; [| intros H; right; simpl in H; congruence].
    destruct (timedelta_max_days <? v * 60000000 / 86400000000);
      simpl; intros H; [right; congruence | discriminate H].
Qed.

(** X7.  [make] raises in two cases only: internal IPs are asked for
    without a subnetwork, or there are init actions and their timeout does
    not parse or overflows.  The nested assignments of [_build_cluster_data]
    never fail: every section they write to is in the config. *)
Theorem make_failures (e : exn) :
  make utc_strftime self = inl e ->
  (internal_ip_without_subnetwork self = true /\ e = internal_ip_error)
  \/ (internal_ip_without_subnetwork self = false
      /\ if_list (init_actions_uris self) <> None
      /\ _get_init_action_timeout self = inl e
      /\ (e = init_action_timeout_error \/ e = OverflowError)).
Proof.
  intros Hmake. pose proof (make_outcome utc_strftime self) as Hout.
  destruct (internal_ip_without_subnetwork self).
  - left. split; [reflexivity | congruence].
  - right. split; [reflexivity |].
    destruct (if_list (init_actions_uris self)) as [uris |].
    + destruct (_get_init_action_timeout self) as [e' | t] eqn:Htimeout.
      * assert (e' = e) by congruence. subst e'.
        split; [discriminate |]. split; [reflexivity |].
        apply init_action_timeout_errors, Htimeout.
      * destruct Hout as [cd [l [Hcd _]]]. congruence.
    + destruct Hout as [cd [l [Hcd _]]]. congruence.
Qed.

(** X8.  The properties of the software section are the properties of the
    generator; on a single-node cluster they also hold the zero-worker
    property with the value [true], whatever value the caller gave it.
    Without any property the section has no properties entry. *)
Theorem make_software_properties (cluster_data : dict) :
  make utc_strftime self = inr cluster_data ->
  if single_node self then
    exists properties,
      getitem2 "software_config" "properties" cluster_data = Some (PyDict properties)
      /\ getitem allow_zero_workers properties = Some (PyStr "true")
      /\ forall k, (allow_zero_workers =? k)%string = false ->
                   getitem k properties = getitem k (self_properties self)
  else
    getitem2 "software_config" "properties" cluster_data
    = match self_properties self with
      | [] => None
      | _ :: _ => Some (PyDict (self_properties self))
      end.
Proof.
  intros Hmake.
  destruct (make_contents utc_strftime self _ Hmake)
    as [_ [_ [_ [_ [_ [_ [Hsw _]]]]]]].
  unfold getitem2. rewrite Hsw. unfold build_properties.
  destruct (single_node self).
  - rewrite setitem_nonempty. lookup.
    eexists. split; [reflexivity |].
    split; [rewrite getitem_setitem, String.eqb_refl; reflexivity |].
    intros k Hk. rewrite getitem_setitem. unfold allow_zero_workers in Hk.
    rewrite Hk. reflexivity.
  - lookup. destruct (self_properties self) as [| p ps]; simpl; [| reflexivity].
    destruct (if_str (image_version self)); reflexivity.
Qed.

(** X9.  With a zone, the machine types of the masters and of the workers
    are qualified by the project and the zone, and the network section
    names the zone; without a zone (none, or an empty one) the machine
    types are the bare names and the network section has no zone. *)
Theorem make_zone (cluster_data : dict) :
  make utc_strftime self = inr cluster_data ->
  match if_str (zone self) with
  | Some z =>
      getitem2 "master_config" "machine_type_uri" cluster_data
      = Some (PyStr ("projects/" ++ project_id self ++ "/zones/" ++ z ++ "/machineTypes/"
                     ++ master_machine_type self)%string)
      /\ getitem2 "worker_config" "machine_type_uri" cluster_data
         = Some (PyStr ("projects/" ++ project_id self ++ "/zones/" ++ z
                        ++ "/machineTypes/" ++ worker_machine_type self)%string)
      /\ getitem2 "gce_cluster_config" "zone_uri" cluster_data
         = Some (PyStr ("https://www.googleapis.com/compute/v1/projects/"
                        ++ project_id self ++ "/zones/" ++ z)%string)
  | None =>
      getitem2 "master_config" "machine_type_uri" cluster_data
      = Some (PyStr (master_machine_type self))
      /\ getitem2 "worker_config" "machine_type_uri" cluster_data
         = Some (PyStr (worker_machine_type self))
      /\ getitem2 "gce_cluster_config" "zone_uri" cluster_data = None
  end.
Proof.
  intros Hmake.
  destruct (make_contents utc_strftime self _ Hmake)
    as [_ [_ [[d1 [d2 [E2 [Hg1 Hg]]]] [Hm [Hw _]]]]].
  destruct (gce_cluster_config_effect self _ _ E2) as [_ [_ [_ G2]]].
  unfold getitem2. rewrite Hm, Hw, Hg, (G2 _ Hg1). unfold machine_type_uris.
  destruct (if_str (zone self)) as [z |]; cbn [fst snd]; lookup;
    repeat split; reflexivity.
Qed.

(** X10.  The image of the nodes.  An image version goes to the software
    section, and then no node has an image URI.  Otherwise a custom image,
    and otherwise a custom image family, gives the image URI of the
    masters, and of the workers unless the cluster is single-node; the URI
    is in the project of the image when there is one, and in the project
    of the cluster when there is none.  The secondary workers never have
    an image URI. *)
Theorem make_image (cluster_data : dict) :
  make utc_strftime self = inr cluster_data ->
  let image_project := match if_str (custom_image_project_id self) with
                       | Some p => p
                       | None => project_id self
                       end in
  let nodes (uri : option string) :=
    getitem2 "master_config" "image_uri" cluster_data = option_map PyStr uri
    /\ getitem2 "worker_config" "image_uri" cluster_data
       = (if single_node self then None else option_map PyStr uri)
    /\ getitem2 "secondary_worker_config" "image_uri" cluster_data = None in
  getitem2 "software_config" "image_version" cluster_data
  = option_map PyStr (if_str (image_version self))
  /\ match if_str (image_version self), if_str (custom_image self),
           if_str (custom_image_family self) with
     | Some _, _, _ => nodes None
     | None, Some image, _ =>
         nodes (Some ("https://www.googleapis.com/compute/beta/projects/"
                      ++ image_project ++ "/global/images/" ++ image)%string)
     | None, None, Some family =>
         nodes (Some ("https://www.googleapis.com/compute/beta/projects/"
                      ++ image_project ++ "/global/images/family/" ++ family)%string)
     | None, None, None => nodes None
     end.
Proof.
  intros Hmake image_project nodes.
  destruct (make_contents utc_strftime self _ Hmake)
    as [_ [_ [_ [Hm [Hw [Hs [Hsw _]]]]]]].
  destruct (initial_cluster_data_contents self) as [_ [_ [_ [_ [Hs0 _]]]]].
  rewrite Hs0 in Hs.
  assert (Hnodes : nodes (custom_image_url self)).
  { subst nodes. cbv beta. unfold getitem2. rewrite Hm, Hw, Hs.
    split; [| split].
    - lookup. destruct (custom_image_url self); reflexivity.
    - destruct (single_node self); lookup; [reflexivity |].
      destruct (custom_image_url self); reflexivity.
    - destruct (0 <? num_preemptible_workers self); reflexivity. }
  split.
  - unfold getitem2. rewrite Hsw. lookup.
    destruct (if_str (image_version self)); reflexivity.
  - unfold custom_image_url in Hnodes. fold image_project in Hnodes.
    destruct (if_str (image_version self)); [exact Hnodes |].
    destruct (if_str (custom_image self)); [exact Hnodes |].
    destruct (if_str (custom_image_family self)); exact Hnodes.
Qed.

(** X11.  The init actions of the config: one entry for each URI, in the
    order of the URIs, each with the URI and the one parsed timeout; no
    entry at all without URIs, whatever the timeout. *)
Theorem make_init_actions (cluster_data : dict) :
  make utc_strftime self = inr cluster_data ->
  match if_list (init_actions_uris self) with
  | Some uris =>
      exists execution_timeout actions,
        _get_init_action_timeout self = inr execution_timeout
        /\ getitem "initialization_actions" cluster_data = Some (PyList actions)
        /\ List.length actions = List.length uris
        /\ forall i uri,
            nth_error uris i = Some uri ->
            nth_error actions i
            = Some (PyDict [ ("executable_file", PyStr uri);
                             ("execution_timeout", PyDict execution_timeout) ])
  | None => getitem "initialization_actions" cluster_data = None
  end.
Proof.
  intros Hmake.
  destruct (make_contents utc_strftime self _ Hmake)
    as [_ [_ [_ [_ [_ [_ [_ [_ [_ [Hinit _]]]]]]]]]].
  destruct (if_list (init_actions_uris self)) as [uris |]; [| exact Hinit].
  destruct Hinit as [t [Ht Hget]].
  exists t. eexists. split; [exact Ht |]. split; [exact Hget |].
  split; [apply length_map |].
  intros i uri Hi. rewrite nth_error_map, Hi. reflexivity.
Qed.

(** X12.  The secondary workers.  With a positive number of preemptible
    workers their section holds that number, the preemptible mark, and the
    machine type and the disks of the primary workers; otherwise the
    section is there and empty. *)
Theorem make_secondary_workers (cluster_data : dict) :
  make utc_strftime self = inr cluster_data ->
  if 0 <? num_preemptible_workers self then
    getitem2 "secondary_worker_config" "num_instances" cluster_data
    = Some (PyInt (num_preemptible_workers self))
    /\ getitem2 "secondary_worker_config" "is_preemptible" cluster_data
       = Some (PyBool true)
    /\ getitem2 "secondary_worker_config" "machine_type_uri" cluster_data
       = getitem2 "worker_config" "machine_type_uri" cluster_data
    /\ getitem2 "secondary_worker_config" "disk_config" cluster_data
       = getitem2 "worker_config" "disk_config" cluster_data
    /\ getitem2 "worker_config" "disk_config" cluster_data
       = Some (PyDict [ ("boot_disk_type", PyStr (worker_disk_type self));
                        ("boot_disk_size_gb", PyInt (worker_disk_size self)) ])
  else getitem "secondary_worker_config" cluster_data = Some (PyDict []).
Proof.
  intros Hmake.
  destruct (make_contents utc_strftime self _ Hmake)
    as [_ [_ [_ [_ [Hw [Hs _]]]]]].
  destruct (initial_cluster_data_contents self) as [_ [_ [_ [_ [Hs0 _]]]]].
  rewrite Hs0 in Hs. unfold getitem2. rewrite Hs, Hw.
  destruct (0 <? num_preemptible_workers self); [| reflexivity].
  lookup. repeat split; reflexivity.
Qed.

(** X13.  The network section holds exactly the settings that are given
    and not empty: an empty string, an empty list, an empty dictionary and
    [False] leave no entry.  The internal-IP entry is only ever [True], and
    then the subnetwork entry is there as well. *)
Theorem make_network_settings (cluster_data : dict) :
  make utc_strftime self = inr cluster_data ->
  let entry := getitem2 "gce_cluster_config" in
  entry "metadata" cluster_data = option_map PyDict (if_list (metadata self))
  /\ entry "network_uri" cluster_data = option_map PyStr (if_str (network_uri self))
  /\ entry "subnetwork_uri" cluster_data = option_map PyStr (if_str (subnetwork_uri self))
  /\ entry "internal_ip_only" cluster_data
     = (if if_bool (internal_ip_only self) then Some (PyBool true) else None)
  /\ (if_bool (internal_ip_only self) = true ->
      exists subnetwork, entry "subnetwork_uri" cluster_data = Some (PyStr subnetwork))
  /\ entry "tags" cluster_data = option_map str_list (if_list (tags self))
  /\ entry "service_account" cluster_data = option_map PyStr (if_str (service_account self))
  /\ entry "service_account_scopes" cluster_data
     = option_map str_list (if_list (service_account_scopes self))
  /\ forall k, ~ In k gce_settings -> entry k cluster_data = None.
Proof.
  intros Hmake entry. subst entry.
  destruct (make_contents utc_strftime self _ Hmake)
    as [Hip [_ [[d1 [d2 [E2 [Hg1 Hg]]]] _]]].
  destruct (gce_cluster_config_effect self _ _ E2) as [_ [_ [_ G2]]].
  unfold getitem2. rewrite Hg, (G2 _ Hg1).
  unfold internal_ip_without_subnetwork, is_set in Hip.
  repeat split.
  - lookup. destruct (if_list (metadata self)); reflexivity.
  - lookup. destruct (if_str (network_uri self)); reflexivity.
  - lookup. destruct (if_str (subnetwork_uri self)); reflexivity.
  - lookup. destruct (if_bool (internal_ip_only self)); reflexivity.
  - intros Hinternal. rewrite Hinternal in Hip. lookup.
    destruct (if_str (subnetwork_uri self)) as [subnetwork |]; [eauto | discriminate Hip].
  - lookup. destruct (if_list (tags self)); reflexivity.
  - lookup. destruct (if_str (service_account self)); reflexivity.
  - lookup. destruct (if_list (service_account_scopes self)); reflexivity.
  - intros k Hk. rewrite !getitem_put.
    repeat match goal with
           | |- context [(?k' =? k)%string] =>
               destruct (String.eqb_spec k' k) as [Heq | _];
               [exfalso; apply Hk; rewrite <- Heq; simpl; tauto |]
           end.
    reflexivity.
Qed.

(** X14.  Every built config has the nine sections, in the order of the
    source, whether anything is written into them or not; after them comes
    the bucket when there is one, and then the init actions when there are
    some.  The three last sections are empty unless their one setting is
    given. *)
Theorem make_sections (cluster_data : dict) :
  make utc_strftime self = inr cluster_data ->
  keys cluster_data
  = config_sections
    ++ match if_str (storage_bucket self) with
       | Some _ => ["config_bucket"%string]
       | None => []
       end
    ++ match if_list (init_actions_uris self) with
       | Some _ => ["initialization_actions"%string]
       | None => []
       end
  /\ (forall k, In k config_sections -> is_dictb k cluster_data = true)
  /\ getitem "config_bucket" cluster_data = option_map PyStr (if_str (storage_bucket self))
  /\ getitem "encryption_config" cluster_data
     = Some (PyDict match if_str (customer_managed_key self) with
                    | Some key => [("gce_pd_kms_key_name", PyStr key)]
                    | None => []
                    end)
  /\ getitem "autoscaling_config" cluster_data
     = Some (PyDict match if_str (autoscaling_policy self) with
                    | Some policy => [("policy_uri", PyStr policy)]
                    | None => []
                    end)
  /\ getitem "endpoint_config" cluster_data
     = Some (PyDict (if if_bool (enable_component_gateway self)
                     then [("enable_http_port_access", PyBool true)]
                     else [])).
Proof.
  intros Hmake.
  destruct (make_contents utc_strftime self _ Hmake)
    as [_ [Hkeys [[d1 [d2 [E2 [Hg1 Hg]]]] [Hm [Hw [Hs [Hsw [Hl [Hb _]]]]]]]]].
  destruct (gce_cluster_config_effect self _ _ E2) as [_ [_ [_ G2]]].
  destruct (initial_cluster_data_contents self)
    as [_ [_ [_ [_ [Hs0 [_ [_ [He [Ha [Hp _]]]]]]]]]].
  destruct (make_blocks utc_strftime self _ Hmake)
    as [c1 [c2 [c3 [c4 [c5 [E1' [E2' [E3' [E4' [E5' Hcd]]]]]]]]]].
  assert (Hlast : forall k,
             ("software_config" =? k)%string = false ->
             ("master_config" =? k)%string = false ->
             ("worker_config" =? k)%string = false ->
             ("gce_cluster_config" =? k)%string = false ->
             ("lifecycle_config" =? k)%string = false ->
             ("initialization_actions" =? k)%string = false ->
             getitem k c5 = getitem k (initial_cluster_data self)).
  { destruct (image_config_effect self _ _ E1') as [_ [F1 _]].
    destruct (gce_cluster_config_effect self _ _ E2') as [_ [F2 _]].
    destruct (software_config_effect self _ _ E3') as [_ [F3 _]].
    destruct (lifecycle_config_effect utc_strftime self _ _ E4') as [_ [F4 _]].
    destruct (initialization_actions_frame self _ _ E5') as [F5 _].
    intros k H1 H2 H3 H4 H5 H6.
    rewrite (F5 k H6), (F4 k H5), (F3 k H1), (F2 k H4). apply F1; assumption. }
  destruct (remaining_config_contents self c5) as [Hence [Hauto Hend]];
    try (rewrite Hlast by reflexivity; assumption).
  rewrite <- Hcd in Hence, Hauto, Hend.
  split; [exact Hkeys |].
  split.
  { rewrite Hs0 in Hs. unfold is_dictb.
    intros k [<- | [<- | [<- | [<- | [<- | [<- | [<- | [<- | [<- | []]]]]]]]]];
      rewrite ?Hg, ?(G2 _ Hg1), ?Hm, ?Hw, ?Hs, ?Hsw, ?Hl, ?Hence, ?Hauto, ?Hend;
      reflexivity. }
  split; [exact Hb |]. split; [exact Hence |]. split; [exact Hauto | exact Hend].
Qed.

(** X15.  The lifecycle section has at most the idle TTL and one of the
    two auto-delete entries, and nothing else.  The idle TTL is there,
    as its number of seconds, exactly when it is given and not zero,
    whatever the auto-delete arguments are. *)
Theorem make_idle_delete_ttl (cluster_data : dict) :
  make utc_strftime self = inr cluster_data ->
  getitem2 "lifecycle_config" "idle_delete_ttl" cluster_data
  = option_map (fun n => PyDict [("seconds", PyInt n)]) (if_int (idle_delete_ttl self))
  /\ (getitem2 "lifecycle_config" "auto_delete_time" cluster_data = None
      \/ getitem2 "lifecycle_config" "auto_delete_ttl" cluster_data = None)
  /\ forall k,
      k <> "idle_delete_ttl"%string -> k <> "auto_delete_time"%string ->
      k <> "auto_delete_ttl"%string ->
      getitem2 "lifecycle_config" k cluster_data = None.
Proof.
  intros Hmake.
  destruct (make_contents utc_strftime self _ Hmake)
    as [_ [_ [_ [_ [_ [_ [_ [Hl _]]]]]]]].
  unfold getitem2. rewrite Hl.
  split; [| split].
  - destruct (auto_delete_time self); lookup;
      destruct (if_int (idle_delete_ttl self)); reflexivity.
  - destruct (auto_delete_time self); lookup; [right | left];
      destruct (if_int (idle_delete_ttl self)); reflexivity.
  - intros k H1 H2 H3.
    apply String.eqb_neq in H1, H2, H3.
    rewrite String.eqb_sym in H1, H2, H3.
    destruct (auto_delete_time self); rewrite ?getitem_setitem, ?getitem_put, ?H1, ?H2, ?H3;
      reflexivity.
Qed.

(** X16.  A second call of [make] gives what the first one gave.  The
    only trace that a call leaves on the generator is the zero-worker
    property in its properties; the next call stores that property again,
    with the same value, and so builds the same config or raises the same
    error. *)
Theorem make_twice :
  make utc_strftime (after_make self) = make utc_strftime self
  /\ build_properties (after_make self) = build_properties self.
Proof.
  assert (Hprops : build_properties (after_make self) = build_properties self).
  { unfold build_properties, after_make. cbn [single_node self_properties].
    unfold build_properties.
    destruct (single_node self); [apply setitem_idempotent | reflexivity]. }
  split; [| exact Hprops].
  unfold make, _build_cluster_data.
  change (initial_cluster_data (after_make self)) with (initial_cluster_data self).
  change (image_config (after_make self)) with (image_config self).
  change (_build_gce_cluster_config (after_make self)) with (_build_gce_cluster_config self).
  change (_build_lifecycle_config utc_strftime (after_make self))
    with (_build_lifecycle_config utc_strftime self).
  change (initialization_actions (after_make self)) with (initialization_actions self).
  change (remaining_config (after_make self)) with (remaining_config self).
  assert (Hsoftware : forall d, software_config (after_make self) d = software_config self d).
  { intros d. unfold software_config. rewrite Hprops. reflexivity. }
  destruct (image_config self (initial_cluster_data self)) as [e | d1]; [reflexivity |].
  cbn [bind_result].
  destruct (_build_gce_cluster_config self d1) as [e | d2]; [reflexivity |].
  cbn [bind_result]. rewrite Hsoftware. reflexivity.
Qed.

End GeneratorFacts.

(** *** Examples of built configs *)

Lemma make_failures_witness :
  let kw := with_init_action_timeout "5h" with_init_action in
  ClusterGenerator.make as_text (ClusterGenerator.attributes kw)
  = inl ClusterGenerator.init_action_timeout_error
  /\ internal_ip_without_subnetwork kw = false
  /\ if_list (ClusterGenerator.init_actions_uris kw) <> None
  /\ ClusterGenerator._get_init_action_timeout (ClusterGenerator.attributes kw)
     = inl ClusterGenerator.init_action_timeout_error.
Proof.
  intros kw. split; [reflexivity |].
  destruct (make_failures as_text (ClusterGenerator.attributes kw)
              ClusterGenerator.init_action_timeout_error eq_refl)
    as [[Hinternal _] | [Hinternal [Huris [Htimeout _]]]];
    [discriminate Hinternal |].
  split; [exact Hinternal |]. split; [exact Huris | exact Htimeout].
Defined.

Lemma make_software_properties_witness :
  exists cluster_data properties,
    ClusterGenerator.make as_text (ClusterGenerator.attributes (zonal_kwargs (Some 0) 0))
    = inr cluster_data
    /\ getitem2 "software_config" "properties" cluster_data = Some (PyDict properties)
    /\ getitem allow_zero_workers properties = Some (PyStr "true")
    /\ getitem "spark:spark.executor.memory" properties = Some (PyStr "4g").
Proof.
  eexists.
  destruct (make_software_properties as_text
              (ClusterGenerator.attributes (zonal_kwargs (Some 0) 0)) _ eq_refl)
    as [properties [Hget [Hzero Hother]]].
  exists properties. split; [reflexivity |]. split; [exact Hget |].
  split; [exact Hzero |].
  rewrite (Hother "spark:spark.executor.memory"%string eq_refl). reflexivity.
Defined.

Lemma make_zone_witness :
  exists cluster_data,
    ClusterGenerator.make as_text (ClusterGenerator.attributes (zonal_kwargs (Some 2) 3))
    = inr cluster_data
    /\ getitem2 "master_config" "machine_type_uri" cluster_data
       = Some (PyStr "projects/project/zones/europe-west1-b/machineTypes/n1-standard-4")
    /\ getitem2 "worker_config" "machine_type_uri" cluster_data
       = Some (PyStr "projects/project/zones/europe-west1-b/machineTypes/n1-standard-8")
    /\ getitem2 "gce_cluster_config" "zone_uri" cluster_data
       = Some (PyStr
                 "https://www.googleapis.com/compute/v1/projects/project/zones/europe-west1-b").
Proof.
  eexists. split; [reflexivity |].
  exact (make_zone as_text (ClusterGenerator.attributes (zonal_kwargs (Some 2) 3)) _ eq_refl).
Defined.

Lemma make_image_witness :
  exists cluster_data,
    ClusterGenerator.make as_text (ClusterGenerator.attributes (zonal_kwargs (Some 0) 0))
    = inr cluster_data
    /\ getitem2 "software_config" "image_version" cluster_data = None
    /\ getitem2 "master_config" "image_uri" cluster_data
       = Some (PyStr
                 "https://www.googleapis.com/compute/beta/projects/project/global/images/image-1")
    /\ getitem2 "worker_config" "image_uri" cluster_data = None
    /\ getitem2 "secondary_worker_config" "image_uri" cluster_data = None.
Proof.
  eexists. split; [reflexivity |].
  exact (make_image as_text (ClusterGenerator.attributes (zonal_kwargs (Some 0) 0)) _ eq_refl).
Defined.

Lemma make_init_actions_witness :
  exists cluster_data execution_timeout actions,
    ClusterGenerator.make as_text (ClusterGenerator.attributes (zonal_kwargs (Some 2) 3))
    = inr cluster_data
    /\ ClusterGenerator._get_init_action_timeout
         (ClusterGenerator.attributes (zonal_kwargs (Some 2) 3))
       = inr execution_timeout
    /\ getitem "initialization_actions" cluster_data = Some (PyList actions)
    /\ List.length actions = 2%nat
    /\ nth_error actions 1
       = Some (PyDict [ ("executable_file", PyStr "gs://bucket/b.sh");
                        ("execution_timeout", PyDict execution_timeout) ]).
Proof.
  eexists.
  destruct (make_init_actions as_text
              (ClusterGenerator.attributes (zonal_kwargs (Some 2) 3)) _ eq_refl)
    as [execution_timeout [actions [Htimeout [Hget [Hlength Hnth]]]]].
  exists execution_timeout, actions.
  split; [reflexivity |]. split; [exact Htimeout |]. split; [exact Hget |].
  split; [exact Hlength |].
  exact (Hnth 1%nat "gs://bucket/b.sh"%string eq_refl).
Defined.

Lemma make_secondary_workers_witness :
  exists cluster_data,
    ClusterGenerator.make as_text (ClusterGenerator.attributes (zonal_kwargs (Some 2) 3))
    = inr cluster_data
    /\ getitem2 "secondary_worker_config" "num_instances" cluster_data = Some (PyInt 3)
    /\ getitem2 "secondary_worker_config" "is_preemptible" cluster_data = Some (PyBool true)
    /\ getitem2 "secondary_worker_config" "machine_type_uri" cluster_data
       = getitem2 "worker_config" "machine_type_uri" cluster_data
    /\ getitem2 "secondary_worker_config" "disk_config" cluster_data
       = getitem2 "worker_config" "disk_config" cluster_data
    /\ getitem2 "worker_config" "disk_config" cluster_data
       = Some (PyDict [("boot_disk_type", PyStr "pd-ssd"); ("boot_disk_size_gb", PyInt 512)]).
Proof.
  eexists. split; [reflexivity |].
  exact (make_secondary_workers as_text
           (ClusterGenerator.attributes (zonal_kwargs (Some 2) 3)) _ eq_refl).
Defined.

Lemma make_network_settings_witness :
  exists cluster_data,
    ClusterGenerator.make as_text (ClusterGenerator.attributes (zonal_kwargs (Some 2) 3))
    = inr cluster_data
    /\ getitem2 "gce_cluster_config" "network_uri" cluster_data = None
    /\ getitem2 "gce_cluster_config" "subnetwork_uri" cluster_data = Some (PyStr "subnet-1")
    /\ getitem2 "gce_cluster_config" "internal_ip_only" cluster_data = Some (PyBool true)
    /\ getitem2 "gce_cluster_config" "tags" cluster_data = Some (PyList [PyStr "dataproc"]).
Proof.
  eexists. split; [reflexivity |].
  destruct (make_network_settings as_text
              (ClusterGenerator.attributes (zonal_kwargs (Some 2) 3)) _ eq_refl)
    as [_ [Hnetwork [Hsubnetwork [Hinternal [_ [Htags _]]]]]].
  split; [exact Hnetwork |]. split; [exact Hsubnetwork |].
  split; [exact Hinternal | exact Htags].
Defined.

Lemma make_sections_witness :
  exists cluster_data,
    ClusterGenerator.make as_text (ClusterGenerator.attributes (zonal_kwargs (Some 2) 3))
    = inr cluster_data
    /\ keys cluster_data
       = config_sections ++ ["config_bucket"%string; "initialization_actions"%string]
    /\ getitem "encryption_config" cluster_data = Some (PyDict [])
    /\ getitem "endpoint_config" cluster_data
       = Some (PyDict [("enable_http_port_access", PyBool true)]).
Proof.
  eexists. split; [reflexivity |].
  destruct (make_sections as_text
              (ClusterGenerator.attributes (zonal_kwargs (Some 2) 3)) _ eq_refl)
    as [Hkeys [_ [_ [Hencryption [_ Hendpoint]]]]].
  split; [exact Hkeys |]. split; [exact Hencryption | exact Hendpoint].
Defined.

Lemma make_idle_delete_ttl_witness :
  exists cluster_data,
    ClusterGenerator.make as_text (ClusterGenerator.attributes (zonal_kwargs (Some 2) 3))
    = inr cluster_data
    /\ getitem2 "lifecycle_config" "idle_delete_ttl" cluster_data = None
    /\ getitem2 "lifecycle_config" "auto_delete_ttl" cluster_data
       = Some (PyDict [("seconds", PyInt 3600)]).
Proof.
  eexists. split; [reflexivity |].
  split; [| reflexivity].
  exact (proj1 (make_idle_delete_ttl as_text
                  (ClusterGenerator.attributes (zonal_kwargs (Some 2) 3)) _ eq_refl)).
Defined.

(** ** The scale operator *)

(** X17.  A decommission timeout that the parser rejects fails the run
    after the record of the cluster is pushed and before any call of the
    hook: the cluster is not touched. *)
Theorem scale_timeout_checked_before_update (self : DataprocScaleClusterOperator.t)
    (hook : Calls.Hook) (log : Calls.log) (e : exn) :
  DataprocScaleClusterOperator._graceful_decommission_timeout_object self = inl e ->
  ScaleCluster.execute self hook log
  = (log ++ [Calls.Push "cluster_conf"
               [ ("cluster_name", PyStr (DataprocScaleClusterOperator.cluster_name self));
                 ("region", PyStr (DataprocScaleClusterOperator.region self));
                 ("project_id", opt_str (DataprocScaleClusterOperator.project_id self)) ]],
     inl e).
Proof.
  intros Htimeout. unfold ScaleCluster.execute.
  unfold Calls.bind, Calls.xcom_push, Calls.eval. rewrite Htimeout. reflexivity.
Qed.

Lemma scale_timeout_checked_before_update_witness :
  ScaleCluster.execute (scale_operator (Some "0s")) (obliging_hook [] "job") []
  = ([Calls.Push "cluster_conf"
        [ ("cluster_name", PyStr "cluster-1");
          ("region", PyStr "global");
          ("project_id", PyNone) ]],
     inl DataprocScaleClusterOperator.decommission_timeout_error).
Proof.
  exact (scale_timeout_checked_before_update (scale_operator (Some "0s"))
           (obliging_hook [] "job") []
           DataprocScaleClusterOperator.decommission_timeout_error eq_refl).
Defined.

(** The run with a timeout that the parser accepts. *)
Lemma scale_execute_accepted (self : DataprocScaleClusterOperator.t)
    (hook : Calls.Hook) (log : Calls.log) (timeout : option dict) :
  DataprocScaleClusterOperator._graceful_decommission_timeout_object self = inr timeout ->
  let pushed := log ++ [Calls.Push "cluster_conf" (ScaleCluster.cluster_conf self)] in
  let update := Calls.Call "update_cluster" (ScaleCluster.update_arguments self timeout) in
  ScaleCluster.execute self hook log
  = match Calls.update_cluster hook pushed (ScaleCluster.update_arguments self timeout) with
    | inl e => (pushed ++ [update], inl e)
    | inr _ =>
        (pushed ++ [update; Calls.Call "operation.result" []],
         match Calls.operation_result hook (pushed ++ [update]) [] with
         | inl e => inl e
         | inr _ => inr tt
         end)
    end.
Proof.
  intros Htimeout pushed update. unfold ScaleCluster.execute.
  unfold Calls.bind, Calls.xcom_push, Calls.eval, Calls.call, Calls.ret.
  rewrite Htimeout. fold pushed. fold update.
  destruct (Calls.update_cluster hook pushed _); [reflexivity |].
  rewrite <- app_assoc. cbn [app].
  destruct (Calls.operation_result hook (pushed ++ [update]) []); reflexivity.
Qed.

(** X18.  What the scale operator asks of the remote side.  The one update
    call comes right after the record; it carries the two instance counts
    of the operator, an update mask that names exactly these two counts,
    and the decommission timeout in seconds: the number times its unit for
    a duration that matches, is positive and is within what the parser
    takes (at most 4300 digits with the unit [s], less than [10^9] days
    with the other units), and [None] when no timeout is given.  The run
    then waits for the operation, unless the update call raised. *)
Theorem scale_update_call (self : DataprocScaleClusterOperator.t)
    (hook : Calls.Hook) (log : Calls.log) (timeout : option dict) :
  (exists s ds u,
      DataprocScaleClusterOperator.graceful_decommission_timeout self = Some s
      /\ re_match "smdh" s = Some (ds, u)
      /\ 0 < int_of_str ds * unit_seconds u
      /\ (if (u =? "s")%char then (digits_in ds <= 4300)%nat
         else int_of_str ds * unit_seconds u < timedelta_limit_seconds)
      /\ timeout = Some [("seconds", PyInt (int_of_str ds * unit_seconds u))])
  \/ (if_str (DataprocScaleClusterOperator.graceful_decommission_timeout self) = None
      /\ timeout = None) ->
  let arguments :=
    [ ("project_id", opt_str (DataprocScaleClusterOperator.project_id self));
      ("region", PyStr (DataprocScaleClusterOperator.region self));
      ("cluster_name", PyStr (DataprocScaleClusterOperator.cluster_name self));
      ("cluster",
         PyDict
           [ ("config",
                PyDict
                  [ ("worker_config",
                       PyDict [ ("num_instances",
                                   PyInt (DataprocScaleClusterOperator.num_workers self)) ]);
                    ("secondary_worker_config",
                       PyDict [ ("num_instances",
                                   PyInt (DataprocScaleClusterOperator.num_preemptible_workers
                                            self)) ]) ]) ]);
      ("graceful_decommission_timeout",
         match timeout with
         | Some seconds => PyDict seconds
         | None => PyNone
         end);
      ("update_mask",
         PyDict [ ("paths",
                     PyList [ PyStr "config.worker_config.num_instances";
                              PyStr "config.secondary_worker_config.num_instances" ]) ]) ] in
  let pushed := log ++ [Calls.Push "cluster_conf" (ScaleCluster.cluster_conf self)] in
  exists calls r,
    ScaleCluster.execute self hook log
    = (pushed ++ Calls.Call "update_cluster" arguments :: calls, r)
    /\ match Calls.update_cluster hook pushed arguments with
       | inl e => calls = [] /\ r = inl e
       | inr _ => calls = [Calls.Call "operation.result" []]
       end.
Proof.
  intros Hcases arguments pushed.
  assert (Htimeout : DataprocScaleClusterOperator._graceful_decommission_timeout_object self
                     = inr timeout).
  { unfold DataprocScaleClusterOperator._graceful_decommission_timeout_object.
    destruct Hcases as [[s [ds [u [Hs [Hmatch [Hpos [Hlim ->]]]]]]] | [Hnone ->]].
    - rewrite Hs. destruct (re_match_nonempty _ _ _ _ Hmatch) as [c [s' ->]].
      rewrite if_str_nonempty, (parse_timeout_seconds _ _ _ Hmatch Hlim).
      cbn [bind_result if_int].
      destruct (Z.eqb_spec (int_of_str ds * unit_seconds u) 0) as [Hz | _];
        [lia | reflexivity].
    - rewrite Hnone. reflexivity. }
  rewrite (scale_execute_accepted self hook log timeout Htimeout).
  change (ScaleCluster.update_arguments self timeout) with arguments. fold pushed.
  destruct (Calls.update_cluster hook pushed arguments) as [e | operation].
  - exists [], (inl e). auto.
  - eexists _, _. split; [reflexivity | reflexivity].
Qed.

Lemma scale_update_call_witness :
  exists calls r,
    ScaleCluster.execute (scale_operator (Some "2d")) (obliging_hook [] "job") []
    = ([Calls.Push "cluster_conf" (ScaleCluster.cluster_conf (scale_operator (Some "2d")))]
       ++ Calls.Call "update_cluster"
            [ ("project_id", PyNone);
              ("region", PyStr "global");
              ("cluster_name", PyStr "cluster-1");
              ("cluster",
                 PyDict
                   [ ("config",
                        PyDict
                          [ ("worker_config", PyDict [("num_instances", PyInt 2)]);
                            ("secondary_worker_config",
                               PyDict [("num_instances", PyInt 0)]) ]) ]);
              ("graceful_decommission_timeout", PyDict [("seconds", PyInt 172800)]);
              ("update_mask",
                 PyDict [ ("paths",
                             PyList [ PyStr "config.worker_config.num_instances";
                                      PyStr "config.secondary_worker_config.num_instances"
                                    ]) ]) ]
          :: calls, r)
    /\ calls = [Calls.Call "operation.result" []].
Proof.
  exact (scale_update_call (scale_operator (Some "2d")) (obliging_hook [] "job") []
           (Some [("seconds", PyInt 172800)])
           (or_introl
              (ex_intro _ "2d"%string
                 (ex_intro _ "2"%string
                    (ex_intro _ "d"%char
                       (conj eq_refl
                          (conj eq_refl
                             (conj eq_refl (conj eq_refl eq_refl))))))))).
Defined.

(** ** The batch operator *)

(** X19.  A run without a region raises before any call.  With a region
    the run creates the batch and waits for the operation.  When either of
    the two raises [AlreadyExists], the run fetches the batch of the given
    id and returns what the fetch returns; without a batch id it raises an
    [AirflowException] in place of [AlreadyExists].  Any other error ends
    the run at once, and the batch is then not fetched. *)
Theorem create_batch_run (self : DataprocCreateBatchOperator.t) (hook : Calls.Hook)
    (log : Calls.log) :
  match DataprocCreateBatchOperator.region self with
  | None =>
      DataprocCreateBatchOperator.execute self hook log
      = (log, inl (AirflowException "Region should be set here"))
  | Some region =>
      let create := DataprocCreateBatchOperator.create_arguments self region in
      let created := log ++ [Calls.Call "create_batch" create] in
      let attempt :=
        match Calls.create_batch hook log create with
        | inl e => (created, inl e)
        | inr operation =>
            let wait := DataprocCreateBatchOperator.wait_arguments self operation in
            (created ++ [Calls.Call "wait_for_operation" wait],
             Calls.wait_for_operation hook created wait)
        end in
      match attempt with
      | (tried, inr batch) =>
          DataprocCreateBatchOperator.execute self hook log = (tried, inr batch)
      | (tried, inl AlreadyExists) =>
          match DataprocCreateBatchOperator.batch_id self with
          | None =>
              DataprocCreateBatchOperator.execute self hook log
              = (tried, inl (AirflowException "Batch Id should be set here"))
          | Some batch_id =>
              let get := DataprocCreateBatchOperator.get_arguments self region batch_id in
              DataprocCreateBatchOperator.execute self hook log
              = (tried ++ [Calls.Call "get_batch" get], Calls.get_batch hook tried get)
          end
      | (tried, inl e) => DataprocCreateBatchOperator.execute self hook log = (tried, inl e)
      end
  end.
Proof.
  unfold DataprocCreateBatchOperator.execute.
  destruct (DataprocCreateBatchOperator.region self) as [region |]; [| reflexivity].
  unfold Calls.bind, Calls.try_except, Calls.call, Calls.raise, Calls.ret.
  cbv zeta.
  destruct (Calls.create_batch hook log _) as [e | operation].
  - destruct e; try reflexivity.
    destruct (DataprocCreateBatchOperator.batch_id self) as [batch_id |]; [| reflexivity].
    destruct (Calls.get_batch hook _ _); reflexivity.
  - destruct (Calls.wait_for_operation hook _ _) as [e | batch]; [| reflexivity].
    destruct e; try reflexivity.
    destruct (DataprocCreateBatchOperator.batch_id self) as [batch_id |]; [| reflexivity].
    destruct (Calls.get_batch hook _ _); reflexivity.
Qed.

Lemma create_batch_run_witness :
  DataprocCreateBatchOperator.execute
    (batch_operator (Some "europe-west1") (Some "batch-1"))
    (occupied_hook example_batch "job") []
  = ([ Calls.Call "create_batch"
         (DataprocCreateBatchOperator.create_arguments
            (batch_operator (Some "europe-west1") (Some "batch-1")) "europe-west1");
       Calls.Call "get_batch"
         [ ("batch_id", PyStr "batch-1");
           ("region", PyStr "europe-west1");
           ("project_id", PyStr "project");
           ("timeout", PyInt 600) ] ],
     inr example_batch).
Proof.
  exact (create_batch_run (batch_operator (Some "europe-west1") (Some "batch-1"))
           (occupied_hook example_batch "job") []).
Defined.

(** ** The job submission operator *)

(** X20.  [on_kill] cancels a job only once a run has returned: the run
    records the job id in its last statement, so that before a run, and
    after a run that raised -- the submit failed, or the wait for the job
    failed or timed out -- [on_kill] makes no call.  After a run that
    returned, it makes the one cancel call for the job of that run, unless
    [cancel_on_kill] is off or the job id is empty. *)
Theorem on_kill_cancels_returned_jobs_only (self : DataprocSubmitJobOperator.t)
    (hook : Calls.Hook) (log : Calls.log) :
  DataprocSubmitJobOperator.job_id self = None ->
  (forall log0, DataprocSubmitJobOperator.on_kill self hook log0 = (log0, inr tt))
  /\ match DataprocSubmitJobOperator.execute self hook log with
     | (log', inl e) => DataprocSubmitJobOperator.on_kill self hook log' = (log', inr tt)
     | (log', inr (self', job_id)) =>
         DataprocSubmitJobOperator.job_id self' = Some job_id
         /\ Calls.submit_job hook log (DataprocSubmitJobOperator.submit_arguments self)
            = inr job_id
         /\ DataprocSubmitJobOperator.on_kill self' hook log'
            = if DataprocSubmitJobOperator.cancel_on_kill self
                 && negb (job_id =? "")%string
              then (log' ++ [ Calls.Call "cancel_job"
                                [ ("job_id", PyStr job_id);
                                  ("project_id",
                                     PyStr (DataprocSubmitJobOperator.project_id self));
                                  ("region",
                                     PyStr (DataprocSubmitJobOperator.region self)) ] ],
                    Calls.cancel_job hook log'
                      (DataprocSubmitJobOperator.cancel_arguments self job_id))
              else (log', inr tt)
     end.
Proof.
  intros Hfresh.
  assert (Hidle : forall log0,
             DataprocSubmitJobOperator.on_kill self hook log0 = (log0, inr tt)).
  { intros log0. unfold DataprocSubmitJobOperator.on_kill. rewrite Hfresh. reflexivity. }
  split; [exact Hidle |].
  unfold DataprocSubmitJobOperator.execute.
  unfold Calls.bind, Calls.call, Calls.xcom_push, Calls.ret.
  destruct (Calls.submit_job hook log _) as [e | job_id]; [apply Hidle |].
  assert (Hkill : forall log',
             DataprocSubmitJobOperator.on_kill
               (DataprocSubmitJobOperator.with_job_id self job_id) hook log'
             = if DataprocSubmitJobOperator.cancel_on_kill self
                  && negb (job_id =? "")%string
               then (log' ++ [ Calls.Call "cancel_job"
                                 [ ("job_id", PyStr job_id);
                                   ("project_id",
                                      PyStr (DataprocSubmitJobOperator.project_id self));
                                   ("region",
                                      PyStr (DataprocSubmitJobOperator.region self)) ] ],
                     Calls.cancel_job hook log'
                       (DataprocSubmitJobOperator.cancel_arguments self job_id))
               else (log', inr tt)).
  { intros log'. unfold DataprocSubmitJobOperator.on_kill, Calls.call, Calls.ret.
    cbn [DataprocSubmitJobOperator.job_id DataprocSubmitJobOperator.with_job_id
         DataprocSubmitJobOperator.cancel_on_kill].
    destruct job_id as [| c job_id]; cbn [if_str].
    - rewrite andb_false_r. reflexivity.
    - destruct (DataprocSubmitJobOperator.cancel_on_kill self); reflexivity. }
  destruct (DataprocSubmitJobOperator.asynchronous self); cbn [negb].
  - split; [reflexivity |]. split; [reflexivity | apply Hkill].
  - destruct (Calls.wait_for_job hook _ _) as [e | []]; [apply Hidle |].
    split; [reflexivity |]. split; [reflexivity | apply Hkill].
Qed.

Lemma on_kill_cancels_returned_jobs_only_witness :
  DataprocSubmitJobOperator.execute (submit_operator false true)
    (occupied_hook [] "job_0a1b2c3d") []
  = ([ Calls.Call "submit_job"
         (DataprocSubmitJobOperator.submit_arguments (submit_operator false true));
       Calls.Push "job_conf"
         [ ("job_id", PyStr "job_0a1b2c3d");
           ("region", PyStr "europe-west1");
           ("project_id", PyStr "project") ];
       Calls.Call "wait_for_job"
         (DataprocSubmitJobOperator.wait_arguments (submit_operator false true)
            "job_0a1b2c3d") ],
     inl (AirflowException "Job failed"))
  /\ forall log',
      DataprocSubmitJobOperator.on_kill (submit_operator false true)
        (occupied_hook [] "job_0a1b2c3d") log'
      = (log', inr tt).
Proof.
  split; [reflexivity |].
  exact (proj1 (on_kill_cancels_returned_jobs_only (submit_operator false true)
                  (occupied_hook [] "job_0a1b2c3d") [] eq_refl)).
Defined.

(** X21.  The region of a job submission operator is the [region]
    argument, and the [location] argument when there is no region; with
    neither, the constructor raises [TypeError].  The operator that is
    built has no job id; its run submits the job in that region, and only
    when the submit returns does it push the record, with the id of the
    submitted job and that region; an asynchronous run returns right
    after. *)
Theorem submit_job_region (kw : DataprocSubmitJobOperator.kwargs) (hook : Calls.Hook)
    (log : Calls.log) :
  match DataprocSubmitJobOperator.kw_region kw, DataprocSubmitJobOperator.kw_location kw with
  | None, None =>
      DataprocSubmitJobOperator.__init__ kw
      = inl (TypeError "missing 1 required keyword argument: 'region'")
  | Some region, _ | None, Some region =>
      exists self,
        DataprocSubmitJobOperator.__init__ kw = inr self
        /\ DataprocSubmitJobOperator.region self = region
        /\ DataprocSubmitJobOperator.job_id self = None
        /\ getitem "region" (DataprocSubmitJobOperator.submit_arguments self)
           = Some (PyStr region)
        /\ match Calls.submit_job hook log (DataprocSubmitJobOperator.submit_arguments self)
           with
           | inl e =>
               DataprocSubmitJobOperator.execute self hook log
               = (log ++ [ Calls.Call "submit_job"
                             (DataprocSubmitJobOperator.submit_arguments self) ],
                  inl e)
           | inr job_id =>
               exists calls r,
                 DataprocSubmitJobOperator.execute self hook log
                 = (log
                    ++ Calls.Call "submit_job"
                         (DataprocSubmitJobOperator.submit_arguments self)
                       :: Calls.Push "job_conf"
                            [ ("job_id", PyStr job_id);
                              ("region", PyStr region);
                              ("project_id",
                                 PyStr (DataprocSubmitJobOperator.kw_project_id kw)) ]
                       :: calls,
                    r)
                 /\ if DataprocSubmitJobOperator.kw_asynchronous kw
                    then calls = []
                         /\ r = inr (DataprocSubmitJobOperator.with_job_id self job_id,
                                     job_id)
                    else calls
                         = [ Calls.Call "wait_for_job"
                               (DataprocSubmitJobOperator.wait_arguments self job_id) ]
           end
  end.
Proof.
  assert (Hbuilt : forall region self,
             self = {| DataprocSubmitJobOperator.project_id :=
                         DataprocSubmitJobOperator.kw_project_id kw;
                       DataprocSubmitJobOperator.region := region;
                       DataprocSubmitJobOperator.job := DataprocSubmitJobOperator.kw_job kw;
                       DataprocSubmitJobOperator.request_id :=
                         DataprocSubmitJobOperator.kw_request_id kw;
                       DataprocSubmitJobOperator.timeout :=
                         DataprocSubmitJobOperator.kw_timeout kw;
                       DataprocSubmitJobOperator.asynchronous :=
                         DataprocSubmitJobOperator.kw_asynchronous kw;
                       DataprocSubmitJobOperator.cancel_on_kill :=
                         DataprocSubmitJobOperator.kw_cancel_on_kill kw;
                       DataprocSubmitJobOperator.wait_timeout :=
                         DataprocSubmitJobOperator.kw_wait_timeout kw;
                       DataprocSubmitJobOperator.job_id := None |} ->
             DataprocSubmitJobOperator.region self = region
             /\ DataprocSubmitJobOperator.job_id self = None
             /\ getitem "region" (DataprocSubmitJobOperator.submit_arguments self)
                = Some (PyStr region)
             /\ match Calls.submit_job hook log
                        (DataprocSubmitJobOperator.submit_arguments self)
                with
                | inl e =>
                    DataprocSubmitJobOperator.execute self hook log
                    = (log ++ [ Calls.Call "submit_job"
                                  (DataprocSubmitJobOperator.submit_arguments self) ],
                       inl e)
                | inr job_id =>
                    exists calls r,
                      DataprocSubmitJobOperator.execute self hook log
                      = (log
                         ++ Calls.Call "submit_job"
                              (DataprocSubmitJobOperator.submit_arguments self)
                            :: Calls.Push "job_conf"
                                 [ ("job_id", PyStr job_id);
                                   ("region", PyStr region);
                                   ("project_id",
                                      PyStr (DataprocSubmitJobOperator.kw_project_id kw)) ]
                            :: calls,
                         r)
                      /\ if DataprocSubmitJobOperator.kw_asynchronous kw
                         then calls = []
                              /\ r = inr (DataprocSubmitJobOperator.with_job_id self job_id,
                                          job_id)
                         else calls
                              = [ Calls.Call "wait_for_job"
                                    (DataprocSubmitJobOperator.wait_arguments self job_id) ]
                end).
  { intros region self Hself.
    assert (Hregion : DataprocSubmitJobOperator.region self = region)
      by (rewrite Hself; reflexivity).
    assert (Hproject : DataprocSubmitJobOperator.project_id self
                       = DataprocSubmitJobOperator.kw_project_id kw)
      by (rewrite Hself; reflexivity).
    assert (Hasync : DataprocSubmitJobOperator.asynchronous self
                     = DataprocSubmitJobOperator.kw_asynchronous kw)
      by (rewrite Hself; reflexivity).
    split; [exact Hregion |]. split; [rewrite Hself; reflexivity |].
    split; [rewrite Hself; reflexivity |].
    clear Hself.
    unfold DataprocSubmitJobOperator.execute.
    unfold Calls.bind, Calls.call, Calls.xcom_push, Calls.ret.
    destruct (Calls.submit_job hook log _) as [e | job_id]; [reflexivity |].
    unfold DataprocSubmitJobOperator.job_conf. rewrite Hregion, Hproject, Hasync.
    destruct (DataprocSubmitJobOperator.kw_asynchronous kw); cbn [negb].
    - exists [], (inr (DataprocSubmitJobOperator.with_job_id self job_id, job_id)).
      rewrite <- app_assoc. auto.
    - destruct (Calls.wait_for_job hook _ _) as [e | []];
        eexists _, _; rewrite <- !app_assoc; cbn [app]; split; reflexivity. }
  unfold DataprocSubmitJobOperator.__init__.
  destruct (DataprocSubmitJobOperator.kw_region kw) as [region |];
    [| destruct (DataprocSubmitJobOperator.kw_location kw) as [location |]];
    cbn [bind_result]; [| | reflexivity];
    eexists; (split; [reflexivity |]); apply Hbuilt; reflexivity.
Qed.

Lemma submit_job_region_witness :
  exists self,
    DataprocSubmitJobOperator.__init__ (submit_kwargs None (Some "europe-west1") true true)
    = inr self
    /\ DataprocSubmitJobOperator.region self = "europe-west1"%string.
Proof.
  destruct (submit_job_region (submit_kwargs None (Some "europe-west1") true true)
              (obliging_hook [] "job") [])
    as [self [Hinit [Hregion _]]].
  exists self. split; [exact Hinit | exact Hregion].
Defined.

(** ** The constructor of the create operator *)

Section CreateClusterConstructor.

Context {datetime : Type}.
Variable utc_strftime : datetime -> string.
Variable BaseOperator__init__ : list string -> result unit.

Import CreateClusterArguments.

(** X22.  With a cluster config the constructor never looks at the
    generator arguments: it hands every keyword argument that it has no
    parameter for to the constructor of the base class, raises what that
    raises, and otherwise keeps the config as it is.  Without a config it
    needs the project: it raises before the generator is built when there
    is none, and otherwise raises the [ValueError] of the generator for
    arguments in conflict, in both cases whatever the base class would
    do.  An operator that it builds from the keyword arguments was
    accepted by the base class, which saw neither [params] nor a parameter
    of the generator; its config is the one [make] gives for the project
    of the operator, and has no metadata in its network section, because
    the [metadata] argument belongs to the operator.  The region is
    [global] unless it is given. *)
Theorem create_cluster_constructor (kw : kwargs (datetime := datetime)) :
  let generator := generator_kwargs kw in
  let region_or_global := match region kw with
                          | Some region => region
                          | None => "global"%string
                          end in
  match cluster_config kw with
  | Some config =>
      match BaseOperator__init__ (keywords kw) with
      | inl e => __init__ utc_strftime BaseOperator__init__ kw = inl e
      | inr _ =>
          exists operator,
            __init__ utc_strftime BaseOperator__init__ kw = inr operator
            /\ DataprocCreateClusterOperator.cluster_config operator = config
            /\ DataprocCreateClusterOperator.project_id operator = project_id kw
            /\ DataprocCreateClusterOperator.region operator = region_or_global
      end
  | None =>
      match project_id kw with
      | None =>
          __init__ utc_strftime BaseOperator__init__ kw
          = inl (AirflowException
                   ("project_id argument is required when building cluster "
                    ++ "from keywords parameters"))
      | Some project =>
          ((2 <= image_sources generator)%nat \/ single_node_with_preemptible generator = true ->
           exists msg, __init__ utc_strftime BaseOperator__init__ kw = inl (ValueError msg))
          /\ forall operator,
              __init__ utc_strftime BaseOperator__init__ kw = inr operator ->
              BaseOperator__init__
                (del (fun arg => existsb (String.eqb arg) cluster_params)
                   (del (String.eqb "params") (keywords kw) ++ ["project_id"%string]))
              = inr tt
              /\ DataprocCreateClusterOperator.project_id operator = Some project
              /\ DataprocCreateClusterOperator.region operator = region_or_global
              /\ ClusterGenerator.make utc_strftime
                   (ClusterGenerator.attributes (generator_arguments project generator))
                 = inr (DataprocCreateClusterOperator.cluster_config operator)
              /\ getitem2 "gce_cluster_config" "metadata"
                   (DataprocCreateClusterOperator.cluster_config operator) = None
              /\ getitem2 "gce_cluster_config" "zone_uri"
                   (DataprocCreateClusterOperator.cluster_config operator)
                 = option_map
                     (fun zone =>
                        PyStr ("https://www.googleapis.com/compute/v1/projects/"
                               ++ project ++ "/zones/" ++ zone)%string)
                     (if_str (ClusterGenerator.zone generator))
      end
  end.
Proof.
  intros generator region_or_global. unfold __init__.
  destruct (cluster_config kw) as [config |].
  { cbn [bind_result fst snd].
    destruct (BaseOperator__init__ (keywords kw)) as [e | []]; [reflexivity |].
    eexists. split; [reflexivity |]. repeat split. }
  destruct (project_id kw) as [project |]; [| reflexivity].
  rewrite (init_outcome (generator_arguments project (generator_kwargs kw))).
  fold generator.
  change (is_set (ClusterGenerator.custom_image (generator_arguments project generator)))
    with (is_set (ClusterGenerator.custom_image generator)).
  change (is_set (ClusterGenerator.image_version (generator_arguments project generator)))
    with (is_set (ClusterGenerator.image_version generator)).
  change (is_set (ClusterGenerator.custom_image_family (generator_arguments project generator)))
    with (is_set (ClusterGenerator.custom_image_family generator)).
  change (single_node_with_preemptible (generator_arguments project generator))
    with (single_node_with_preemptible generator).
  split.
  - unfold image_sources. intros Hconflict.
    destruct (is_set (ClusterGenerator.custom_image generator));
      destruct (is_set (ClusterGenerator.image_version generator));
      destruct (is_set (ClusterGenerator.custom_image_family generator));
      cbn [andb bind_result]; eauto;
      destruct (single_node_with_preemptible generator); cbn [bind_result]; eauto;
      destruct Hconflict as [Hsources | Hsingle];
      try discriminate Hsingle; cbn in Hsources; lia.
  - intros operator Hbuilt.
    destruct (is_set (ClusterGenerator.custom_image generator)
              && is_set (ClusterGenerator.image_version generator));
      [discriminate Hbuilt |].
    destruct (is_set (ClusterGenerator.custom_image_family generator)
              && is_set (ClusterGenerator.image_version generator));
      [discriminate Hbuilt |].
    destruct (is_set (ClusterGenerator.custom_image_family generator)
              && is_set (ClusterGenerator.custom_image generator));
      [discriminate Hbuilt |].
    destruct (single_node_with_preemptible generator); [discriminate Hbuilt |].
    cbn [bind_result] in Hbuilt.
    destruct (ClusterGenerator.make utc_strftime
                (ClusterGenerator.attributes (generator_arguments project generator)))
      as [e | config] eqn:Hmake; [discriminate Hbuilt |].
    cbn [bind_result fst snd] in Hbuilt.
    destruct (BaseOperator__init__ _) as [e | []] eqn:Hbase; [discriminate Hbuilt |].
    cbn [bind_result] in Hbuilt.
    assert (Hoperator : operator = {|
              DataprocCreateClusterOperator.cluster_name := cluster_name kw;
              DataprocCreateClusterOperator.region := region_or_global;
              DataprocCreateClusterOperator.project_id := Some project;
              DataprocCreateClusterOperator.cluster_config := config;
              DataprocCreateClusterOperator.labels := labels kw;
              DataprocCreateClusterOperator.request_id := request_id kw;
              DataprocCreateClusterOperator.delete_on_error := delete_on_error kw;
              DataprocCreateClusterOperator.use_if_exists := use_if_exists kw;
              DataprocCreateClusterOperator.timeout := timeout kw |})
      by (subst region_or_global; destruct (region kw); congruence).
    rewrite Hoperator. cbn [DataprocCreateClusterOperator.project_id
                            DataprocCreateClusterOperator.region
                            DataprocCreateClusterOperator.cluster_config].
    split; [reflexivity |].
    split; [reflexivity |]. split; [reflexivity |]. split; [reflexivity |].
    destruct (make_contents utc_strftime _ _ Hmake)
      as [_ [_ [[d1 [d2 [E2 [Hg1 Hg]]]] _]]].
    destruct (gce_cluster_config_effect _ _ _ E2) as [_ [_ [_ G2]]].
    unfold getitem2. rewrite Hg, (G2 _ Hg1).
    cbn [ClusterGenerator.args ClusterGenerator.attributes ClusterGenerator.metadata
         ClusterGenerator.zone ClusterGenerator.project_id generator_arguments].
    split.
    + lookup. reflexivity.
    + lookup. destruct (if_str (ClusterGenerator.zone generator)); reflexivity.
Qed.

End CreateClusterConstructor.

Lemma create_cluster_constructor_witness :
  (exists msg,
      CreateClusterArguments.__init__ as_text task_id_only
        (cluster_kwargs (Some "project") None image_and_family_keywords image_and_family)
      = inl (ValueError msg))
  /\ (exists operator,
        CreateClusterArguments.__init__ as_text task_id_only
          (cluster_kwargs None (Some []) ["task_id"] generator_defaults)
        = inr operator
        /\ DataprocCreateClusterOperator.cluster_config operator = [])
  /\ CreateClusterArguments.__init__ as_text task_id_only
       (cluster_kwargs None (Some []) two_workers_keywords two_workers)
     = inl (AirflowException "Invalid argument: image_version")
  /\ CreateClusterArguments.__init__ as_text task_id_only
       (cluster_kwargs None None two_workers_keywords two_workers)
     = inl CreateClusterArguments.project_id_required
  /\ (forall operator,
        CreateClusterArguments.__init__ as_text task_id_only
          (cluster_kwargs (Some "project") None zonal_keywords (zonal_kwargs (Some 2) 0))
        = inr operator ->
        task_id_only ["task_id"] = inr tt
        /\ getitem2 "gce_cluster_config" "zone_uri"
             (DataprocCreateClusterOperator.cluster_config operator)
           = Some (PyStr ("https://www.googleapis.com/compute/v1/projects/project"
                          ++ "/zones/europe-west1-b")))
  /\ exists operator,
       CreateClusterArguments.__init__ as_text task_id_only
         (cluster_kwargs (Some "project") None zonal_keywords (zonal_kwargs (Some 2) 0))
       = inr operator.
Proof.
  split; [| split; [| split; [| split; [| split]]]].
  - apply (proj1 (create_cluster_constructor as_text task_id_only
                    (cluster_kwargs (Some "project") None image_and_family_keywords
                       image_and_family))).
    left. vm_compute. repeat constructor.
  - destruct (create_cluster_constructor as_text task_id_only
                (cluster_kwargs None (Some []) ["task_id"%string] generator_defaults))
      as [operator [Hbuilt [Hconfig _]]].
    exists operator. split; [exact Hbuilt | exact Hconfig].
  - exact (create_cluster_constructor as_text task_id_only
             (cluster_kwargs None (Some []) two_workers_keywords two_workers)).
  - exact (create_cluster_constructor as_text task_id_only
             (cluster_kwargs None None two_workers_keywords two_workers)).
  - intros operator Hbuilt.
    destruct (proj2 (create_cluster_constructor as_text task_id_only
                       (cluster_kwargs (Some "project") None zonal_keywords
                          (zonal_kwargs (Some 2) 0)))
                operator Hbuilt) as [Hbase [_ [_ [_ [_ Hzone]]]]].
    split; [exact Hbase | exact Hzone].
  - eexists. vm_compute. reflexivity.
Defined.

(** ** Duration strings: the edges *)

Lemma float_round_large (n : Z) : 2 ^ 53 <= n -> 2 ^ 53 <= float_round n.
Proof.
  intros Hn. unfold float_round.
  assert (H53 : 0 < 2 ^ 53) by reflexivity.
  assert (Hlog : 53 <= Z.log2 n) by (apply Z.log2_le_pow2; lia).
  set (e := Z.log2 n + 1 - 53).
  assert (He : 1 <= e) by (subst e; lia).
  destruct (Z.leb_spec e 0) as [Hle | _]; [lia |].
  assert (Hpow : 2 ^ (Z.log2 n) <= n) by (apply Z.log2_spec; lia).
  assert (Hsplit : 2 ^ (Z.log2 n) = 2 ^ 52 * 2 ^ e).
  { rewrite <- Z.pow_add_r by lia. f_equal. subst e. lia. }
  assert (H2e : 2 <= 2 ^ e).
  { change 2 with (2 ^ 1) at 1. apply Z.pow_le_mono_r; lia. }
  assert (Hq : 2 ^ 52 <= Z.shiftr n e).
  { rewrite Z.shiftr_div_pow2 by lia. apply Z.div_le_lower_bound; lia. }
  rewrite Z.shiftl_mul_pow2 by lia.
  assert (H52 : 0 < 2 ^ 52) by reflexivity.
  assert (Hq' : forall b : bool, Z.shiftr n e <= (if b then Z.shiftr n e + 1 else Z.shiftr n e))
    by (intros []; lia).
  match goal with
  | |- _ <= (if ?b then _ else _) * _ => specialize (Hq' b); set (q' := if b then _ else _) in *
  end.
  change (2 ^ 53) with (2 ^ 52 * 2). nia.
Qed.

(** A duration of [10^9] days or more, in a unit of [c >= 60] seconds. *)
Lemma timedelta_overflow (ds : string) (c : Z) :
  60 <= c ->
  timedelta_limit_seconds <= int_of_str ds * c ->
  timedelta_of (c * 1000000) (float_of_str ds) = inl OverflowError.
Proof.
  unfold timedelta_limit_seconds. intros Hc Hlim. unfold float_of_str.
  destruct (float_round (int_of_str ds) <? 2 ^ 1024); [| reflexivity].
  unfold timedelta_of, timedelta_max_days.
  assert (Hr : 86400000000000 <= float_round (int_of_str ds) * c).
  { destruct (Z_lt_le_dec (int_of_str ds) (2 ^ 53)) as [Hsmall | Hlarge].
    - rewrite float_round_small by assumption. exact Hlim.
    - pose proof (float_round_large _ Hlarge) as Hge.
      change (2 ^ 53) with 9007199254740992 in Hge. nia. }
  set (r := float_round (int_of_str ds)) in *.
  destruct (Z.ltb_spec 999999999 (r * (c * 1000000) / 86400000000)) as [_ | Hle];
    [reflexivity |].
  exfalso.
  assert (1000000000 <= r * (c * 1000000) / 86400000000)
    by (apply Z.div_le_lower_bound; lia).
  lia.
Qed.

(** X23.  A duration of [10^9] days or more in minutes, hours or days is
    beyond a [timedelta]: both parsers then raise [OverflowError], not
    their error for a malformed duration. *)
Theorem duration_overflow (s ds : string) (u : ascii) :
  u <> "s"%char ->
  timedelta_limit_seconds <= int_of_str ds * unit_seconds u ->
  (forall self : DataprocScaleClusterOperator.t,
      DataprocScaleClusterOperator.graceful_decommission_timeout self = Some s ->
      re_match "smdh" s = Some (ds, u) ->
      DataprocScaleClusterOperator._graceful_decommission_timeout_object self
      = inl OverflowError)
  /\ (forall (datetime : Type) (self : ClusterGenerator.t (datetime := datetime)),
        ClusterGenerator.init_action_timeout (ClusterGenerator.args self) = s ->
        re_match "sm" s = Some (ds, u) ->
        ClusterGenerator._get_init_action_timeout self = inl OverflowError).
Proof.
  intros Hu Hlim. split.
  - intros self Hs Hmatch.
    unfold DataprocScaleClusterOperator._graceful_decommission_timeout_object.
    rewrite Hs. destruct (re_match_nonempty _ _ _ _ Hmatch) as [c [s' ->]].
    rewrite if_str_nonempty. unfold DataprocScaleClusterOperator.parse_timeout.
    rewrite Hmatch.
    destruct (mem_ascii_smdh u (re_match_unit _ _ _ _ Hmatch))
      as [-> | [-> | [-> | ->]]]; [congruence | | |];
      cbn [Ascii.eqb Bool.eqb];
      unfold timedelta_minutes, timedelta_hours, timedelta_days.
    + change 60000000 with (60 * 1000000).
      rewrite (timedelta_overflow ds 60) by (try lia; exact Hlim). reflexivity.
    + change 86400000000 with (86400 * 1000000).
      rewrite (timedelta_overflow ds 86400) by (try lia; exact Hlim). reflexivity.
    + change 3600000000 with (3600 * 1000000).
      rewrite (timedelta_overflow ds 3600) by (try lia; exact Hlim). reflexivity.
  - intros datetime self Hs Hmatch.
    unfold ClusterGenerator._get_init_action_timeout. rewrite Hs, Hmatch.
    destruct (mem_ascii_sm u (re_match_unit _ _ _ _ Hmatch)) as [-> | ->];
      [congruence |].
    cbn [Ascii.eqb Bool.eqb]. unfold timedelta_minutes.
    change 60000000 with (60 * 1000000).
    rewrite (timedelta_overflow ds 60) by (try lia; exact Hlim). reflexivity.
Qed.

Lemma duration_overflow_witness :
  DataprocScaleClusterOperator._graceful_decommission_timeout_object
    (scale_operator (Some "1000000000d")) = inl OverflowError
  /\ ClusterGenerator._get_init_action_timeout (generator_with_timeout "1440000000000m")
     = inl OverflowError.
Proof.
  split.
  - apply (proj1 (duration_overflow "1000000000d" "1000000000" "d"
                    ltac:(discriminate) ltac:(vm_compute; discriminate))
             (scale_operator (Some "1000000000d")) eq_refl eq_refl).
  - apply (proj2 (duration_overflow "1440000000000m" "1440000000000" "m"
                    ltac:(discriminate) ltac:(vm_compute; discriminate))
             string (generator_with_timeout "1440000000000m") eq_refl eq_refl).
Defined.



Lemma decimal_digit_ascii (c : ascii) (rest : string) :
  is_digit c = true ->
  decimal_digit (String c rest) = Some (byte c - 48, String c EmptyString, rest).
Proof.
  unfold is_digit, decimal_digit, next_char, byte. intros Hc.
  apply andb_true_iff in Hc as [Hlow Hhigh].
  apply N.leb_le in Hlow, Hhigh.
  destruct (Z.ltb_spec (Z.of_N (N_of_ascii c)) 128) as [_ | Hge]; [| lia].
  unfold decimal_zeros. cbn [find].
  destruct (Z.leb_spec 48 (Z.of_N (N_of_ascii c))) as [_ | Hlt]; [| lia].
  destruct (Z.ltb_spec (Z.of_N (N_of_ascii c)) (48 + 10)) as [_ | Hge]; [| lia].
  reflexivity.
Qed.

Lemma decimal_digit_unit (u : ascii) (tl : string) :
  mem_ascii u "smdh" = true -> decimal_digit (String u tl) = None.
Proof.
  intros H. destruct (mem_ascii_smdh u H) as [-> | [-> | [-> | ->]]]; reflexivity.
Qed.

Lemma span_duration (ds : string) (u : ascii) (tl : string) (fuel : nat) :
  all_digits ds = true -> mem_ascii u "smdh" = true ->
  (String.length ds < fuel)%nat ->
  span fuel (duration ds u tl) = (ds, String u tl).
Proof.
  intros Hds Hu. unfold duration. revert fuel.
  induction ds as [| c ds IH]; intros fuel Hfuel;
    (destruct fuel as [| fuel]; [simpl in Hfuel; lia |]); cbn [span append].
  - rewrite (decimal_digit_unit u tl Hu). reflexivity.
  - cbn [all_digits] in Hds. apply andb_true_iff in Hds as [Hc Hds].
    rewrite (decimal_digit_ascii c _ Hc).
    rewrite (IH Hds fuel) by (simpl in Hfuel; lia). reflexivity.
Qed.

Lemma length_duration (ds : string) (u : ascii) (tl : string) :
  (String.length ds < String.length (duration ds u tl))%nat.
Proof.
  unfold duration. induction ds as [| c ds IH]; simpl; lia.
Qed.

Lemma span_digits_duration (ds : string) (u : ascii) (tl : string) :
  all_digits ds = true -> mem_ascii u "smdh" = true ->
  span_digits (duration ds u tl) = (ds, String u tl).
Proof.
  intros Hds Hu. unfold span_digits.
  apply span_duration; [assumption | assumption | apply length_duration].
Qed.

(** The strings that match: digits, a unit, and at most one newline. *)
Lemma re_match_duration (units ds : string) (u : ascii) (tl : string) :
  all_digits ds = true -> ds <> EmptyString -> mem_ascii u "smdh" = true ->
  re_match units (duration ds u tl)
  = if mem_ascii u units
       && ((tl =? EmptyString)%string || (tl =? String newline EmptyString)%string)
    then Some (ds, u)
    else None.
Proof.
  intros Hds Hne Hu. unfold re_match. rewrite (span_digits_duration ds u tl Hds Hu).
  destruct ds as [| d ds']; [congruence | reflexivity].
Qed.

(** X25.  What follows the unit of a duration.  One newline at the end is
    taken for the end of the string: the duration is read as without it,
    at both call sites.  Anything else after the unit makes the duration
    malformed. *)
Theorem duration_trailing_text (ds : string) (u : ascii) (tl : string) :
  all_digits ds = true -> ds <> EmptyString -> mem_ascii u "smdh" = true ->
  (forall self self' : DataprocScaleClusterOperator.t,
      DataprocScaleClusterOperator.graceful_decommission_timeout self
      = Some (duration ds u EmptyString) ->
      DataprocScaleClusterOperator.graceful_decommission_timeout self'
      = Some (duration ds u tl) ->
      DataprocScaleClusterOperator._graceful_decommission_timeout_object self'
      = if (tl =? EmptyString)%string || (tl =? String newline EmptyString)%string
        then DataprocScaleClusterOperator._graceful_decommission_timeout_object self
        else inl DataprocScaleClusterOperator.decommission_timeout_error)
  /\ (forall (datetime : Type) (self self' : ClusterGenerator.t (datetime := datetime)),
        ClusterGenerator.init_action_timeout (ClusterGenerator.args self)
        = duration ds u EmptyString ->
        ClusterGenerator.init_action_timeout (ClusterGenerator.args self')
        = duration ds u tl ->
        ClusterGenerator._get_init_action_timeout self'
        = if (tl =? EmptyString)%string || (tl =? String newline EmptyString)%string
          then ClusterGenerator._get_init_action_timeout self
          else inl ClusterGenerator.init_action_timeout_error).
Proof.
  intros Hds Hne Hu.
  assert (Hstart : forall tl', exists c s', duration ds u tl' = String c s').
  { intros tl'. unfold duration. destruct ds as [| c ds']; [congruence |].
    simpl. eauto. }
  split.
  - intros self self' Hs Hs'.
    unfold DataprocScaleClusterOperator._graceful_decommission_timeout_object.
    rewrite Hs, Hs'.
    destruct (Hstart EmptyString) as [c [s0 Hc]]. destruct (Hstart tl) as [c' [s1 Hc']].
    rewrite Hc, Hc', !if_str_nonempty, <- Hc, <- Hc'.
    unfold DataprocScaleClusterOperator.parse_timeout.
    rewrite !(re_match_duration "smdh" ds u) by assumption.
    rewrite Hu. cbn [andb orb String.eqb].
    destruct ((tl =? EmptyString)%string || (tl =? String newline EmptyString)%string);
      reflexivity.
  - intros datetime self self' Hs Hs'.
    unfold ClusterGenerator._get_init_action_timeout.
    rewrite Hs, Hs', !(re_match_duration "sm" ds u) by assumption.
    destruct (mem_ascii u "sm"); cbn [andb orb String.eqb]; [| 
      destruct ((tl =? EmptyString)%string || (tl =? String newline EmptyString)%string);
      reflexivity].
    destruct ((tl =? EmptyString)%string || (tl =? String newline EmptyString)%string);
      reflexivity.
Qed.

Lemma duration_trailing_text_witness :
  DataprocScaleClusterOperator._graceful_decommission_timeout_object
    (scale_operator (Some (duration "10" "m" (String newline EmptyString))))
  = DataprocScaleClusterOperator._graceful_decommission_timeout_object
      (scale_operator (Some "10m"))
  /\ ClusterGenerator._get_init_action_timeout (generator_with_timeout "10m ")
     = inl ClusterGenerator.init_action_timeout_error.
Proof.
  split.
  - apply (proj1 (duration_trailing_text "10" "m" (String newline EmptyString)
                    eq_refl ltac:(discriminate) eq_refl)
             (scale_operator (Some "10m"))
             (scale_operator (Some (duration "10" "m" (String newline EmptyString))))
             eq_refl eq_refl).
  - apply (proj2 (duration_trailing_text "10" "m" " " eq_refl ltac:(discriminate) eq_refl)
             string (generator_with_timeout "10m") (generator_with_timeout "10m ")
             eq_refl eq_refl).
Defined.
